(** * synctool.object : reconciliation of a source entry with its destination

    A shallow embedding of [src/synctool/object.py]: the [VNode] class
    hierarchy (regular file, directory, symbolic link, fifo, character and
    block device) and [SyncObject] ([check], [vnode_obj], [vnode_dest_obj],
    [check_purge_timestamp]), over an explicit model of the filesystem and
    of the output channels; and of [aggregate] of [src/synctool_aggr.py],
    as a function from the lines read to the lines printed.

    Conventions of the model.
    - The filesystem is a finite map from path strings (as the code builds
      them, e.g. [name + ".saved"]) to entries; the entries below a directory
      [d] are the keys that start with [d/].
    - A Python method with side effects is a computation [M A]: it takes the
      filesystem, and gives back a result (a value or a raised exception), the
      new filesystem and the chronological list of events it produced (calls
      to the output helpers of [synctool.lib] and calls to the OS).
    - Every OS call first asks the fault oracle [faulty] of the platform, so
      that any call can fail for a reason the model does not know about
      (permissions, I/O errors, races).  [os.*] calls fail with [OSError],
      [open], [read] and [shutil.copy] with [IOError].
    - The calls are those of Linux for a privileged process, which is what
      setting owners takes: [chmod] gives an entry the bits it is asked
      for, [chown] takes the set-user-ID and set-group-ID bits off an entry
      that is not a directory, [mkdir] honours the permission bits and the
      sticky bit of its mode.
    - There is no clock: times are whole numbers, an entry that is made
      has the times 0, and looking at an entry does not change them.
    - A symbolic link is an entry of its own, and the model does not walk
      through it: [chown], [chmod], [utime], [stat], [open], [shutil.copy]
      and [os.path.exists] on a path whose last component is a symbolic link
      fail here, where the OS goes on to the entry that the link names.
      The calls of the link variant ([lchown], [lchmod], [readlink]) and
      [lstat] act on the link itself.  [check] leaves a destination that
      is a symbolic link to the link variant, or has it removed before
      anything is made in its place: on a snapshot that is current the
      former calls meet a symbolic link only after a removal that has
      failed.  [check_purge_timestamp] does not look at the type. *)

From stdpp Require Import gmap strings list fin_maps pretty sorting.
From Stdlib Require Import ZArith.
From Stdlib.Strings Require Import Ascii Byte.

Open Scope Z_scope.

#[global] Instance byte_eq_decision : EqDecision byte := byte_eq_dec.

(** ** Entries of the filesystem *)

Inductive filetype :=
  | S_IFREG | S_IFDIR | S_IFLNK | S_IFIFO | S_IFCHR | S_IFBLK | S_IFSOCK.

#[global] Instance filetype_eq_dec : EqDecision filetype.
Proof. solve_decision. Defined.

Inductive node :=
  | Reg (data : list byte)
  | Directory
  | Symlink (target : string)
  | Fifo
  | CharDev (rdev : Z)
  | BlockDev (rdev : Z)
  | Socket.

Record inode := Inode {
  i_node : node;
  i_perm : Z;     (* permission bits, within 07777 *)
  i_uid : Z;
  i_gid : Z;
  i_atime : Z;
  i_mtime : Z
}.

Abbreviation FS := (gmap string inode).

Definition node_type (n : node) : filetype :=
  match n with
  | Reg _ => S_IFREG
  | Directory => S_IFDIR
  | Symlink _ => S_IFLNK
  | Fifo => S_IFIFO
  | CharDev _ => S_IFCHR
  | BlockDev _ => S_IFBLK
  | Socket => S_IFSOCK
  end.

(** The [S_IFMT] bits of [st_mode], as in [stat.h]. *)
Definition ifmt_bits (t : filetype) : Z :=
  match t with
  | S_IFIFO => 4096      (* 0010000 *)
  | S_IFCHR => 8192      (* 0020000 *)
  | S_IFDIR => 16384     (* 0040000 *)
  | S_IFBLK => 24576     (* 0060000 *)
  | S_IFREG => 32768     (* 0100000 *)
  | S_IFLNK => 40960     (* 0120000 *)
  | S_IFSOCK => 49152    (* 0140000 *)
  end.

Definition is_dir_node (i : inode) : bool :=
  match i_node i with Directory => true | _ => false end.

Definition node_size (n : node) : Z :=
  match n with
  | Reg data => Z.of_nat (length data)
  | Symlink t => Z.of_nat (String.length t)
  | _ => 0
  end.

Definition node_rdev (n : node) : Z :=
  match n with
  | CharDev r | BlockDev r => r
  | _ => 0
  end.

(** What [os.lstat] and [os.stat] return. *)
Record stat_result := StatResult {
  st_mode : Z;
  st_uid : Z;
  st_gid : Z;
  st_size : Z;
  st_rdev : Z;
  st_atime : Z;
  st_mtime : Z
}.

Definition stat_of (i : inode) : stat_result :=
  {| st_mode := Z.lor (ifmt_bits (node_type (i_node i))) (Z.land (i_perm i) 4095);
     st_uid := i_uid i;
     st_gid := i_gid i;
     st_size := node_size (i_node i);
     st_rdev := node_rdev (i_node i);
     st_atime := i_atime i;
     st_mtime := i_mtime i |}.

(** ** Paths *)

Fixpoint all_slashes (l : list ascii) : bool :=
  match l with
  | [] => true
  | c :: l' => bool_decide (c = "/"%char) && all_slashes l'
  end.

Fixpoint drop_to_slash (l : list ascii) : list ascii :=
  match l with
  | [] => []
  | c :: l' => if bool_decide (c = "/"%char) then l else drop_to_slash l'
  end.

Fixpoint take_to_slash (l : list ascii) : list ascii :=
  match l with
  | [] => []
  | c :: l' => if bool_decide (c = "/"%char) then [] else c :: take_to_slash l'
  end.

Fixpoint strip_slashes (l : list ascii) : list ascii :=
  match l with
  | [] => []
  | c :: l' => if bool_decide (c = "/"%char) then strip_slashes l' else l
  end.

(** [os.path.dirname] of posixpath, on the reversed list of characters:
    the head is everything up to and including the last slash, and its
    trailing slashes are stripped unless it consists of slashes only. *)
Definition dirname_rev (r : list ascii) : list ascii :=
  let head := drop_to_slash r in
  if all_slashes head then head else strip_slashes head.

Definition dirname (p : string) : string :=
  String.string_of_list_ascii (rev (dirname_rev (rev (String.list_ascii_of_string p)))).

(** [os.path.basename]: everything after the last slash. *)
Definition basename (p : string) : string :=
  String.string_of_list_ascii (rev (take_to_slash (rev (String.list_ascii_of_string p)))).

Definition is_root (p : string) : bool :=
  match String.list_ascii_of_string p with
  | [] => false
  | l => all_slashes l
  end.

(** ** Number formatting of the [%] operator *)

Definition oct_digit (n : N) : ascii :=
  Ascii.ascii_of_N (48 + n).

Fixpoint oct_go (fuel : nat) (n : N) (acc : string) : string :=
  match fuel with
  | O => acc
  | S fuel' =>
      let acc' := String (oct_digit (n mod 8)) acc in
      if (n / 8 =? 0)%N then acc' else oct_go fuel' (n / 8) acc'
  end.

(** ['%o' % n] for [0 <= n]. *)
Definition fmt_o (n : Z) : string :=
  let m := Z.to_N n in oct_go (S (N.to_nat (N.log2 m))) m "".

Fixpoint zero_pad (k : nat) (s : string) : string :=
  match k with
  | O => s
  | S k' => zero_pad k' (String "0"%char s)
  end.

(** ['%04o' % n] for [0 <= n]. *)
Definition fmt_04o (n : Z) : string :=
  let s := fmt_o n in zero_pad (4 - String.length s) s.

(** ['%d' % n]. *)
Definition fmt_d (n : Z) : string := pretty n.

(** ** Prefixes of paths *)

(** [strip_prefix a k] is the rest of [k] after the prefix [a], if [k]
    starts with [a]. *)
Fixpoint strip_prefix (a k : string) : option string :=
  match a with
  | EmptyString => Some k
  | String c a' =>
      match k with
      | EmptyString => None
      | String c' k' => if decide (c = c') then strip_prefix a' k' else None
      end
  end.

(** [k] lies strictly below the directory [d]: it starts with [d/]. *)
Definition under (d k : string) : bool :=
  match strip_prefix d k with
  | Some (String "/" _) => true
  | _ => false
  end.

(** [k] is [a] or lies below it. *)
Definition in_tree (a k : string) : bool :=
  match strip_prefix a k with
  | Some EmptyString => true
  | Some (String "/" _) => true
  | _ => false
  end.

(** The path of [k] after its prefix [a] has been replaced by [b]. *)
Definition rebase (a b k : string) : string :=
  match strip_prefix a k with
  | Some s => b +:+ s
  | None => k
  end.

Definition has_children (d : string) (fs : FS) : bool :=
  bool_decide (map_Exists (λ k _, under d k = true) fs).

(** The ancestor directories of a path, outermost first: the prefixes that
    end just before a slash, the empty prefix and the root excepted. *)
Fixpoint ancestors_go (pre l : list ascii) : list string :=
  match l with
  | [] => []
  | c :: l' =>
      (if bool_decide (c = "/"%char) && negb (all_slashes pre)
          && negb (match pre with "/"%char :: _ => true | _ => false end)
       then [String.string_of_list_ascii (rev pre)] else [])
      ++ ancestors_go (c :: pre) l'
  end.

Definition ancestors (p : string) : list string :=
  ancestors_go [] (String.list_ascii_of_string p).

(** ** Calls to the operating system and to the libraries *)

Inductive syscall :=
  | Rename (old new : string)
  | Unlink (p : string)
  | Rmdir (p : string)
  | Mkdir (p : string) (m : Z)
  | Chown (p : string) (u g : Z)
  | Lchown (p : string) (u g : Z)
  | Chmod (p : string) (m : Z)
  | Lchmod (p : string) (m : Z)
  | Utime (p : string) (atime mtime : Z)
  | Symlnk (target p : string)
  | Mkfifo (p : string) (m : Z)
  | Mknod (p : string) (m dev : Z)
  | Copy (src dst : string)          (* shutil.copy *)
  | MkdirP (p : string)              (* synctool.lib.mkdir_p *)
  | Readlink (p : string)
  | Lstat (p : string)
  | Stat (p : string)
  | PathExists (p : string)
  | Open (p : string)
  | Read (p : string) (block : nat).

#[global] Instance syscall_eq_dec : EqDecision syscall.
Proof. solve_decision. Defined.

(** The calls that change the filesystem when they succeed. *)
Definition mutating (c : syscall) : bool :=
  match c with
  | Readlink _ | Lstat _ | Stat _ | PathExists _ | Open _ | Read _ _ => false
  | _ => true
  end.

(** The tags of [synctool.lib.terse]. *)
Inductive terse_code :=
  | TERSE_INFO | TERSE_WARNING | TERSE_ERROR | TERSE_FAIL | TERSE_SYNC
  | TERSE_LINK | TERSE_MKDIR | TERSE_DELETE | TERSE_OWNER | TERSE_MODE
  | TERSE_EXEC | TERSE_UPLOAD | TERSE_NEW | TERSE_TYPE | TERSE_DRYRUN
  | TERSE_FIXING | TERSE_OK.

(** What a run leaves behind besides the filesystem: the calls to the
    output helpers, with their argument, and the calls to the OS, with
    whether they succeeded. *)
Inductive event :=
  | EvStdout (s : string)
  | EvStderr (s : string)
  | EvVerbose (s : string)
  | EvUnixOut (s : string)
  | EvTerse (code : terse_code) (s : string)
  | EvLog (s : string)
  | EvSys (c : syscall) (ok : bool).

Definition is_sys (e : event) : option syscall :=
  match e with EvSys c _ => Some c | _ => None end.

(** The OS calls of a run, in order. *)
Definition syscalls (l : list event) : list syscall := omap is_sys l.

(** The calls of a run that would change the filesystem. *)
Definition mutations (l : list event) : list syscall :=
  filter (λ c, mutating c = true) (syscalls l).

(** ** Exceptions and the monad of effects *)

Inductive exn :=
  | OSError (strerror : string)
  | IOError (strerror : string)
  | AttributeError (msg : string).

Inductive exn_class := ClsOSError | ClsIOError | ClsAttributeError.

#[global] Instance exn_class_eq_dec : EqDecision exn_class.
Proof. solve_decision. Defined.

Definition class_of (e : exn) : exn_class :=
  match e with
  | OSError _ => ClsOSError
  | IOError _ => ClsIOError
  | AttributeError _ => ClsAttributeError
  end.

Definition strerror_of (e : exn) : string :=
  match e with OSError s | IOError s | AttributeError s => s end.

Inductive result (A : Type) :=
  | Ret (a : A)
  | Raise (e : exn).
Arguments Ret {A} a.
Arguments Raise {A} e.

Definition M (A : Type) : Type := FS → result A * FS * list event.

Definition ret {A} (a : A) : M A := λ fs, (Ret a, fs, []).

Definition raise {A} (e : exn) : M A := λ fs, (Raise e, fs, []).

Definition bind {A B} (m : M A) (k : A → M B) : M B := λ fs,
  match m fs with
  | (Ret a, fs1, l1) => let '(r, fs2, l2) := k a fs1 in (r, fs2, l1 ++ l2)
  | (Raise e, fs1, l1) => (Raise e, fs1, l1)
  end.

Definition emit (e : event) : M unit := λ fs, (Ret tt, fs, [e]).

(** [try: body except cls as err: handler err]. *)
Definition try_except {A} (body : M A) (cls : exn_class)
    (handler : exn → M A) : M A := λ fs,
  match body fs with
  | (Raise e, fs1, l1) =>
      if decide (class_of e = cls)
      then let '(r, fs2, l2) := handler e fs1 in (r, fs2, l1 ++ l2)
      else (Raise e, fs1, l1)
  | done => done
  end.

(** [try: body except cls as err: handler err else: orelse]. *)
Definition try_except_else {A B} (body : M A) (cls : exn_class)
    (handler : exn → M B) (orelse : A → M B) : M B := λ fs,
  match body fs with
  | (Raise e, fs1, l1) =>
      if decide (class_of e = cls)
      then let '(r, fs2, l2) := handler e fs1 in (r, fs2, l1 ++ l2)
      else (Raise e, fs1, l1)
  | (Ret a, fs1, l1) => let '(r, fs2, l2) := orelse a fs1 in (r, fs2, l1 ++ l2)
  end.

Declare Scope py_scope.
Delimit Scope py_scope with py.
Notation "x ← y ; z" := (bind y (λ x, z))
  (at level 20, y at level 100, z at level 200, only parsing) : py_scope.
Notation "x ;; z" := (bind x (λ _, z))
  (at level 100, z at level 200, only parsing, right associativity) : py_scope.
Open Scope py_scope.

Definition when (b : bool) (m : M unit) : M unit := if b then m else ret tt.

Definition result_of {A} (o : result A * FS * list event) : result A := o.1.1.
Definition fs_of {A} (o : result A * FS * list event) : FS := o.1.2.
Definition events_of {A} (o : result A * FS * list event) : list event := o.2.
Arguments result_of {A} !o /.
Arguments fs_of {A} !o /.
Arguments events_of {A} !o /.

(** ** The output helpers of synctool.lib *)

Definition stdout (s : string) : M unit := emit (EvStdout s).
Definition stderr (s : string) : M unit := emit (EvStderr s).
Definition verbose (s : string) : M unit := emit (EvVerbose s).
Definition unix_out (s : string) : M unit := emit (EvUnixOut s).
Definition terse (code : terse_code) (s : string) : M unit := emit (EvTerse code s).
Definition log (s : string) : M unit := emit (EvLog s).

(** ** Run configuration, platform and libraries *)

(** The process-wide flags: [synctool.lib.DRY_RUN], [synctool.lib.VERBOSE],
    [synctool.lib.UNIX_CMD] and [synctool.param.BACKUP_COPIES]. *)
Record Config := {
  DRY_RUN : bool;
  VERBOSE : bool;
  UNIX_CMD : bool;
  BACKUP_COPIES : bool
}.

(** The platform: which optional calls the [os] module has, who the process
    runs as, and which calls fail (with which message) for reasons outside
    of the model. *)
Record Platform := {
  has_lchown : bool;        (* hasattr(os, 'lchown') *)
  has_lchmod : bool;        (* hasattr(os, 'lchmod') *)
  euid : Z;
  egid : Z;
  umask : Z;
  faulty : syscall → bool;
  strerror : syscall → string
}.

(** [hashlib.md5()]: a fresh state, [update] and [digest].  Feeding the data
    in pieces is the same as feeding their concatenation, as the
    documentation of hashlib has it. *)
Class Hashlib := {
  hash_state : Type;
  hash_digest : Type;
  hash_digest_eq_dec :: EqDecision hash_digest;
  md5 : hash_state;
  update : hash_state → list byte → hash_state;
  digest : hash_state → hash_digest;
  update_app : ∀ s a b, update (update s a) b = update s (a ++ b)
}.

(** [os.major], [os.minor] and [os.makedev]: a device number that is taken
    apart and put together again is the same number. *)
Class DevNumbers := {
  major : Z → Z;
  minor : Z → Z;
  makedev : Z → Z → Z;
  makedev_major_minor : ∀ r, makedev (major r) (minor r) = r
}.

(** The text helpers that are not part of this module: [dryrun_msg] (given
    the dry-run flag) and [prettypath] of synctool.lib, and the names of
    users and groups. *)
Class LibText := {
  dryrun_msg : bool → string → string;
  prettypath : string → string;
  pw_name : Z → string;      (* the user name that ascii_uid() renders *)
  gr_name : Z → string       (* the group name that ascii_gid() renders *)
}.

(** ** The filesystem steps of the OS calls *)

(** Permission bits without the set-user-ID bit (04000), and without the
    set-group-ID bit (02000) as well when the group may execute (0010). *)
Definition strip_ids (perm : Z) : Z :=
  Z.ldiff perm (if Z.testbit perm 3 then 3072 else 2048).

(** The permission bits that [chown] and [lchown] leave, whoever calls:
    those of a directory and of a symbolic link stay, any other entry
    loses its set-ID bits. *)
Definition chown_perm (i : inode) : Z :=
  match i_node i with
  | Directory | Symlink _ => i_perm i
  | _ => strip_ids (i_perm i)
  end.

(** The entry after [chown(u, g)]. *)
Definition with_owner (u g : Z) (i : inode) : inode :=
  Inode (i_node i) (chown_perm i) u g (i_atime i) (i_mtime i).

Definition with_perm (m : Z) (i : inode) : inode :=
  Inode (i_node i) (Z.land m 4095) (i_uid i) (i_gid i) (i_atime i) (i_mtime i).

Definition with_times (a m : Z) (i : inode) : inode :=
  Inode (i_node i) (i_perm i) (i_uid i) (i_gid i) a m.

Definition with_node (n : node) (i : inode) : inode :=
  Inode n (i_perm i) (i_uid i) (i_gid i) (i_atime i) (i_mtime i).

Definition is_symlink (i : inode) : bool :=
  match i_node i with Symlink _ => true | _ => false end.

(** The entries at and below [a] are moved to [b]; whatever was at and
    below [b] is gone. *)
Definition move_tree (a b : string) (fs : FS) : FS :=
  foldr (λ kv acc, <[rebase a b kv.1 := kv.2]> acc)
        (filter (λ kv, in_tree a kv.1 = false ∧ in_tree b kv.1 = false) fs)
        (map_to_list (filter (λ kv, in_tree a kv.1 = true) fs)).

(** rename(2): the old entry must exist; a directory replaces only an empty
    directory, any other entry replaces only a non-directory; a directory
    is not moved below itself. *)
Definition rename_step (old new : string) (fs : FS) : option FS :=
  match fs !! old with
  | None => None
  | Some io =>
      if bool_decide (old = new) then Some fs
      else if in_tree old new || in_tree new old then None
      else match fs !! new with
           | None => Some (move_tree old new fs)
           | Some inew =>
               if is_dir_node io
               then if is_dir_node inew && negb (has_children new fs)
                    then Some (move_tree old new fs) else None
               else if is_dir_node inew then None
                    else Some (move_tree old new fs)
           end
  end.

(** unlink(2): removes any entry but a directory. *)
Definition unlink_step (p : string) (fs : FS) : option FS :=
  match fs !! p with
  | Some i => if is_dir_node i then None else Some (delete p fs)
  | None => None
  end.

(** rmdir(2): removes an empty directory. *)
Definition rmdir_step (p : string) (fs : FS) : option FS :=
  match fs !! p with
  | Some i =>
      if is_dir_node i && negb (has_children p fs)
      then Some (delete p fs) else None
  | None => None
  end.

Definition create_step (p : string) (i : inode) (fs : FS) : option FS :=
  match fs !! p with
  | None => Some (<[p := i]> fs)
  | Some _ => None
  end.

(** A change of the attributes of the entry at [p].  [chown], [chmod] and
    [utime] ([follow]) are not taken through a symbolic link; the [l]
    variants act on the link itself. *)
Definition alter_step (follow : bool) (f : inode → inode) (p : string)
    (fs : FS) : option FS :=
  match fs !! p with
  | Some i => if follow && is_symlink i then None else Some (<[p := f i]> fs)
  | None => None
  end.

(** [shutil.copy(src, dst)]: the content and the permission bits of the
    regular file [src] go to [dst], or into [dst] when that is a directory. *)
Definition copy_step (new : node → Z → inode) (src dst : string) (fs : FS)
    : option FS :=
  match fs !! src with
  | Some isrc =>
      match i_node isrc with
      | Reg data =>
          let target :=
            match fs !! dst with
            | Some idst =>
                if is_dir_node idst then dst +:+ "/" +:+ basename src else dst
            | None => dst
            end in
          if bool_decide (target = src) then None
          else match fs !! target with
               | None => Some (<[target := new (Reg data) (i_perm isrc)]> fs)
               | Some it =>
                   match i_node it with
                   | Reg _ =>
                       Some (<[target :=
                                 with_perm (i_perm isrc) (with_node (Reg data) it)]> fs)
                   | _ => None
                   end
               end
      | _ => None
      end
  | None => None
  end.

(** One directory of a chain: kept when it is there, made when missing. *)
Definition ensure_dir (new : inode) (acc : option FS) (d : string) : option FS :=
  match acc with
  | None => None
  | Some fs =>
      match fs !! d with
      | Some i => if is_dir_node i then Some fs else None
      | None => Some (<[d := new]> fs)
      end
  end.

(** Modelled from the spec: [synctool.lib.mkdir_p] is not part of this
    module; the spec has it "ensure the parent directory chain exists
    (recursive make-directory)".  The empty path and the root are there. *)
Definition mkdir_p_step (new : inode) (p : string) (fs : FS) : option FS :=
  if bool_decide (p = "") || is_root p then Some fs
  else foldl (ensure_dir new) (Some fs) (ancestors p ++ [p]).

(** The device node that [mknod] makes for a mode, if it is a device mode. *)
Definition device_node (m dev : Z) : option node :=
  if Z.land m 61440 =? 8192 then Some (CharDev dev)
  else if Z.land m 61440 =? 24576 then Some (BlockDev dev)
  else None.

(** An open file: its name, what is left to read and the number of the
    next block. *)
Record file := File {
  f_name : string;
  f_rest : list byte;
  f_block : nat
}.

Section OS.
Context (plat : Platform).

(** An entry made by this process, with the given permission bits. *)
Definition fresh_inode (n : node) (perm : Z) : inode :=
  Inode n (Z.land perm 4095) (euid plat) (egid plat) 0 0.

(** An entry made by a call that takes a mode: the umask applies. *)
Definition new_inode (n : node) (m : Z) : inode :=
  fresh_inode n (Z.ldiff m (umask plat)).

(** A call [c]: it fails when the platform says so or when its step is
    not possible, and then raises the exception built by [err]. *)
Definition sys_call {A} (c : syscall) (err : string → exn)
    (step : FS → option (A * FS)) : M A := λ fs,
  if faulty plat c then (Raise (err (strerror plat c)), fs, [EvSys c false])
  else match step fs with
       | Some (a, fs') => (Ret a, fs', [EvSys c true])
       | None => (Raise (err (strerror plat c)), fs, [EvSys c false])
       end.

Definition change (step : FS → option FS) (fs : FS) : option (unit * FS) :=
  (λ fs', (tt, fs')) <$> step fs.

Definition query {A} (f : FS → option A) (fs : FS) : option (A * FS) :=
  (λ a, (a, fs)) <$> f fs.

Definition os_rename (old new : string) : M unit :=
  sys_call (Rename old new) OSError (change (rename_step old new)).

Definition os_unlink (p : string) : M unit :=
  sys_call (Unlink p) OSError (change (unlink_step p)).

Definition os_rmdir (p : string) : M unit :=
  sys_call (Rmdir p) OSError (change (rmdir_step p)).

(** mkdir(2): of the mode, the permission bits and the sticky bit count
    (01777). *)
Definition os_mkdir (p : string) (m : Z) : M unit :=
  sys_call (Mkdir p m) OSError
    (change (create_step p (new_inode Directory (Z.land m 1023)))).

Definition os_chown (p : string) (u g : Z) : M unit :=
  sys_call (Chown p u g) OSError (change (alter_step true (with_owner u g) p)).

Definition os_lchown (p : string) (u g : Z) : M unit :=
  sys_call (Lchown p u g) OSError (change (alter_step false (with_owner u g) p)).

Definition os_chmod (p : string) (m : Z) : M unit :=
  sys_call (Chmod p m) OSError (change (alter_step true (with_perm m) p)).

Definition os_lchmod (p : string) (m : Z) : M unit :=
  sys_call (Lchmod p m) OSError (change (alter_step false (with_perm m) p)).

Definition os_utime (p : string) (atime mtime : Z) : M unit :=
  sys_call (Utime p atime mtime) OSError
    (change (alter_step true (with_times atime mtime) p)).

(** A symbolic link always has mode 0777. *)
Definition os_symlink (target p : string) : M unit :=
  sys_call (Symlnk target p) OSError
    (change (create_step p (fresh_inode (Symlink target) 511))).

Definition os_mkfifo (p : string) (m : Z) : M unit :=
  sys_call (Mkfifo p m) OSError (change (create_step p (new_inode Fifo m))).

Definition os_mknod (p : string) (m dev : Z) : M unit :=
  sys_call (Mknod p m dev) OSError
    (change (λ fs, device_node m dev ≫= λ n, create_step p (new_inode n m) fs)).

Definition shutil_copy (src dst : string) : M unit :=
  sys_call (Copy src dst) IOError (change (copy_step fresh_inode src dst)).

Definition os_readlink (p : string) : M string :=
  sys_call (Readlink p) OSError
    (query (λ fs, fs !! p ≫= λ i,
                  match i_node i with Symlink t => Some t | _ => None end)).

Definition os_lstat (p : string) : M stat_result :=
  sys_call (Lstat p) OSError (query (λ fs, stat_of <$> fs !! p)).

Definition os_stat (p : string) : M stat_result :=
  sys_call (Stat p) OSError
    (query (λ fs, fs !! p ≫= λ i,
                  if is_symlink i then None else Some (stat_of i))).

(** [os.path.exists] is [os.stat] with its failure turned into [False]. *)
Definition os_path_exists (p : string) : M bool :=
  try_except (os_stat p ;; ret true) ClsOSError (λ _, ret false).

(** [open(p, 'rb')] of a regular file. *)
Definition open_rb (p : string) : M file :=
  sys_call (Open p) IOError
    (query (λ fs, fs !! p ≫= λ i,
                  match i_node i with
                  | Reg data => Some (File p data 0)
                  | _ => None
                  end)).

(** [f.read(n)]: the next [n] bytes, fewer at the end of the file. *)
Definition file_read (f : file) (n : nat) : M (list byte * file) :=
  sys_call (Read (f_name f) (f_block f)) IOError
    (query (λ _, Some (take n (f_rest f),
                       File (f_name f) (drop n (f_rest f)) (S (f_block f))))).

(** Modelled from the spec: [synctool.lib.mkdir_p] is not part of this
    module.  By the spec no failure below the core is fatal: a chain that
    can not be made is reported, and the call returns. *)
Definition mkdir_p (p : string) : M unit :=
  try_except
    (sys_call (MkdirP p) OSError
       (change (mkdir_p_step (new_inode Directory 511) p)))
    ClsOSError
    (λ _, ret tt).
End OS.

(** ** The stat snapshot *)

Inductive entry_type :=
  | TFile | TDir | TSymlink | TFifo | TCharDev | TBlockDev | TUnknown.

#[global] Instance entry_type_eq_dec : EqDecision entry_type.
Proof. solve_decision. Defined.

(** Modelled from the spec: [synctool.syncstat.SyncStat] is not part of this
    module.  The spec has it as an immutable view of one path at a point in
    time, with the fields exists, type, mode, uid and gid; the code below
    reads [size] from it as well. *)
Record SyncStat := {
  entry_exists : bool;
  entry_type_of : entry_type;
  mode : Z;
  uid : Z;
  gid : Z;
  size : Z
}.

Definition stat_exists (st : SyncStat) : bool := entry_exists st.
Definition filetype_of (st : SyncStat) : entry_type := entry_type_of st.

Definition is_type (t : entry_type) (st : SyncStat) : bool :=
  entry_exists st && bool_decide (entry_type_of st = t).

Definition is_file := is_type TFile.
Definition is_dir := is_type TDir.
Definition is_link := is_type TSymlink.
Definition is_fifo := is_type TFifo.
Definition is_chardev := is_type TCharDev.
Definition is_blockdev := is_type TBlockDev.

Definition ascii_uid `{LibText} (st : SyncStat) : string := pw_name (uid st).
Definition ascii_gid `{LibText} (st : SyncStat) : string := gr_name (gid st).

Definition entry_type_of_node (n : node) : entry_type :=
  match n with
  | Reg _ => TFile
  | Directory => TDir
  | Symlink _ => TSymlink
  | Fifo => TFifo
  | CharDev _ => TCharDev
  | BlockDev _ => TBlockDev
  | Socket => TUnknown
  end.

Definition missing_stat : SyncStat :=
  {| entry_exists := false; entry_type_of := TUnknown;
     mode := 0; uid := 0; gid := 0; size := 0 |}.

Definition snapshot (i : inode) : SyncStat :=
  {| entry_exists := true;
     entry_type_of := entry_type_of_node (i_node i);
     mode := st_mode (stat_of i);
     uid := i_uid i;
     gid := i_gid i;
     size := node_size (i_node i) |}.

(** ** VNode: the actions on one directory entry *)

(** The subclasses of [VNode], with the attributes they add. *)
Inductive vnode_class :=
  | VNodeFile (src_path : string)
  | VNodeDir
  | VNodeLink (oldpath : string)
  | VNodeFifo
  | VNodeChrDev (src_stat : stat_result)
  | VNodeBlkDev (src_stat : stat_result).

(** [name] is the destination path, [stat] the snapshot of the source and
    [vexists] whether the destination existed (the attribute [exists]). *)
Record VNode := {
  name : string;
  stat : SyncStat;
  vexists : bool;
  cls : vnode_class
}.

(** Size for doing I/O while checksumming files. *)
Definition IO_SIZE : nat := 16 * 1024.

Section Object.
Context `{Hashlib, DevNumbers, LibText}.
Context (cfg : Config) (plat : Platform).

Definition typename (v : VNode) : string :=
  match cls v with
  | VNodeFile _ => "regular file"
  | VNodeDir => "directory"
  | VNodeLink _ => "symbolic link"
  | VNodeFifo => "fifo"
  | VNodeChrDev _ => "character device file"
  | VNodeBlkDev _ => "block device file"
  end.

(** move existing entry to .saved *)
Definition move_saved (v : VNode) : M unit :=
  verbose (dryrun_msg (DRY_RUN cfg)
             ("saving " +:+ name v +:+ " as " +:+ name v +:+ ".saved")) ;;
  unix_out ("mv " +:+ name v +:+ " " +:+ name v +:+ ".saved") ;;
  when (negb (DRY_RUN cfg))
    (verbose ("  os.rename(" +:+ name v +:+ ", " +:+ name v +:+ ".saved)") ;;
     try_except (os_rename plat (name v) (name v +:+ ".saved")) ClsOSError
       (λ err,
          stderr ("failed to save " +:+ name v +:+ " as " +:+ name v
                  +:+ ".saved : " +:+ strerror_of err) ;;
          terse TERSE_FAIL ("save " +:+ name v +:+ ".saved"))).

(** delete existing entry *)
Definition VNode_harddelete (v : VNode) : M unit :=
  let not_str := if DRY_RUN cfg then "not " else "" in
  stdout (not_str +:+ "deleting " +:+ name v) ;;
  unix_out ("rm " +:+ name v) ;;
  terse TERSE_DELETE (name v) ;;
  when (negb (DRY_RUN cfg))
    (verbose ("  os.unlink(" +:+ name v +:+ ")") ;;
     try_except_else (os_unlink plat (name v)) ClsOSError
       (λ err,
          stderr ("failed to delete " +:+ name v +:+ " : " +:+ strerror_of err) ;;
          terse TERSE_FAIL ("delete " +:+ name v))
       (λ _, log ("deleted " +:+ name v))).

(** delete directory *)
Definition VNodeDir_harddelete (v : VNode) : M unit :=
  let not_str := if DRY_RUN cfg then "not " else "" in
  stdout (not_str +:+ "removing " +:+ (name v +:+ "/")) ;;
  unix_out ("rmdir " +:+ name v) ;;
  terse TERSE_DELETE (name v +:+ "/") ;;
  when (negb (DRY_RUN cfg) && negb (BACKUP_COPIES cfg))
    (verbose ("  os.rmdir(" +:+ name v +:+ ")") ;;
     try_except (os_rmdir plat (name v)) ClsOSError
       (λ _,
          (* probably directory not empty
             refuse to delete dir, just move it aside *)
          verbose ("refusing to delete directory " +:+ name v) ;;
          move_saved v)).

Definition harddelete (v : VNode) : M unit :=
  match cls v with
  | VNodeDir => VNodeDir_harddelete v
  | _ => VNode_harddelete v
  end.

(** silently delete existing entry; only called by fix() *)
Definition VNode_quiet_delete (v : VNode) : M unit :=
  when (negb (DRY_RUN cfg) && negb (BACKUP_COPIES cfg))
    (verbose ("  os.unlink(" +:+ name v +:+ ")") ;;
     try_except (os_unlink plat (name v)) ClsOSError (λ _, ret tt)).

(** silently delete directory; only called by fix() *)
Definition VNodeDir_quiet_delete (v : VNode) : M unit :=
  when (negb (DRY_RUN cfg) && negb (BACKUP_COPIES cfg))
    (verbose ("  os.rmdir(" +:+ name v +:+ ")") ;;
     try_except (os_rmdir plat (name v)) ClsOSError
       (λ _,
          verbose ("refusing to delete directory " +:+ name v) ;;
          move_saved v)).

Definition quiet_delete (v : VNode) : M unit :=
  match cls v with
  | VNodeDir => VNodeDir_quiet_delete v
  | _ => VNode_quiet_delete v
  end.

(** call mkdir -p to create leading path *)
Definition mkdir_basepath (v : VNode) : M unit :=
  if DRY_RUN cfg then ret tt
  else
    let basedir := dirname (name v) in
    (* be a bit quiet about it *)
    when (VERBOSE cfg || UNIX_CMD cfg)
      (verbose ("making directory " +:+ prettypath basedir) ;;
       unix_out ("mkdir -p " +:+ basedir)) ;;
    mkdir_p plat basedir.

(** set ownership equal to source *)
Definition VNode_set_owner (v : VNode) : M unit :=
  verbose (dryrun_msg (DRY_RUN cfg)
             ("  os.chown(" +:+ name v +:+ ", " +:+ fmt_d (uid (stat v))
              +:+ ", " +:+ fmt_d (gid (stat v)) +:+ ")")) ;;
  unix_out ("chown " +:+ ascii_uid (stat v) +:+ "." +:+ ascii_gid (stat v)
            +:+ " " +:+ name v) ;;
  when (negb (DRY_RUN cfg))
    (try_except (os_chown plat (name v) (uid (stat v)) (gid (stat v)))
       ClsOSError
       (λ err,
          stderr ("failed to chown " +:+ ascii_uid (stat v) +:+ "."
                  +:+ ascii_gid (stat v) +:+ " " +:+ name v +:+ " : "
                  +:+ strerror_of err) ;;
          terse TERSE_FAIL ("owner " +:+ name v))).

(** set access permission bits equal to source *)
Definition VNode_set_permissions (v : VNode) : M unit :=
  verbose (dryrun_msg (DRY_RUN cfg)
             ("  os.chmod(" +:+ name v +:+ ", "
              +:+ fmt_04o (Z.land (mode (stat v)) 4095) +:+ ")")) ;;
  unix_out ("chmod 0" +:+ fmt_o (Z.land (mode (stat v)) 4095) +:+ " "
            +:+ name v) ;;
  when (negb (DRY_RUN cfg))
    (try_except (os_chmod plat (name v) (Z.land (mode (stat v)) 4095))
       ClsOSError
       (λ err,
          stderr ("failed to chmod " +:+ fmt_04o (Z.land (mode (stat v)) 4095)
                  +:+ " " +:+ name v +:+ " : " +:+ strerror_of err) ;;
          terse TERSE_FAIL ("mode " +:+ name v))).

(** set access and mod times; only used for purge --single *)
Definition set_times (v : VNode) (atime mtime : Z) : M unit :=
  when (negb (DRY_RUN cfg))
    (try_except (os_utime plat (name v) atime mtime) ClsOSError
       (λ err,
          stderr ("failed to set utime on " +:+ name v +:+ " : "
                  +:+ strerror_of err) ;;
          terse TERSE_FAIL ("utime " +:+ name v))).

(** set ownership of symlink *)
Definition VNodeLink_set_owner (v : VNode) : M unit :=
  if negb (has_lchown plat) then ret tt   (* you never know *)
  else
    verbose (dryrun_msg (DRY_RUN cfg)
               ("  os.lchown(" +:+ name v +:+ ", " +:+ fmt_d (uid (stat v))
                +:+ ", " +:+ fmt_d (gid (stat v)) +:+ ")")) ;;
    unix_out ("lchown " +:+ ascii_uid (stat v) +:+ "." +:+ ascii_gid (stat v)
              +:+ " " +:+ name v) ;;
    when (negb (DRY_RUN cfg))
      (try_except (os_lchown plat (name v) (uid (stat v)) (gid (stat v)))
         ClsOSError
         (λ err,
            stderr ("failed to lchown " +:+ ascii_uid (stat v) +:+ "."
                    +:+ ascii_gid (stat v) +:+ " " +:+ name v +:+ " : "
                    +:+ strerror_of err) ;;
            terse TERSE_FAIL ("owner " +:+ name v))).

(** set permissions of symlink (if possible) *)
Definition VNodeLink_set_permissions (v : VNode) : M unit :=
  (* check if this platform supports lchmod()
     Linux does not have lchmod: its symlinks are always mode 0777 *)
  if negb (has_lchmod plat) then ret tt
  else
    verbose (dryrun_msg (DRY_RUN cfg)
               ("  os.lchmod(" +:+ name v +:+ ", "
                +:+ fmt_04o (Z.land (mode (stat v)) 4095) +:+ ")")) ;;
    unix_out ("lchmod 0" +:+ fmt_o (Z.land (mode (stat v)) 4095) +:+ " "
              +:+ name v) ;;
    when (negb (DRY_RUN cfg))
      (try_except (os_lchmod plat (name v) (Z.land (mode (stat v)) 4095))
         ClsOSError
         (λ err,
            stderr ("failed to lchmod "
                    +:+ fmt_04o (Z.land (mode (stat v)) 4095)
                    +:+ " " +:+ name v +:+ " : " +:+ strerror_of err) ;;
            terse TERSE_FAIL ("mode " +:+ name v))).

Definition set_owner (v : VNode) : M unit :=
  match cls v with
  | VNodeLink _ => VNodeLink_set_owner v
  | _ => VNode_set_owner v
  end.

Definition set_permissions (v : VNode) : M unit :=
  match cls v with
  | VNodeLink _ => VNodeLink_set_permissions v
  | _ => VNode_set_permissions v
  end.

(** *** compare *)

(** One read of the checksum loop: the error is reported, and [None]
    stands for the [return False] of the handler. *)
Definition read_block (path : string) (f : file) : M (option (list byte * file)) :=
  try_except (r ← file_read plat f IO_SIZE; ret (Some r)) ClsIOError
    (λ err,
       stderr ("error reading file " +:+ path +:+ ": " +:+ strerror_of err) ;;
       ret None).

Definition is_empty (data : list byte) : bool :=
  match data with [] => true | _ => false end.

(** The loop [while not ended and (sum1.digest() == sum2.digest())].
    [inl b] is a [return b] from inside the loop, [inr] the two sums when
    the loop is left.  The loop ends by itself: every round that goes on
    has read a block of the source; [fuel] bounds the rounds. *)
Fixpoint checksum_loop (fuel : nat) (src_path dest : string)
    (f1 f2 : file) (sum1 sum2 : hash_state) (ended : bool)
    : M (bool + hash_state * hash_state) :=
  if negb ended && bool_decide (digest sum1 = digest sum2) then
    match fuel with
    | O => ret (inr (sum1, sum2))
    | S fuel' =>
        r1 ← read_block src_path f1;
        match r1 with
        | None => ret (inl false)
        | Some (data1, f1') =>
            let ended1 := if is_empty data1 then true else ended in
            let sum1' := if is_empty data1 then sum1 else update sum1 data1 in
            r2 ← read_block dest f2;
            match r2 with
            | None => ret (inl false)
            | Some (data2, f2') =>
                let ended2 := if is_empty data2 then true else ended1 in
                let sum2' := if is_empty data2 then sum2 else update sum2 data2 in
                checksum_loop fuel' src_path dest f1' f2' sum1' sum2' ended2
            end
        end
    end
  else ret (inr (sum1, sum2)).

(** compare checksum of src_path and dest: self.name
    Return True if the same *)
Definition _compare_checksums (v : VNode) (src_path : string) : M bool :=
  o1 ← try_except (f ← open_rb plat src_path; ret (Some f)) ClsIOError
         (λ err,
            stderr ("error: failed to open " +:+ src_path +:+ " : "
                    +:+ strerror_of err) ;;
            ret None);
  match o1 with
  | None =>
      (* return True because we can't fix an error in src_path *)
      ret true
  | Some f1 =>
      let sum1 := md5 in
      let sum2 := md5 in
      o2 ← try_except (f ← open_rb plat (name v); ret (Some f)) ClsIOError
             (λ err,
                stderr ("error: failed to open " +:+ name v +:+ " : "
                        +:+ strerror_of err) ;;
                ret None);
      match o2 with
      | None => ret false
      | Some f2 =>
          r ← checksum_loop (S (length (f_rest f1))) src_path (name v)
                f1 f2 sum1 sum2 false;
          match r with
          | inl b => ret b
          | inr (sum1, sum2) =>
              if bool_decide (digest sum1 ≠ digest sum2) then
                (if DRY_RUN cfg
                 then stdout (name v +:+ " mismatch (MD5 checksum)")
                 else stdout (name v +:+ " updated (MD5 mismatch)")) ;;
                unix_out ("# updating file " +:+ name v) ;;
                terse TERSE_SYNC (name v) ;;
                ret false
              else ret true
          end
      end
  end.

(** see if files are the same
    Return True if the same *)
Definition VNodeFile_compare (v : VNode) (src_path : string)
    (dest_stat : SyncStat) : M bool :=
  if bool_decide (size (stat v) ≠ size dest_stat) then
    (if DRY_RUN cfg
     then stdout (name v +:+ " mismatch (file size)")
     else stdout (name v +:+ " updated (file size mismatch)")) ;;
    terse TERSE_SYNC (name v) ;;
    unix_out ("# updating file " +:+ name v) ;;
    ret false
  else _compare_checksums v src_path.

(** compare symbolic links *)
Definition VNodeLink_compare (v : VNode) (oldpath : string) : M bool :=
  if negb (vexists v) then ret false
  else
    r ← try_except (t ← os_readlink plat (name v); ret (Some t)) ClsOSError
          (λ err,
             stderr ("error reading symlink " +:+ name v +:+ " : "
                     +:+ strerror_of err) ;;
             ret None);
    match r with
    | None => ret false
    | Some link_to =>
        if bool_decide (oldpath ≠ link_to) then
          stdout (name v +:+ " should point to " +:+ oldpath
                  +:+ ", but points to " +:+ link_to) ;;
          terse TERSE_LINK (name v) ;;
          ret false
        else ret true
    end.

(** see if devs are the same ([VNodeChrDev] and [VNodeBlkDev] alike) *)
Definition VNodeDev_compare (v : VNode) (src_stat : stat_result) : M bool :=
  if negb (vexists v) then ret false
  else
    (* dest_stat is a SyncStat object and it's useless here
       I need a real, fresh statbuf that includes st_rdev field *)
    r ← try_except (s ← os_lstat plat (name v); ret (Some s)) ClsOSError
          (λ err,
             stderr ("error checking " +:+ name v +:+ " : "
                     +:+ strerror_of err) ;;
             ret None);
    match r with
    | None => ret false
    | Some dest_stat =>
        let src_major := major (st_rdev src_stat) in
        let src_minor := minor (st_rdev src_stat) in
        let dest_major := major (st_rdev dest_stat) in
        let dest_minor := minor (st_rdev dest_stat) in
        if bool_decide (src_major ≠ dest_major)
           || bool_decide (src_minor ≠ dest_minor) then
          stdout (name v +:+ " should have major,minor "
                  +:+ fmt_d src_major +:+ "," +:+ fmt_d src_minor
                  +:+ " but has " +:+ fmt_d dest_major +:+ ","
                  +:+ fmt_d dest_minor) ;;
          unix_out ("# updating major,minor " +:+ name v) ;;
          terse TERSE_SYNC (name v) ;;
          ret false
        else ret true
    end.

(** compare content
    Return True when same, False when different *)
Definition compare (v : VNode) (src_path : string) (dest_stat : SyncStat)
    : M bool :=
  match cls v with
  | VNodeFile _ => VNodeFile_compare v src_path dest_stat
  | VNodeLink oldpath => VNodeLink_compare v oldpath
  | VNodeChrDev src_stat | VNodeBlkDev src_stat => VNodeDev_compare v src_stat
  | VNodeDir | VNodeFifo => ret true
  end.

(** *** create *)

(** copy file *)
Definition VNodeFile_create (v : VNode) (src_path : string) : M unit :=
  when (negb (vexists v)) (terse TERSE_NEW (name v)) ;;
  verbose (dryrun_msg (DRY_RUN cfg)
             ("  copy " +:+ src_path +:+ " " +:+ name v)) ;;
  unix_out ("cp " +:+ src_path +:+ " " +:+ name v) ;;
  when (negb (DRY_RUN cfg))
    (try_except (shutil_copy plat src_path (name v)) ClsIOError
       (λ err,
          stderr ("failed to copy " +:+ prettypath src_path +:+ " to "
                  +:+ name v +:+ ": " +:+ strerror_of err) ;;
          terse TERSE_FAIL (name v))).

(** create directory *)
Definition VNodeDir_create (v : VNode) : M unit :=
  there ← os_path_exists plat (name v);
  if (there : bool) then
    (* it can happen that the dir already exists
       due to recursion in visit() + VNode.mkdir_basepath()
       So this is double checked for dirs that did not exist *)
    ret tt
  else
    verbose (dryrun_msg (DRY_RUN cfg) ("  os.mkdir(" +:+ name v +:+ ")")) ;;
    unix_out ("mkdir " +:+ name v) ;;
    terse TERSE_MKDIR (name v) ;;
    when (negb (DRY_RUN cfg))
      (try_except (os_mkdir plat (name v) (Z.land (mode (stat v)) 4095))
         ClsOSError
         (λ err,
            stderr ("failed to make directory " +:+ name v +:+ " : "
                    +:+ strerror_of err) ;;
            terse TERSE_FAIL ("mkdir " +:+ name v))).

(** create symbolic link *)
Definition VNodeLink_create (v : VNode) (oldpath : string) : M unit :=
  verbose (dryrun_msg (DRY_RUN cfg)
             ("  os.symlink(" +:+ oldpath +:+ ", " +:+ name v +:+ ")")) ;;
  unix_out ("ln -s " +:+ oldpath +:+ " " +:+ name v) ;;
  terse TERSE_LINK (name v) ;;
  when (negb (DRY_RUN cfg))
    (try_except (os_symlink plat oldpath (name v)) ClsOSError
       (λ err,
          stderr ("failed to create symlink " +:+ name v +:+ " -> "
                  +:+ oldpath +:+ " : " +:+ strerror_of err) ;;
          terse TERSE_FAIL ("link " +:+ name v))).

(** make a fifo *)
Definition VNodeFifo_create (v : VNode) : M unit :=
  verbose (dryrun_msg (DRY_RUN cfg) ("  os.mkfifo(" +:+ name v +:+ ")")) ;;
  unix_out ("mkfifo " +:+ name v) ;;
  terse TERSE_NEW (name v) ;;
  when (negb (DRY_RUN cfg))
    (try_except (os_mkfifo plat (name v) (Z.land (mode (stat v)) 511))
       ClsOSError
       (λ err,
          stderr ("failed to create fifo " +:+ name v +:+ " : "
                  +:+ strerror_of err) ;;
          terse TERSE_FAIL ("fifo " +:+ name v))).

(** make a character ([chr = true]) or block device file *)
Definition VNodeDev_create (chr : bool) (v : VNode) (src_stat : stat_result)
    : M unit :=
  let major := major (st_rdev src_stat) in
  let minor := minor (st_rdev src_stat) in
  verbose (dryrun_msg (DRY_RUN cfg)
             ("  os.mknod(" +:+ name v +:+ ", "
              +:+ (if chr then "CHR " else "BLK ")
              +:+ fmt_d major +:+ "," +:+ fmt_d minor +:+ ")")) ;;
  unix_out ("mknod " +:+ name v +:+ (if chr then " c " else " b ")
            +:+ fmt_d major +:+ " " +:+ fmt_d minor) ;;
  terse TERSE_NEW (name v) ;;
  when (negb (DRY_RUN cfg))
    (try_except
       (os_mknod plat (name v)
          (Z.lor (Z.land (st_mode src_stat) 511)
                 (ifmt_bits (if chr then S_IFCHR else S_IFBLK)))
          (makedev major minor))
       ClsOSError
       (λ err,
          stderr ("failed to create device " +:+ name v +:+ " : "
                  +:+ strerror_of err) ;;
          terse TERSE_FAIL ("device " +:+ name v))).

(** create a new entry *)
Definition create (v : VNode) : M unit :=
  match cls v with
  | VNodeFile src_path => VNodeFile_create v src_path
  | VNodeDir => VNodeDir_create v
  | VNodeLink oldpath => VNodeLink_create v oldpath
  | VNodeFifo => VNodeFifo_create v
  | VNodeChrDev src_stat => VNodeDev_create true v src_stat
  | VNodeBlkDev src_stat => VNodeDev_create false v src_stat
  end.

(** repair the existing entry
    set owner and permissions equal to source ([fix] in the source) *)
Definition fix_ (v : VNode) : M unit :=
  when (vexists v)
    (if BACKUP_COPIES cfg then move_saved v else quiet_delete v) ;;
  mkdir_basepath v ;;
  create v ;;
  set_owner v ;;
  set_permissions v.

(** ** SyncObject: a source path and its destination *)

(** The object after [make()]: both paths are full and both snapshots
    are taken. *)
Record SyncObject := {
  src_path : string;
  dest_path : string;
  ov_type : Z;
  src_stat : SyncStat;
  dest_stat : SyncStat
}.

(** pretty print my source path *)
Definition print_src (so : SyncObject) : string :=
  if is_dir (src_stat so) then prettypath (src_path so) +:+ "/"
  else prettypath (src_path so).

(** create vnode object for this SyncObject; [None] is Python's None *)
Definition vnode_obj (so : SyncObject) : M (option VNode) :=
  let exists_ := stat_exists (dest_stat so) in
  let vnode := Build_VNode (dest_path so) (src_stat so) exists_ in
  if is_file (src_stat so) then
    ret (Some (vnode (VNodeFile (src_path so))))
  else if is_dir (src_stat so) then
    ret (Some (vnode VNodeDir))
  else if is_link (src_stat so) then
    try_except
      (oldpath ← os_readlink plat (src_path so);
       ret (Some (vnode (VNodeLink oldpath))))
      ClsOSError
      (λ err,
         stderr ("error reading symlink " +:+ print_src so +:+ " : "
                 +:+ strerror_of err) ;;
         terse TERSE_FAIL (src_path so) ;;
         ret None)
  else if is_fifo (src_stat so) then
    ret (Some (vnode VNodeFifo))
  else if is_chardev (src_stat so) then
    st ← os_stat plat (src_path so);
    ret (Some (vnode (VNodeChrDev st)))
  else if is_blockdev (src_stat so) then
    st ← os_stat plat (src_path so);
    ret (Some (vnode (VNodeBlkDev st)))
  else
    (* error, can not handle file type of src_path *)
    ret None.

(** A method call on what [vnode_obj] returned: on [None] the attribute
    lookup raises. *)
Definition call {A} (vnode : option VNode) (attr : string)
    (method : VNode → M A) : M A :=
  match vnode with
  | Some v => method v
  | None =>
      raise (AttributeError
               ("'NoneType' object has no attribute '" +:+ attr +:+ "'"))
  end.

(** check differences between src and dest,
    and fix it when not a dry run
    Return pair: updated, metadata_updated *)
Definition check (so : SyncObject) : M (bool * bool) :=
  if negb (stat_exists (dest_stat so)) then
    stdout (dest_path so +:+ " does not exist") ;;
    log ("creating " +:+ dest_path so) ;;
    vnode ← vnode_obj so;
    call vnode "fix" fix_ ;;
    ret (true, false)
  else
    let src_type := filetype_of (src_stat so) in
    let dest_type := filetype_of (dest_stat so) in
    if bool_decide (src_type ≠ dest_type) then
      (* entry is of a different file type *)
      vnode ← vnode_obj so;
      tn ← call vnode "typename" (λ v, ret (typename v));
      stdout (dest_path so +:+ " should be a " +:+ tn) ;;
      terse TERSE_WARNING ("wrong type " +:+ dest_path so) ;;
      log ("fix type " +:+ dest_path so) ;;
      call vnode "fix" fix_ ;;
      ret (true, false)
    else
      vnode ← vnode_obj so;
      same ← call vnode "compare"
               (λ v, compare v (src_path so) (dest_stat so));
      if negb same then
        (* content is different; change the entire object *)
        log ("updating " +:+ dest_path so) ;;
        call vnode "fix" fix_ ;;
        ret (true, false)
      else
        (* check ownership and permissions
           rectify if needed *)
        let owner_differs :=
          bool_decide (uid (src_stat so) ≠ uid (dest_stat so))
          || bool_decide (gid (src_stat so) ≠ gid (dest_stat so)) in
        let mode_differs :=
          bool_decide (mode (src_stat so) ≠ mode (dest_stat so)) in
        when owner_differs
          (stdout (dest_path so +:+ " should have owner "
                   +:+ ascii_uid (src_stat so) +:+ "."
                   +:+ ascii_gid (src_stat so) +:+ " ("
                   +:+ fmt_d (uid (src_stat so)) +:+ "."
                   +:+ fmt_d (gid (src_stat so)) +:+ "), but has "
                   +:+ ascii_uid (dest_stat so) +:+ "."
                   +:+ ascii_gid (dest_stat so) +:+ " ("
                   +:+ fmt_d (uid (dest_stat so)) +:+ "."
                   +:+ fmt_d (gid (dest_stat so)) +:+ ")") ;;
           terse TERSE_OWNER (ascii_uid (src_stat so) +:+ "."
                              +:+ ascii_gid (src_stat so) +:+ " "
                              +:+ dest_path so) ;;
           log ("set owner " +:+ ascii_uid (src_stat so) +:+ "."
                +:+ ascii_gid (src_stat so) +:+ " ("
                +:+ fmt_d (uid (src_stat so)) +:+ "."
                +:+ fmt_d (gid (src_stat so)) +:+ ") " +:+ dest_path so) ;;
           call vnode "set_owner" set_owner) ;;
        when mode_differs
          (stdout (dest_path so +:+ " should have mode "
                   +:+ fmt_04o (Z.land (mode (src_stat so)) 4095)
                   +:+ ", but has "
                   +:+ fmt_04o (Z.land (mode (dest_stat so)) 4095)) ;;
           terse TERSE_MODE (fmt_04o (Z.land (mode (src_stat so)) 4095)
                             +:+ " " +:+ dest_path so) ;;
           log ("set mode " +:+ fmt_04o (Z.land (mode (src_stat so)) 4095)
                +:+ " " +:+ dest_path so) ;;
           call vnode "set_permissions" set_permissions) ;;
        (* set owner/permissions do not trigger .post scripts *)
        ret (false, owner_differs || mode_differs).
End Object.

(** ** What a computation does to the filesystem *)

(** Run from [fs], the computation leaves the filesystem as it is and makes
    no call that could change it. *)
Definition untouched {A} (m : M A) (fs : FS) : Prop :=
  fs_of (m fs) = fs ∧ mutations (events_of (m fs)) = [].

Definition read_only {A} (m : M A) : Prop := ∀ fs, untouched m fs.

(** The computation returns, whatever the filesystem: no exception leaves
    it. *)
Definition returns {A} (m : M A) : Prop :=
  ∀ fs, ∃ a fs' l, m fs = (Ret a, fs', l).

(** The computation only writes to the output channels. *)
Definition reports (m : M unit) : Prop :=
  ∀ fs, ∃ l, m fs = (Ret tt, fs, l) ∧ syscalls l = [].

(** The sum after the data [pre] has been read, block by block. *)
Definition fed `{Hashlib} (pre : list byte) : hash_state :=
  if is_empty pre then md5 else update md5 pre.

(** Two computations give the same result from the same filesystem. *)
Definition same_result {A} (m1 m2 : M A) : Prop :=
  ∀ fs, result_of (m1 fs) = result_of (m2 fs).

(** They give the same result and leave the same filesystem. *)
Definition same_outcome {A} (m1 m2 : M A) : Prop :=
  ∀ fs, result_of (m1 fs) = result_of (m2 fs) ∧ fs_of (m1 fs) = fs_of (m2 fs).

(** The computation returns [a], whatever the filesystem. *)
Definition yields {A} (m : M A) (a : A) : Prop :=
  ∀ fs, result_of (m fs) = Ret a.

(** The configuration with the dry-run flag set as given. *)
Definition with_dry_run (b : bool) (cfg : Config) : Config :=
  {| DRY_RUN := b; VERBOSE := VERBOSE cfg; UNIX_CMD := UNIX_CMD cfg;
     BACKUP_COPIES := BACKUP_COPIES cfg |}.

(** The snapshot that [SyncStat] takes of a path when nothing fails. *)
Definition stat_in (fs : FS) (p : string) : SyncStat :=
  from_option snapshot missing_stat (fs !! p).

(** The object that [make()] builds for two full paths. *)
Definition object_for (fs : FS) (src dest : string) : SyncObject :=
  {| src_path := src; dest_path := dest; ov_type := 0;
     src_stat := stat_in fs src; dest_stat := stat_in fs dest |}.

(** The call that [set_owner] makes, if any. *)
Definition owner_call (cfg : Config) (plat : Platform) (v : VNode) : list syscall :=
  if DRY_RUN cfg then []
  else match cls v with
       | VNodeLink _ =>
           if has_lchown plat
           then [Lchown (name v) (uid (stat v)) (gid (stat v))] else []
       | _ => [Chown (name v) (uid (stat v)) (gid (stat v))]
       end.

(** The call that [set_permissions] makes, if any. *)
Definition mode_call (cfg : Config) (plat : Platform) (v : VNode) : list syscall :=
  if DRY_RUN cfg then []
  else match cls v with
       | VNodeLink _ =>
           if has_lchmod plat
           then [Lchmod (name v) (Z.land (mode (stat v)) 4095)] else []
       | _ => [Chmod (name v) (Z.land (mode (stat v)) 4095)]
       end.

(** What a call that changes the filesystem makes of it: nothing when
    the platform makes it fail or when its step is not possible. *)
Definition attempt (plat : Platform) (c : syscall) (step : FS → option FS)
    (fs : FS) : option FS :=
  if faulty plat c then None else step fs.

(** The first step of [fix]: the entry that is in the way is moved aside
    or deleted. *)
Definition removal `{LibText} (cfg : Config) (plat : Platform) (v : VNode) : M unit :=
  when (vexists v)
    (if BACKUP_COPIES cfg then move_saved cfg plat v else quiet_delete cfg plat v).

(** The calls of that step when dry-run is off. *)
Definition removal_calls (cfg : Config) (plat : Platform) (v : VNode) (fs : FS)
    : list syscall :=
  if negb (vexists v) then []
  else if BACKUP_COPIES cfg then [Rename (name v) (name v +:+ ".saved")]
  else match cls v with
       | VNodeDir =>
           Rmdir (name v)
           :: match attempt plat (Rmdir (name v)) (rmdir_step (name v)) fs with
              | Some _ => []
              | None => [Rename (name v) (name v +:+ ".saved")]
              end
       | _ => [Unlink (name v)]
       end.

(** [compare] has returned false. *)
Definition found_different (r : result bool) : bool :=
  match r with Ret false => true | _ => false end.

(** The computation leaves what is at the path [k] as it is. *)
Definition keeps {A} (k : string) (m : M A) : Prop :=
  ∀ fs, fs_of (m fs) !! k = fs !! k.

(** The class of the handler that [vnode_obj] builds for a source entry,
    if it has one for it. *)
Definition handler_class (src : string) (isrc : inode) : option vnode_class :=
  match i_node isrc with
  | Reg _ => Some (VNodeFile src)
  | Directory => Some VNodeDir
  | Symlink t => Some (VNodeLink t)
  | Fifo => Some VNodeFifo
  | CharDev _ => Some (VNodeChrDev (stat_of isrc))
  | BlockDev _ => Some (VNodeBlkDev (stat_of isrc))
  | Socket => None
  end.

(** An event that does not tell of a change that failed.  A failed [rmdir]
    does not count: the code falls back on a rename. *)
Definition effect_ok (e : event) : bool :=
  match e with
  | EvSys c false =>
      negb (mutating c) || match c with Rmdir _ => true | _ => false end
  | _ => true
  end.

(** Every change that the run has attempted has succeeded. *)
Definition effects_succeeded (l : list event) : Prop :=
  forallb effect_ok l = true.

(** The platform can give a symbolic link the owner and the mode of
    another: it has [lchown], and it has [lchmod] or all its links have the
    mode 0777, as on Linux. *)
Definition links_settable (plat : Platform) (fs : FS) : Prop :=
  has_lchown plat = true ∧
  (has_lchmod plat = true ∨
   ∀ p i, fs !! p = Some i → is_symlink i = true → Z.land (i_perm i) 4095 = 511).

(** A [chown] would leave the permission bits of the entry as they are:
    it is a directory or a symbolic link, or it has no set-user-ID bit and
    no set-group-ID bit together with execution by the group. *)
Definition chown_keeps_mode (i : inode) : Prop :=
  Z.land (chown_perm i) 4095 = Z.land (i_perm i) 4095.

(** The entry that [create] makes. *)
Definition created `{DevNumbers} (plat : Platform) (v : VNode) (fs : FS)
    : option inode :=
  match cls v with
  | VNodeFile src =>
      fs !! src ≫= λ i,
        match i_node i with
        | Reg data => Some (fresh_inode plat (Reg data) (i_perm i))
        | _ => None
        end
  | VNodeDir =>
      Some (new_inode plat Directory (Z.land (Z.land (mode (stat v)) 4095) 1023))
  | VNodeLink oldpath => Some (fresh_inode plat (Symlink oldpath) 511)
  | VNodeFifo => Some (new_inode plat Fifo (Z.land (mode (stat v)) 511))
  | VNodeChrDev st =>
      Some (new_inode plat
              (CharDev (makedev (major (st_rdev st)) (minor (st_rdev st))))
              (Z.lor (Z.land (st_mode st) 511) (ifmt_bits S_IFCHR)))
  | VNodeBlkDev st =>
      Some (new_inode plat
              (BlockDev (makedev (major (st_rdev st)) (minor (st_rdev st))))
              (Z.lor (Z.land (st_mode st) 511) (ifmt_bits S_IFBLK)))
  end.

(** The entry that [fix] leaves, given the one that [create] has made. *)
Definition repaired (plat : Platform) (v : VNode) (i0 : inode) : inode :=
  let i1 := with_owner (uid (stat v)) (gid (stat v)) i0 in
  match cls v with
  | VNodeLink _ => if has_lchmod plat then with_perm (mode (stat v)) i1 else i1
  | _ => with_perm (mode (stat v)) i1
  end.

(** The two entries hold the same thing, as far as [compare] looks. *)
Definition same_content `{DevNumbers} (n1 n2 : node) : Prop :=
  match n1, n2 with
  | Reg d1, Reg d2 => d1 = d2
  | Directory, Directory => True
  | Symlink t1, Symlink t2 => t1 = t2
  | Fifo, Fifo => True
  | CharDev r1, CharDev r2 | BlockDev r1, BlockDev r2 =>
      major r1 = major r2 ∧ minor r1 = minor r2
  | _, _ => False
  end.

(** The file object that [open] gives for an entry. *)
Definition opened (p : string) (oi : option inode) : option file :=
  oi ≫= λ i, match i_node i with
             | Reg data => Some (File p data 0)
             | _ => None
             end.

(** ** The rest of SyncObject *)

(** [time.ctime] of the time module. *)
Class LibTime := {
  ctime : Z → string
}.

Definition repr (so : SyncObject) : string :=
  "[<SyncObject>: (" +:+ src_path so +:+ ") (" +:+ dest_path so +:+ ")]".

(** Whether the call of [set_owner] changes the entry [i] at [name]. *)
Definition owner_applies (cfg : Config) (plat : Platform) (v : VNode)
    (i : inode) : bool :=
  negb (DRY_RUN cfg) &&
  match cls v with
  | VNodeLink _ =>
      has_lchown plat
      && negb (faulty plat (Lchown (name v) (uid (stat v)) (gid (stat v))))
  | _ =>
      negb (faulty plat (Chown (name v) (uid (stat v)) (gid (stat v))))
      && negb (is_symlink i)
  end.

(** Whether the call of [set_permissions] changes the entry [i] at [name]. *)
Definition mode_applies (cfg : Config) (plat : Platform) (v : VNode)
    (i : inode) : bool :=
  negb (DRY_RUN cfg) &&
  match cls v with
  | VNodeLink _ =>
      has_lchmod plat
      && negb (faulty plat (Lchmod (name v) (Z.land (mode (stat v)) 4095)))
  | _ =>
      negb (faulty plat (Chmod (name v) (Z.land (mode (stat v)) 4095)))
      && negb (is_symlink i)
  end.

(** What [os.lstat] shows of a path: nothing when the call fails. *)
Definition lstat_view (plat : Platform) (p : string) (fs : FS) : option inode :=
  if faulty plat (Lstat p) then None else fs !! p.

(** The type of entry that a handler class is for. *)
Definition class_type (c : vnode_class) : entry_type :=
  match c with
  | VNodeFile _ => TFile
  | VNodeDir => TDir
  | VNodeLink _ => TSymlink
  | VNodeFifo => TFifo
  | VNodeChrDev _ => TCharDev
  | VNodeBlkDev _ => TBlockDev
  end.

Section Purge.
Context `{Hashlib, DevNumbers, LibText, LibTime}.
Context (cfg : Config) (plat : Platform).

(** create vnode object for this SyncObject's destination *)
Definition vnode_dest_obj (so : SyncObject) : M (option VNode) :=
  let exists_ := stat_exists (dest_stat so) in
  let vnode := Build_VNode (dest_path so) (src_stat so) exists_ in
  if is_file (dest_stat so) then
    ret (Some (vnode (VNodeFile (src_path so))))
  else if is_dir (dest_stat so) then
    ret (Some (vnode VNodeDir))
  else if is_link (dest_stat so) then
    try_except
      (oldpath ← os_readlink plat (src_path so);
       ret (Some (vnode (VNodeLink oldpath))))
      ClsOSError
      (λ err,
         stderr ("error reading symlink " +:+ print_src so +:+ " : "
                 +:+ strerror_of err) ;;
         terse TERSE_FAIL (src_path so) ;;
         ret None)
  else if is_fifo (dest_stat so) then
    ret (Some (vnode VNodeFifo))
  else if is_chardev (dest_stat so) then
    st ← os_stat plat (src_path so);
    ret (Some (vnode (VNodeChrDev st)))
  else if is_blockdev (dest_stat so) then
    st ← os_stat plat (src_path so);
    ret (Some (vnode (VNodeBlkDev st)))
  else
    (* error, can not handle file type of src_path *)
    ret None.

(** check timestamp between src and dest
    Returns True if same, False if not *)
Definition check_purge_timestamp (so : SyncObject) : M bool :=
  r1 ← try_except (s ← os_lstat plat (src_path so); ret (Some s)) ClsOSError
         (λ err,
            stderr ("error: stat(" +:+ src_path so +:+ ") failed: "
                    +:+ strerror_of err) ;;
            ret None);
  match r1 with
  | None => ret false
  | Some src_stat =>
      r2 ← try_except (s ← os_lstat plat (dest_path so); ret (Some s))
             ClsOSError
             (λ err,
                stderr ("error: stat(" +:+ dest_path so +:+ ") failed: "
                        +:+ strerror_of err) ;;
                ret None);
      match r2 with
      | None => ret false
      | Some dest_stat =>
          if bool_decide (st_mtime src_stat > st_mtime dest_stat) then
            stdout (dest_path so +:+ " mismatch (only timestamp)") ;;
            terse TERSE_WARNING (dest_path so +:+ " (only timestamp)") ;;
            verbose (dryrun_msg (DRY_RUN cfg)
                       ("  os.utime(" +:+ dest_path so +:+ ", "
                        +:+ ctime (st_mtime src_stat) +:+ ")")) ;;
            unix_out ("touch -r " +:+ src_path so +:+ " " +:+ dest_path so) ;;
            vnode ← vnode_obj plat so;
            call vnode "set_times"
              (λ v, set_times cfg plat v (st_atime src_stat)
                      (st_mtime src_stat)) ;;
            ret false
          else ret true
      end
  end.

(** The branch of [check_purge_timestamp] for a source that is newer. *)
Definition touch (so : SyncObject) (src_stat : stat_result) : M bool :=
  stdout (dest_path so +:+ " mismatch (only timestamp)") ;;
  terse TERSE_WARNING (dest_path so +:+ " (only timestamp)") ;;
  verbose (dryrun_msg (DRY_RUN cfg)
             ("  os.utime(" +:+ dest_path so +:+ ", "
              +:+ ctime (st_mtime src_stat) +:+ ")")) ;;
  unix_out ("touch -r " +:+ src_path so +:+ " " +:+ dest_path so) ;;
  vnode ← vnode_obj plat so;
  call vnode "set_times"
    (λ v, set_times cfg plat v (st_atime src_stat) (st_mtime src_stat)) ;;
  ret false.
End Purge.

(** * synctool_aggr: group together output that is the same *)

(** [string.whitespace]: tab, newline, vertical tab, form feed, carriage
    return and space. *)
Definition is_space (c : ascii) : bool :=
  bool_decide (c ∈ ["009"; "010"; "011"; "012"; "013"; " "]%char).

Fixpoint lstrip (l : list ascii) : list ascii :=
  match l with
  | [] => []
  | c :: l' => if is_space c then lstrip l' else l
  end.

(** [string.strip]: the string without its leading and trailing
    whitespace. *)
Definition strip (s : string) : string :=
  String.string_of_list_ascii
    (rev (lstrip (rev (lstrip (String.list_ascii_of_string s))))).

(** [string.split(s, sep)] for a separator of one character: always at
    least one field. *)
Fixpoint split (sep : ascii) (s : string) : list string :=
  match s with
  | EmptyString => [EmptyString]
  | String c s' =>
      if decide (c = sep) then EmptyString :: split sep s'
      else match split sep s' with
           | f :: fs => String c f :: fs
           | [] => [String c EmptyString]
           end
  end.

(** [string.join(words, sep)] *)
Fixpoint join (sep : string) (words : list string) : string :=
  match words with
  | [] => ""
  | [w] => w
  | w :: ws => w +:+ sep +:+ join sep ws
  end.

(** The node and the output of a line: [arr[0]] and
    [string.join(arr[1:], ':')] for [arr = string.split(line, ':')], when
    [len(arr) > 1]. *)
Definition labelled (line : string) : option (string * string) :=
  match split ":" line with
  | node :: (_ :: _) as rest => Some (node, join ":" rest)
  | _ => None
  end.

(** One round of the first loop: a line without a node is printed, the
    output of a line with a node is appended to what the node has. *)
Definition collect (st : list string * gmap string (list string))
    (line : string) : list string * gmap string (list string) :=
  let '(printed, output_per_node) := st in
  match labelled line with
  | None => (printed ++ [line], output_per_node)
  | Some (node, output) =>
      match output_per_node !! node with
      | None => (printed, <[node := [output]]> output_per_node)
      | Some outs => (printed, <[node := outs ++ [output]]> output_per_node)
      end
  end.

(** [l.remove(x)]: without the first [x]; [None] is the [ValueError] for
    a list that has no [x]. *)
Fixpoint list_remove_first (x : string) (l : list string) : option (list string) :=
  match l with
  | [] => None
  | y :: l' =>
      if decide (x = y) then Some l'
      else (y ::.) <$> list_remove_first x l'
  end.

(** The loop [for node2 in nodes[:]] over the copy of the list, with the
    node list, the dictionary and the list as they change; [None] is the
    [KeyError] of a node that is not in the dictionary. *)
Fixpoint merge_same (out : list string) (copy : list string)
    (st : list string * gmap string (list string) * list string)
    : option (list string * gmap string (list string) * list string) :=
  match copy with
  | [] => Some st
  | node2 :: copy' =>
      let '(nodelist, output_per_node, nodes) := st in
      output_per_node !! node2 ≫= λ out2,
        if decide (out = out2) then
          list_remove_first node2 nodes ≫= λ nodes',
            merge_same out copy'
              (nodelist ++ [node2], delete node2 output_per_node, nodes')
        else merge_same out copy' st
  end.

(** What one round of the second loop prints: the nodes, then their
    common output. *)
Definition render (group : list string * list string) : list string :=
  (join "," group.1 +:+ ":") :: group.2.

(** The loop [while len(nodes) > 0]; [fuel] bounds the rounds. *)
Fixpoint group_loop (fuel : nat) (nodes : list string)
    (output_per_node : gmap string (list string)) : option (list string) :=
  match nodes with
  | [] => Some []
  | node :: nodes1 =>
      match fuel with
      | O => None
      | S fuel' =>
          output_per_node !! node ≫= λ out,
            merge_same out nodes1 ([node], output_per_node, nodes1)
            ≫= λ '(nodelist, output_per_node', nodes'),
              group_loop fuel' nodes' output_per_node' ≫= λ rest,
                Some (render (nodelist, out) ++ rest)
      end
  end.

(** The order of [nodes.sort()]: strings compare character by
    character. *)
Definition string_le (a b : string) : Prop := String.leb a b = true.

#[global] Instance string_le_dec : RelDecision string_le.
Proof. intros a b. unfold string_le. apply _. Defined.

(** The lines that [aggregate] prints, given the lines that [readlines]
    returns; [None] would be an exception. *)
Definition aggregate (lines : list string) : option (list string) :=
  match lines with
  | [] => Some []
  | _ =>
      let lines := strip <$> lines in
      let '(printed, output_per_node) := foldl collect ([], ∅) lines in
      let nodes := (map_to_list output_per_node).*1 in
      match nodes with
      | [] => Some printed
      | _ =>
          let nodes := merge_sort string_le nodes in
          group_loop (length nodes) nodes output_per_node ≫= λ rest,
            Some (printed ++ rest)
      end
  end.

(** The outputs of a node among the lines that have one, in their
    order. *)
Definition outputs_of (node : string) (tagged : list (string * string))
    : list string :=
  (filter (λ p, p.1 = node) tagged).*2.

(** ** A small host, for the examples *)

(** A digest without collisions: the data itself. *)
Definition plain_hashlib : Hashlib :=
  {| hash_state := list byte;
     hash_digest := list byte;
     md5 := [];
     update := λ s d, s ++ d;
     digest := λ s, s;
     update_app := λ s a b, eq_sym (app_assoc s a b) |}.

(** Device numbers with eight bits for the minor. *)
Definition plain_devnumbers : DevNumbers :=
  {| major := λ r, r / 256;
     minor := λ r, r mod 256;
     makedev := λ a b, 256 * a + b;
     makedev_major_minor := λ r, eq_sym (Z_div_mod_eq_full r 256) |}.

Definition plain_libtext : LibText :=
  {| dryrun_msg := λ dry s, if dry then s +:+ " # dry run" else s;
     prettypath := λ p, p;
     pw_name := fmt_d;
     gr_name := fmt_d |}.

(** A Linux host on which the calls in [bad] fail. *)
Definition linux (bad : list syscall) : Platform :=
  {| has_lchown := true; has_lchmod := false;
     euid := 0; egid := 0; umask := 18;
     faulty := λ c, bool_decide (c ∈ bad);
     strerror := λ _, "Input/output error" |}.

Definition run_cfg (dry backup : bool) : Config :=
  {| DRY_RUN := dry; VERBOSE := false; UNIX_CMD := false;
     BACKUP_COPIES := backup |}.

Definition root_dir : inode := Inode Directory 493 0 0 0 0.

Definition root_file (data : list byte) : inode := Inode (Reg data) 420 0 0 0 0.

Definition hello : list byte := [x68; x65; x6c; x6c; x6f; x0a].

(** The overlay tree [/src] with a file, a link and a socket, and a host
    with a directory [/etc/app] that is not empty. *)
Definition host : FS :=
  list_to_map
    [("/src", root_dir);
     ("/src/etc", root_dir);
     ("/src/etc/motd", root_file hello);
     ("/src/etc/app", root_dir);
     ("/src/etc/sh", Inode (Symlink "/bin/bash") 511 0 0 0 0);
     ("/src/etc/sock", Inode Socket 420 0 0 0 0);
     ("/etc", root_dir);
     ("/etc/app", root_dir);
     ("/etc/app/conf", root_file hello)].

(** The host once [/etc/motd] is there, as the source has it. *)
Definition host_with_motd : FS := <["/etc/motd" := root_file hello]> host.

(** The same, with [/etc/motd] owned by the user 500. *)
Definition host_with_foreign_motd : FS :=
  <["/etc/motd" := Inode (Reg hello) 420 500 0 0 0]> host.

(** The host with a regular file where the source has the directory
    [/etc/app]. *)
Definition host_with_app_file : FS :=
  <["/etc/app" := root_file hello]> (delete "/etc/app/conf" host).

(** The handler of the directory [/etc/app]. *)
Definition etc_app : VNode :=
  {| name := "/etc/app"; stat := stat_in host "/src/etc/app";
     vexists := true; cls := VNodeDir |}.

(** The handler of the regular file [/etc/motd]. *)
Definition etc_motd : VNode :=
  {| name := "/etc/motd"; stat := stat_in host "/src/etc/motd";
     vexists := true; cls := VNodeFile "/src/etc/motd" |}.

(** The program [su] of the overlay, with the set-user-ID bit (mode
    04755). *)
Definition su_file (owner : Z) : inode := Inode (Reg hello) 2541 owner 0 0 0.

(** The host with [/etc/su] in place as the source has it, but owned by
    the user 500. *)
Definition host_with_foreign_su : FS :=
  <["/src/etc/su" := su_file 0]> (<["/etc/su" := su_file 500]> host).

(** The handler of the regular file [/etc/su]. *)
Definition etc_su : VNode :=
  {| name := "/etc/su"; stat := stat_in host_with_foreign_su "/src/etc/su";
     vexists := true; cls := VNodeFile "/src/etc/su" |}.

(** ** More of the small host *)

(** Times as numbers. *)
Definition plain_libtime : LibTime := {| ctime := fmt_d |}.

(** The host with the symbolic link [/etc/sh] in place. *)
Definition host_with_link : FS :=
  <["/etc/sh" := Inode (Symlink "/bin/bash") 511 0 0 0 0]> host.

(** The host where the source of [/etc/motd] has been read at time 200
    and written at time 100, after the copy at the destination. *)
Definition host_with_newer_motd : FS :=
  <["/src/etc/motd" := Inode (Reg hello) 420 0 0 200 100]> host_with_motd.

(** The host with a socket at both places, the one of the source
    newer. *)
Definition host_with_sockets : FS :=
  <["/src/etc/sock" := Inode Socket 420 0 0 5 5]>
    (<["/etc/sock" := Inode Socket 420 0 0 0 0]> host).

(** The handler of the symbolic link [/etc/sh]. *)
Definition etc_sh : VNode :=
  {| name := "/etc/sh"; stat := stat_in host "/src/etc/sh";
     vexists := true; cls := VNodeLink "/bin/bash" |}.

(** The host with the device [/dev/null], and its handler for a source
    with the same numbers. *)
Definition host_with_null : FS :=
  <["/dev/null" := Inode (CharDev 259) 438 0 0 0 0]> host.

Definition dev_null : VNode :=
  {| name := "/dev/null";
     stat := snapshot (Inode (CharDev 259) 438 0 0 0 0);
     vexists := true;
     cls := VNodeChrDev (stat_of (Inode (CharDev 259) 438 0 0 0 0)) |}.

(** * Properties *)

(** ** Laws of the monad *)

Lemma syscalls_app l1 l2 : syscalls (l1 ++ l2) = syscalls l1 ++ syscalls l2.
Proof. apply omap_app. Qed.

Lemma mutations_app l1 l2 : mutations (l1 ++ l2) = mutations l1 ++ mutations l2.
Proof. unfold mutations. by rewrite syscalls_app, filter_app. Qed.

Lemma syscalls_nil_mutations l : syscalls l = [] → mutations l = [].
Proof. unfold mutations. by intros ->. Qed.

Lemma mutations_sys c ok : mutations [EvSys c ok] = if mutating c then [c] else [].
Proof. unfold mutations. cbn. by destruct (mutating c). Qed.

Lemma mutations_cons_out e l : is_sys e = None → mutations (e :: l) = mutations l.
Proof. unfold mutations, syscalls. simpl. by intros ->. Qed.

Lemma mutations_cons_sys c ok l :
  mutations (EvSys c ok :: l) = (if mutating c then [c] else []) ++ mutations l.
Proof. by rewrite <- (mutations_sys c ok), <- mutations_app. Qed.

Lemma bind_ret_run {A B} (m : M A) (k : A → M B) fs a fs1 l1 :
  m fs = (Ret a, fs1, l1) →
  bind m k fs = ((k a fs1).1.1, (k a fs1).1.2, l1 ++ (k a fs1).2).
Proof. unfold bind. intros ->. by destruct (k a fs1) as [[??]?]. Qed.

Lemma bind_raise_run {A B} (m : M A) (k : A → M B) fs e fs1 l1 :
  m fs = (Raise e, fs1, l1) → bind m k fs = (Raise e, fs1, l1).
Proof. unfold bind. by intros ->. Qed.

Lemma reports_emit e : is_sys e = None → reports (emit e).
Proof. intros He fs. exists [e]. split; [done|]. unfold syscalls. cbn. by rewrite He. Qed.

Lemma reports_ret : reports (ret tt).
Proof. intros fs. by exists []. Qed.

Lemma reports_bind (m : M unit) (k : unit → M unit) :
  reports m → (∀ a, reports (k a)) → reports (bind m k).
Proof.
  intros Hm Hk fs. destruct (Hm fs) as (l1 & E1 & S1).
  destruct (Hk tt fs) as (l2 & E2 & S2).
  exists (l1 ++ l2). rewrite (bind_ret_run _ _ _ _ _ _ E1), E2. cbn.
  split; [done|]. by rewrite syscalls_app, S1, S2.
Qed.

Lemma reports_when b m : reports m → reports (when b m).
Proof. destruct b; [done|]. intros _. apply reports_ret. Qed.

Lemma reports_if (b : bool) (m1 m2 : M unit) :
  reports m1 → reports m2 → reports (if b then m1 else m2).
Proof. by destruct b. Qed.

Create HintDb py discriminated.

#[export] Hint Resolve reports_ret reports_bind reports_when reports_if : py.
#[export] Hint Extern 1 (reports (stdout _)) => (by apply reports_emit) : py.
#[export] Hint Extern 1 (reports (stderr _)) => (by apply reports_emit) : py.
#[export] Hint Extern 1 (reports (verbose _)) => (by apply reports_emit) : py.
#[export] Hint Extern 1 (reports (unix_out _)) => (by apply reports_emit) : py.
#[export] Hint Extern 1 (reports (terse _ _)) => (by apply reports_emit) : py.
#[export] Hint Extern 1 (reports (log _)) => (by apply reports_emit) : py.

Lemma reports_read_only m : reports m → read_only m.
Proof.
  intros Hm fs. destruct (Hm fs) as (l & E & S). unfold untouched.
  rewrite E. split; [done | by apply syscalls_nil_mutations].
Qed.

Lemma reports_returns m : reports m → returns m.
Proof. intros Hm fs. destruct (Hm fs) as (l & E & S). by exists tt, fs, l. Qed.

Lemma read_only_ret {A} (a : A) : read_only (ret a).
Proof. done. Qed.

Lemma read_only_raise {A} e : read_only (raise (A:=A) e).
Proof. done. Qed.

Lemma read_only_bind {A B} (m : M A) (k : A → M B) :
  read_only m → (∀ a, read_only (k a)) → read_only (bind m k).
Proof.
  intros Hm Hk fs. destruct (Hm fs) as [F1 M1].
  unfold untouched, bind, fs_of, events_of in *.
  destruct (m fs) as [[[a|e] fs1] l1]; simpl in *; [|done]. subst fs1.
  destruct (Hk a fs) as [F2 M2]. unfold untouched, fs_of, events_of in *.
  destruct (k a fs) as [[r fs2] l2]; simpl in *.
  by rewrite mutations_app, M1, M2.
Qed.

Lemma read_only_try {A} (m : M A) c (h : exn → M A) :
  read_only m → (∀ e, read_only (h e)) → read_only (try_except m c h).
Proof.
  intros Hm Hh fs. destruct (Hm fs) as [F1 M1].
  unfold untouched, try_except, fs_of, events_of in *.
  destruct (m fs) as [[[a|e] fs1] l1]; simpl in *; [done|]. subst fs1.
  destruct (decide _); [|done].
  destruct (Hh e fs) as [F2 M2]. unfold untouched, fs_of, events_of in *.
  destruct (h e fs) as [[r fs2] l2]; simpl in *.
  by rewrite mutations_app, M1, M2.
Qed.

Lemma read_only_when b m : read_only m → read_only (when b m).
Proof. by destruct b. Qed.

Lemma read_only_if {A} (b : bool) (m1 m2 : M A) :
  read_only m1 → read_only m2 → read_only (if b then m1 else m2).
Proof. by destruct b. Qed.

Lemma read_only_query {A} plat c err (f : FS → option A) :
  mutating c = false → read_only (sys_call plat c err (query f)).
Proof.
  intros Hc fs. unfold untouched, sys_call, query, fs_of, events_of.
  destruct (faulty plat c); [|destruct (f fs)]; simpl;
    by rewrite mutations_sys, Hc.
Qed.

#[export] Hint Resolve read_only_ret read_only_raise read_only_bind read_only_try
  read_only_when read_only_if : py.
#[export] Hint Extern 1 (read_only (sys_call _ _ _ (query _))) =>
  (by apply read_only_query) : py.
#[export] Hint Extern 5 (read_only _) => (apply reports_read_only) : py.

Lemma returns_ret {A} (a : A) : returns (ret a).
Proof. intros fs. by exists a, fs, []. Qed.

Lemma returns_bind {A B} (m : M A) (k : A → M B) :
  returns m → (∀ a, returns (k a)) → returns (bind m k).
Proof.
  intros Hm Hk fs. destruct (Hm fs) as (a & fs1 & l1 & E1).
  destruct (Hk a fs1) as (b & fs2 & l2 & E2).
  exists b, fs2, (l1 ++ l2). by rewrite (bind_ret_run _ _ _ _ _ _ E1), E2.
Qed.

Lemma returns_when b m : returns m → returns (when b m).
Proof. destruct b; [done|]. intros _. apply returns_ret. Qed.

Lemma returns_if {A} (b : bool) (m1 m2 : M A) :
  returns m1 → returns m2 → returns (if b then m1 else m2).
Proof. by destruct b. Qed.

(** A guarded call: the exception of the call is the one the handler
    catches, so the whole returns when the handler does. *)
Lemma returns_guarded {A B} plat c err step (k : A → M B) cls (h : exn → M B) :
  (∀ s, class_of (err s) = cls) →
  (∀ a, returns (k a)) → (∀ e, returns (h e)) →
  returns (try_except (bind (sys_call plat c err step) k) cls h).
Proof.
  intros Hc Hk Hh fs. unfold try_except, bind, sys_call.
  destruct (faulty plat c).
  - rewrite decide_True by done.
    destruct (Hh (err (strerror plat c)) fs) as (b & fs2 & l2 & ->). by eexists _, _, _.
  - destruct (step fs) as [[a fs1]|].
    + destruct (Hk a fs1) as (b & fs2 & l2 & ->). by eexists _, _, _.
    + rewrite decide_True by done.
      destruct (Hh (err (strerror plat c)) fs) as (b & fs2 & l2 & ->). by eexists _, _, _.
Qed.

Lemma returns_guarded0 {A} plat c err step cls (h : exn → M A) :
  (∀ s, class_of (err s) = cls) → (∀ e, returns (h e)) →
  returns (try_except (sys_call plat c err step) cls h).
Proof.
  intros Hc Hh fs. unfold try_except, sys_call.
  destruct (faulty plat c).
  - rewrite decide_True by done.
    destruct (Hh (err (strerror plat c)) fs) as (b & fs2 & l2 & ->). by eexists _, _, _.
  - destruct (step fs) as [[a fs1]|].
    + by eexists _, _, _.
    + rewrite decide_True by done.
      destruct (Hh (err (strerror plat c)) fs) as (b & fs2 & l2 & ->). by eexists _, _, _.
Qed.

Lemma returns_guarded_else {A B} plat c err step cls (h : exn → M B) (k : A → M B) :
  (∀ s, class_of (err s) = cls) → (∀ e, returns (h e)) → (∀ a, returns (k a)) →
  returns (try_except_else (sys_call plat c err step) cls h k).
Proof.
  intros Hc Hh Hk fs. unfold try_except_else, sys_call.
  destruct (faulty plat c).
  - rewrite decide_True by done.
    destruct (Hh (err (strerror plat c)) fs) as (b & fs2 & l2 & ->). by eexists _, _, _.
  - destruct (step fs) as [[a fs1]|].
    + destruct (Hk a fs1) as (b & fs2 & l2 & ->). by eexists _, _, _.
    + rewrite decide_True by done.
      destruct (Hh (err (strerror plat c)) fs) as (b & fs2 & l2 & ->). by eexists _, _, _.
Qed.

#[export] Hint Resolve returns_ret returns_bind returns_when returns_if : py.
#[export] Hint Extern 5 (returns _) => (apply reports_returns) : py.
#[export] Hint Extern 2 (returns (try_except (bind (sys_call _ _ _ _) _) _ _)) =>
  (apply returns_guarded; [done| |]) : py.
#[export] Hint Extern 2 (returns (try_except (sys_call _ _ _ _) _ _)) =>
  (apply returns_guarded0; [done|]) : py.
#[export] Hint Extern 2 (returns (try_except_else (sys_call _ _ _ _) _ _ _)) =>
  (apply returns_guarded_else; [done| |]) : py.

#[export] Hint Extern 4 (returns (match ?x with _ => _ end)) => (destruct x) : py.
#[export] Hint Extern 4 (read_only (match ?x with _ => _ end)) => (destruct x) : py.
#[export] Hint Extern 4 (reports (match ?x with _ => _ end)) => (destruct x) : py.

Ltac unfold_out := unfold stdout, stderr, verbose, unix_out, terse, log, emit.

Ltac unfold_os :=
  unfold os_rename, os_unlink, os_rmdir, os_mkdir, os_chown, os_lchown,
    os_chmod, os_lchmod, os_utime, os_symlink, os_mkfifo, os_mknod,
    shutil_copy, os_readlink, os_lstat, os_stat, open_rb, file_read.

(** ** No method of a handler raises *)

Section Returns.
Context `{Hashlib, DevNumbers, LibText}.
Context (cfg : Config) (plat : Platform).

Lemma mkdir_p_returns p : returns (mkdir_p plat p).
Proof. unfold mkdir_p. eauto 40 with py. Qed.

Lemma move_saved_returns v : returns (move_saved cfg plat v).
Proof. unfold move_saved. unfold_os. eauto 40 with py. Qed.

Lemma harddelete_returns v : returns (harddelete cfg plat v).
Proof.
  pose proof move_saved_returns.
  unfold harddelete, VNodeDir_harddelete, VNode_harddelete. unfold_os.
  destruct (cls v); eauto 40 with py.
Qed.

Lemma quiet_delete_returns v : returns (quiet_delete cfg plat v).
Proof.
  pose proof move_saved_returns.
  unfold quiet_delete, VNodeDir_quiet_delete, VNode_quiet_delete. unfold_os.
  destruct (cls v); eauto 40 with py.
Qed.

Lemma mkdir_basepath_returns v : returns (mkdir_basepath cfg plat v).
Proof.
  pose proof mkdir_p_returns. unfold mkdir_basepath. eauto 40 with py.
Qed.

Lemma set_owner_returns v : returns (set_owner cfg plat v).
Proof.
  unfold set_owner, VNode_set_owner, VNodeLink_set_owner. unfold_os.
  destruct (cls v); eauto 40 with py.
Qed.

Lemma set_permissions_returns v : returns (set_permissions cfg plat v).
Proof.
  unfold set_permissions, VNode_set_permissions, VNodeLink_set_permissions.
  unfold_os. destruct (cls v); eauto 40 with py.
Qed.

Lemma set_times_returns v atime mtime : returns (set_times cfg plat v atime mtime).
Proof. unfold set_times. unfold_os. eauto 40 with py. Qed.

Lemma os_path_exists_returns p : returns (os_path_exists plat p).
Proof. unfold os_path_exists, os_stat. eauto 40 with py. Qed.

Lemma create_returns v : returns (create cfg plat v).
Proof.
  pose proof os_path_exists_returns.
  unfold create, VNodeFile_create, VNodeDir_create, VNodeLink_create,
    VNodeFifo_create, VNodeDev_create. unfold_os.
  destruct (cls v); eauto 40 with py.
Qed.

Lemma fix_returns v : returns (fix_ cfg plat v).
Proof.
  pose proof move_saved_returns. pose proof quiet_delete_returns.
  pose proof mkdir_basepath_returns. pose proof create_returns.
  pose proof set_owner_returns. pose proof set_permissions_returns.
  unfold fix_. eauto 40 with py.
Qed.
End Returns.

Lemma read_only_call {A} (o : option VNode) attr (f : VNode → M A) :
  (∀ v, read_only (f v)) → read_only (call o attr f).
Proof. destruct o; simpl; eauto with py. Qed.

(** ** Comparing and building a handler never change anything *)

Section ReadOnly.
Context `{Hashlib, DevNumbers, LibText}.
Context (cfg : Config) (plat : Platform).

Lemma read_block_read_only path f : read_only (read_block plat path f).
Proof. unfold read_block. unfold_os. eauto 40 with py. Qed.

Lemma read_block_returns path f : returns (read_block plat path f).
Proof. unfold read_block. unfold_os. eauto 40 with py. Qed.

Lemma checksum_loop_read_only fuel src_path dest f1 f2 sum1 sum2 ended :
  read_only (checksum_loop plat fuel src_path dest f1 f2 sum1 sum2 ended).
Proof.
  pose proof read_block_read_only.
  revert f1 f2 sum1 sum2 ended.
  induction fuel as [|fuel IH]; intros; simpl; eauto 40 with py.
Qed.

Lemma checksum_loop_returns fuel src_path dest f1 f2 sum1 sum2 ended :
  returns (checksum_loop plat fuel src_path dest f1 f2 sum1 sum2 ended).
Proof.
  pose proof read_block_returns.
  revert f1 f2 sum1 sum2 ended.
  induction fuel as [|fuel IH]; intros; simpl; eauto 40 with py.
Qed.

Lemma compare_read_only v src_path dest_stat :
  read_only (compare cfg plat v src_path dest_stat).
Proof.
  pose proof checksum_loop_read_only.
  unfold compare, VNodeFile_compare, _compare_checksums, VNodeLink_compare,
    VNodeDev_compare. unfold_os.
  destruct (cls v); eauto 40 with py.
Qed.

Lemma compare_returns v src_path dest_stat :
  returns (compare cfg plat v src_path dest_stat).
Proof.
  pose proof checksum_loop_returns.
  unfold compare, VNodeFile_compare, _compare_checksums, VNodeLink_compare,
    VNodeDev_compare. unfold_os.
  destruct (cls v); eauto 40 with py.
Qed.

Lemma vnode_obj_read_only so : read_only (vnode_obj plat so).
Proof. unfold vnode_obj. unfold_os. eauto 40 with py. Qed.

Lemma os_path_exists_read_only p : read_only (os_path_exists plat p).
Proof. unfold os_path_exists. unfold_os. eauto 40 with py. Qed.
End ReadOnly.

(** ** In a dry run no method changes anything *)

Section DryRun.
Context `{Hashlib, DevNumbers, LibText}.
Context (cfg : Config) (plat : Platform).
Hypothesis dry : DRY_RUN cfg = true.

Lemma move_saved_dry v : read_only (move_saved cfg plat v).
Proof. unfold move_saved. rewrite dry. simpl. eauto 40 with py. Qed.

Lemma harddelete_dry v : read_only (harddelete cfg plat v).
Proof.
  unfold harddelete, VNodeDir_harddelete, VNode_harddelete. rewrite dry.
  simpl. destruct (cls v); eauto 40 with py.
Qed.

Lemma quiet_delete_dry v : read_only (quiet_delete cfg plat v).
Proof.
  unfold quiet_delete, VNodeDir_quiet_delete, VNode_quiet_delete.
  rewrite dry. simpl. destruct (cls v); eauto 40 with py.
Qed.

Lemma mkdir_basepath_dry v : read_only (mkdir_basepath cfg plat v).
Proof. unfold mkdir_basepath. rewrite dry. eauto 40 with py. Qed.

Lemma create_dry v : read_only (create cfg plat v).
Proof.
  pose proof (os_path_exists_read_only plat).
  unfold create, VNodeFile_create, VNodeDir_create, VNodeLink_create,
    VNodeFifo_create, VNodeDev_create. rewrite dry. simpl.
  destruct (cls v); eauto 40 with py.
Qed.

Lemma set_owner_dry v : read_only (set_owner cfg plat v).
Proof.
  unfold set_owner, VNode_set_owner, VNodeLink_set_owner. rewrite dry.
  simpl. destruct (cls v); eauto 40 with py.
Qed.

Lemma set_permissions_dry v : read_only (set_permissions cfg plat v).
Proof.
  unfold set_permissions, VNode_set_permissions, VNodeLink_set_permissions.
  rewrite dry. simpl. destruct (cls v); eauto 40 with py.
Qed.

Lemma set_times_dry v atime mtime : read_only (set_times cfg plat v atime mtime).
Proof. unfold set_times. rewrite dry. simpl. eauto 40 with py. Qed.

Lemma fix_dry v : read_only (fix_ cfg plat v).
Proof.
  pose proof move_saved_dry. pose proof quiet_delete_dry.
  pose proof mkdir_basepath_dry. pose proof create_dry.
  pose proof set_owner_dry. pose proof set_permissions_dry.
  unfold fix_. eauto 40 with py.
Qed.

Lemma check_dry so : read_only (check cfg plat so).
Proof.
  pose proof fix_dry. pose proof set_owner_dry. pose proof set_permissions_dry.
  pose proof (compare_read_only cfg plat). pose proof (vnode_obj_read_only plat).
  unfold check. apply read_only_if; [|apply read_only_if].
  - eauto 40 using @read_only_call with py.
  - eauto 40 using @read_only_call with py.
  - apply read_only_bind; [done|]. intros vnode.
    apply read_only_bind; [by apply read_only_call|].
    intros same. apply read_only_if; eauto 40 using @read_only_call with py.
Qed.
End DryRun.

(** ** The decision of [check] does not depend on the configuration *)

Lemma same_outcome_refl {A} (m : M A) : same_outcome m m.
Proof. done. Qed.

Lemma same_outcome_bind {A B} (m1 m2 : M A) (k1 k2 : A → M B) :
  same_outcome m1 m2 → (∀ a, same_outcome (k1 a) (k2 a)) →
  same_outcome (bind m1 k1) (bind m2 k2).
Proof.
  intros Hm Hk fs. destruct (Hm fs) as [R1 F1].
  unfold bind, result_of, fs_of in *.
  destruct (m1 fs) as [[r1 fs1] l1], (m2 fs) as [[r2 fs2] l2]; simpl in *.
  subst r2 fs2. destruct r1 as [a|e]; [|done].
  destruct (Hk a fs1) as [R2 F2]. unfold result_of, fs_of in *.
  by destruct (k1 a fs1) as [[??]?], (k2 a fs1) as [[??]?].
Qed.

Lemma same_outcome_reports {A} (m1 m2 : M unit) (k1 k2 : M A) :
  reports m1 → reports m2 → same_outcome k1 k2 →
  same_outcome (bind m1 (λ _, k1)) (bind m2 (λ _, k2)).
Proof.
  intros H1 H2 Hk. apply same_outcome_bind; [|done].
  intros fs. destruct (H1 fs) as (? & -> & _), (H2 fs) as (? & -> & _). done.
Qed.

Lemma same_outcome_if {A} (b : bool) (m1 m2 n1 n2 : M A) :
  same_outcome m1 n1 → same_outcome m2 n2 →
  same_outcome (if b then m1 else m2) (if b then n1 else n2).
Proof. by destruct b. Qed.

Lemma same_result_bind {A B} (m1 m2 : M A) (k1 k2 : A → M B) :
  same_outcome m1 m2 → (∀ a, same_result (k1 a) (k2 a)) →
  same_result (bind m1 k1) (bind m2 k2).
Proof.
  intros Hm Hk fs. destruct (Hm fs) as [R1 F1].
  unfold bind, result_of, fs_of in *.
  destruct (m1 fs) as [[r1 fs1] l1], (m2 fs) as [[r2 fs2] l2]; simpl in *.
  subst r2 fs2. destruct r1 as [a|e]; [|done].
  specialize (Hk a fs1). unfold result_of in Hk.
  by destruct (k1 a fs1) as [[??]?], (k2 a fs1) as [[??]?].
Qed.

Lemma yields_same_result {A} (m1 m2 : M A) a :
  yields m1 a → yields m2 a → same_result m1 m2.
Proof. intros H1 H2 fs. by rewrite H1, H2. Qed.

Lemma yields_ret {A} (a : A) : yields (ret a) a.
Proof. done. Qed.

Lemma yields_bind {A B} (m : M A) (k : A → M B) b :
  returns m → (∀ a, yields (k a) b) → yields (bind m k) b.
Proof.
  intros Hm Hk fs. destruct (Hm fs) as (a & fs1 & l1 & E).
  rewrite (bind_ret_run _ _ _ _ _ _ E). apply Hk.
Qed.

Section Decision.
Context `{Hashlib, DevNumbers, LibText}.
Context (cfg1 cfg2 : Config) (plat : Platform).

Lemma compare_same_outcome v src_path dest_stat :
  same_outcome (compare cfg1 plat v src_path dest_stat)
               (compare cfg2 plat v src_path dest_stat).
Proof.
  unfold compare. destruct (cls v); try apply same_outcome_refl.
  unfold VNodeFile_compare, _compare_checksums.
  apply same_outcome_if.
  - apply same_outcome_reports; [destruct (DRY_RUN cfg1); eauto with py
                                 |destruct (DRY_RUN cfg2); eauto with py
                                 |apply same_outcome_refl].
  - apply same_outcome_bind; [apply same_outcome_refl|]. intros [f1|]; [|done].
    apply same_outcome_bind; [apply same_outcome_refl|]. intros [f2|]; [|done].
    apply same_outcome_bind; [apply same_outcome_refl|].
    intros [b|[sum1 sum2]]; [done|].
    apply same_outcome_if; [|done].
    apply same_outcome_reports; [destruct (DRY_RUN cfg1); eauto with py
                                |destruct (DRY_RUN cfg2); eauto with py
                                |apply same_outcome_refl].
Qed.

Lemma fixed_same_result (vnode : option VNode) (r : bool * bool) :
  same_result (call vnode "fix" (fix_ cfg1 plat) ;; ret r)
              (call vnode "fix" (fix_ cfg2 plat) ;; ret r).
Proof.
  destruct vnode as [v|]; [|done]. simpl.
  apply yields_same_result with r;
    (apply yields_bind; [apply fix_returns | intros; apply yields_ret]).
Qed.

Lemma check_same_result so :
  same_result (check cfg1 plat so) (check cfg2 plat so).
Proof.
  unfold check. destruct (negb _).
  { apply same_result_bind; [apply same_outcome_refl|]. intros _.
    apply same_result_bind; [apply same_outcome_refl|]. intros _.
    apply same_result_bind; [apply same_outcome_refl|]. intros vnode.
    apply fixed_same_result. }
  destruct (bool_decide _).
  { apply same_result_bind; [apply same_outcome_refl|]. intros vnode.
    apply same_result_bind; [apply same_outcome_refl|]. intros tn.
    apply same_result_bind; [apply same_outcome_refl|]. intros _.
    apply same_result_bind; [apply same_outcome_refl|]. intros _.
    apply same_result_bind; [apply same_outcome_refl|]. intros _.
    apply fixed_same_result. }
  apply same_result_bind; [apply same_outcome_refl|]. intros vnode.
  apply same_result_bind.
  { destruct vnode; [apply compare_same_outcome | apply same_outcome_refl]. }
  intros same. destruct (negb same).
  { apply same_result_bind; [apply same_outcome_refl|]. intros _.
    apply fixed_same_result. }
  destruct vnode as [v|].
  - eapply yields_same_result;
      (apply yields_bind;
       [apply returns_when; simpl; eauto 40 using set_owner_returns with py|];
       intros _; apply yields_bind;
       [apply returns_when; simpl; eauto 40 using set_permissions_returns with py|];
       intros _; apply yields_ret).
  - destruct (_ || _), (bool_decide (mode _ ≠ mode _)); simpl; try done.
Qed.
End Decision.

(** ** The dry run *)

Section DryRunInvariant.
Context `{Hashlib, DevNumbers, LibText}.

End DryRunInvariant.

(** ** Paths and the entries below them *)

Lemma string_app_cons c (s t : string) : String c s +:+ t = String c (s +:+ t).
Proof. done. Qed.

Lemma string_app_nil_r (s : string) : s +:+ "" = s.
Proof.
  induction s as [|c s IH]; [done|]. by rewrite string_app_cons, IH.
Qed.

Lemma string_app_assoc (a b c : string) : (a +:+ b) +:+ c = a +:+ (b +:+ c).
Proof.
  induction a as [|x a IH]; [done|]. by rewrite !string_app_cons, IH.
Qed.

Lemma string_length_app (a b : string) :
  String.length (a +:+ b) = (String.length a + String.length b)%nat.
Proof.
  induction a as [|x a IH]; [done|]. rewrite string_app_cons. simpl. by rewrite IH.
Qed.

Lemma strip_prefix_Some a k s : strip_prefix a k = Some s ↔ k = a +:+ s.
Proof.
  revert k. induction a as [|c a IH]; intros k.
  - change ("" +:+ s) with s. simpl. split; congruence.
  - rewrite string_app_cons. simpl.
    destruct k as [|c' k]; [split; congruence|].
    destruct (decide (c = c')) as [->|Hne].
    + rewrite IH. split; congruence.
    + split; congruence.
Qed.

Lemma strip_prefix_app a s : strip_prefix a (a +:+ s) = Some s.
Proof. by apply strip_prefix_Some. Qed.

Lemma strip_prefix_self a : strip_prefix a a = Some "".
Proof. apply strip_prefix_Some. by rewrite string_app_nil_r. Qed.

Lemma strip_prefix_longer a k :
  (String.length k < String.length a)%nat → strip_prefix a k = None.
Proof.
  intros Hlen. destruct (strip_prefix a k) as [s|] eqn:E; [|done].
  apply strip_prefix_Some in E. subst k. rewrite string_length_app in Hlen. lia.
Qed.

Lemma in_tree_self a : in_tree a a = true.
Proof. unfold in_tree. by rewrite strip_prefix_self. Qed.

Lemma under_in_tree d k : under d k = true → in_tree d k = true.
Proof.
  unfold under, in_tree. destruct (strip_prefix d k) as [[|c s]|]; try done.
Qed.

Lemma in_tree_cases a k :
  in_tree a k = true → k = a ∨ under a k = true.
Proof.
  unfold in_tree, under. destruct (strip_prefix a k) as [[|c s]|] eqn:E; try done.
  - apply strip_prefix_Some in E. rewrite string_app_nil_r in E. auto.
  - auto.
Qed.

Lemma in_tree_rebase a b k : in_tree a k = true → in_tree b (rebase a b k) = true.
Proof.
  unfold in_tree, rebase. intros Hk.
  destruct (strip_prefix a k) as [s|]; [|done]. by rewrite strip_prefix_app.
Qed.

Lemma rebase_self a b : rebase a b a = b.
Proof. unfold rebase. by rewrite strip_prefix_self, string_app_nil_r. Qed.

Lemma rebase_inj a b k1 k2 :
  in_tree a k1 = true → in_tree a k2 = true →
  rebase a b k1 = rebase a b k2 → k1 = k2.
Proof.
  unfold in_tree, rebase. intros H1 H2.
  destruct (strip_prefix a k1) as [s1|] eqn:E1; [|done].
  destruct (strip_prefix a k2) as [s2|] eqn:E2; [|done].
  apply strip_prefix_Some in E1, E2. intros Hb%(inj (String.append b)).
  congruence.
Qed.

(** The sibling [name.saved] is neither [name], nor above, nor below it. *)
Lemma saved_ne a : a ≠ a +:+ ".saved".
Proof.
  intros E. apply (f_equal String.length) in E.
  rewrite string_length_app in E. simpl in E. lia.
Qed.

Lemma saved_not_below a : in_tree a (a +:+ ".saved") = false.
Proof. unfold in_tree. by rewrite strip_prefix_app. Qed.

Lemma saved_not_above a : in_tree (a +:+ ".saved") a = false.
Proof.
  unfold in_tree. rewrite strip_prefix_longer; [done|].
  rewrite string_length_app. simpl. lia.
Qed.

(** ** Moving a tree *)

Lemma foldr_insert_lookup (f : string → string) (l : list (string * inode))
    (base : FS) k i :
  NoDup (f <$> l.*1) → (k, i) ∈ l →
  foldr (λ kv acc, <[f kv.1 := kv.2]> acc) base l !! f k = Some i.
Proof.
  induction l as [|[k' i'] l IH]; simpl; intros Hnd Hin.
  - by apply elem_of_nil in Hin.
  - apply NoDup_cons in Hnd as [Hnotin Hnd].
    apply elem_of_cons in Hin as [[= -> ->]|Hin].
    + by rewrite lookup_insert_eq.
    + rewrite lookup_insert_ne; [by apply IH|].
      intros E. apply Hnotin. rewrite E.
      apply list_elem_of_fmap. exists k. split; [done|].
      apply list_elem_of_fmap. by exists (k, i).
Qed.

Lemma foldr_insert_lookup_ne (f : string → string) (l : list (string * inode))
    (base : FS) k :
  (∀ kv, kv ∈ l → f kv.1 ≠ k) →
  foldr (λ kv acc, <[f kv.1 := kv.2]> acc) base l !! k = base !! k.
Proof.
  induction l as [|kv l IH]; simpl; intros Hne; [done|].
  rewrite lookup_insert_ne.
  - apply IH. intros kv' Hin. apply Hne. by right.
  - apply Hne. by left.
Qed.

Lemma move_tree_moved a b (fs : FS) k i :
  fs !! k = Some i → in_tree a k = true →
  move_tree a b fs !! rebase a b k = Some i.
Proof.
  intros Hk Hin. unfold move_tree. apply foldr_insert_lookup.
  - apply NoDup_fmap_2_strong; [|apply NoDup_fst_map_to_list].
    intros k1 k2 [[k1' i1] [-> H1]]%list_elem_of_fmap [[k2' i2] [-> H2]]%list_elem_of_fmap.
    apply elem_of_map_to_list, map_lookup_filter_Some in H1 as [_ H1].
    apply elem_of_map_to_list, map_lookup_filter_Some in H2 as [_ H2].
    simpl in *. by apply rebase_inj.
  - apply elem_of_map_to_list, map_lookup_filter_Some. done.
Qed.

Lemma move_tree_other a b (fs : FS) k :
  in_tree b k = false →
  move_tree a b fs !! k = if in_tree a k then None else fs !! k.
Proof.
  intros Hb. unfold move_tree. rewrite foldr_insert_lookup_ne.
  - destruct (in_tree a k) eqn:Ha.
    + apply map_lookup_filter_None. right. intros i _ [Hf _]. simpl in Hf. congruence.
    + destruct (fs !! k) as [i|] eqn:Hk.
      * apply map_lookup_filter_Some. done.
      * apply map_lookup_filter_None. by left.
  - intros [k' i'] Hin E. simpl in E. subst k.
    apply elem_of_map_to_list, map_lookup_filter_Some in Hin as [_ Hin].
    simpl in Hin. apply (in_tree_rebase a b) in Hin. congruence.
Qed.

(** After a rename that succeeded the entry is at its new name and no
    longer at its old one. *)
Lemma rename_step_moved old new (fs fs' : FS) i :
  old ≠ new → fs !! old = Some i → rename_step old new fs = Some fs' →
  fs' !! new = Some i ∧ fs' !! old = None.
Proof.
  intros Hne Hold. unfold rename_step. rewrite Hold.
  rewrite bool_decide_eq_false_2 by done.
  destruct (in_tree old new) eqn:H1; [done|].
  destruct (in_tree new old) eqn:H2; [done|]. simpl.
  assert (move_tree old new fs !! new = Some i ∧ move_tree old new fs !! old = None).
  { split.
    - pose proof (move_tree_moved old new fs old i Hold (in_tree_self old)) as Hm.
      by rewrite rebase_self in Hm.
    - rewrite move_tree_other by done. by rewrite in_tree_self. }
  destruct (fs !! new) as [inew|]; [|by intros [= <-]].
  destruct (is_dir_node i).
  - destruct (_ && _); [by intros [= <-] | done].
  - destruct (is_dir_node inew); [done | by intros [= <-]].
Qed.

Lemma rename_step_Some old new (fs fs' : FS) :
  old ≠ new → rename_step old new fs = Some fs' → fs' = move_tree old new fs.
Proof.
  intros Hne. unfold rename_step.
  destruct (fs !! old) as [io|]; [|done].
  rewrite bool_decide_eq_false_2 by done.
  destruct (_ || _); [done|].
  destruct (fs !! new) as [inew|]; [|by intros [= <-]].
  destruct (is_dir_node io).
  - destruct (_ && _); [by intros [= <-] | done].
  - destruct (is_dir_node inew); [done | by intros [= <-]].
Qed.

(** A rename only touches what is at or below one of its two names. *)
Lemma rename_step_other old new (fs fs' : FS) k :
  rename_step old new fs = Some fs' →
  in_tree old k = false → in_tree new k = false → fs' !! k = fs !! k.
Proof.
  unfold rename_step. intros Hr Ho Hn.
  assert (move_tree old new fs !! k = fs !! k) as Hm.
  { rewrite move_tree_other by done. by rewrite Ho. }
  destruct (fs !! old) as [io|]; [|done].
  destruct (bool_decide _); [by injection Hr as <-|].
  destruct (_ || _); [done|].
  destruct (fs !! new) as [inew|]; [|by injection Hr as <-].
  destruct (is_dir_node io).
  - destruct (_ && _); [by injection Hr as <- | done].
  - destruct (is_dir_node inew); [done | by injection Hr as <-].
Qed.

(** ** Deleting a directory *)

Section HardDelete.
Context `{Hashlib, DevNumbers, LibText}.
Context (cfg : Config) (plat : Platform).

Lemma rmdir_step_nonempty p (fs : FS) :
  has_children p fs = true → rmdir_step p fs = None.
Proof.
  intros Hc. unfold rmdir_step. rewrite Hc.
  destruct (fs !! p) as [i|]; [|done]. by rewrite andb_false_r.
Qed.

(** C10.  With backup copies enabled and dry-run off, [harddelete] of the
    directory variant prints its message, echoes the [rmdir] command and
    emits the terse delete tag, and makes no call to the OS at all: the
    directory is neither removed nor renamed.  The [harddelete] of the
    other variants, under the same flags, does call [os.unlink]. *)
Theorem dir_harddelete_with_backups (v : VNode) (fs : FS) :
  DRY_RUN cfg = false → BACKUP_COPIES cfg = true →
  (cls v = VNodeDir →
   harddelete cfg plat v fs =
     (Ret tt, fs,
      [EvStdout ("removing " +:+ (name v +:+ "/"));
       EvUnixOut ("rmdir " +:+ name v);
       EvTerse TERSE_DELETE (name v +:+ "/")])) ∧
  (cls v ≠ VNodeDir →
   syscalls (events_of (harddelete cfg plat v fs)) = [Unlink (name v)]).
Proof.
  intros Hdry Hbak. split; intros Hcls.
  - unfold harddelete, VNodeDir_harddelete. by rewrite Hcls, Hdry, Hbak.
  - unfold harddelete.
    destruct (cls v); try done; unfold VNode_harddelete; rewrite Hdry;
      unfold try_except_else, os_unlink, sys_call, bind, change; simpl;
      destruct (faulty plat _); simpl; try done;
      by destruct (unlink_step _ _).
Qed.
End HardDelete.

(** ** Comparing two regular files *)

Section Checksums.
Context `{Hashlib, DevNumbers, LibText}.
Context (plat : Platform).

Lemma fed_app pre blk : is_empty blk = false → update (fed pre) blk = fed (pre ++ blk).
Proof.
  unfold fed. intros Hblk. destruct pre as [|x pre]; simpl.
  - by rewrite Hblk.
  - apply update_app.
Qed.

Lemma open_rb_run p (fs : FS) i data :
  faulty plat (Open p) = false → fs !! p = Some i → i_node i = Reg data →
  open_rb plat p fs = (Ret (File p data 0), fs, [EvSys (Open p) true]).
Proof.
  intros Hf Hp Hn. unfold open_rb, sys_call, query. rewrite Hf, Hp. simpl.
  by rewrite Hn.
Qed.

Lemma open_rb_fails p (fs : FS) :
  faulty plat (Open p) = true →
  open_rb plat p fs = (Raise (IOError (strerror plat (Open p))), fs,
                       [EvSys (Open p) false]).
Proof. intros Hf. unfold open_rb, sys_call. by rewrite Hf. Qed.

Lemma try_open_run p (h : exn → M (option file)) (fs : FS) i data :
  faulty plat (Open p) = false → fs !! p = Some i → i_node i = Reg data →
  try_except (f ← open_rb plat p; ret (Some f)) ClsIOError h fs
  = (Ret (Some (File p data 0)), fs, [EvSys (Open p) true]).
Proof.
  intros Hf Hp Hn. unfold try_except, bind.
  by rewrite (open_rb_run _ _ _ _ Hf Hp Hn).
Qed.

Lemma try_open_fails p (h : exn → M (option file)) (fs : FS) :
  faulty plat (Open p) = true →
  try_except (f ← open_rb plat p; ret (Some f)) ClsIOError h fs
  = ((h (IOError (strerror plat (Open p))) fs).1.1,
     (h (IOError (strerror plat (Open p))) fs).1.2,
     [EvSys (Open p) false] ++ (h (IOError (strerror plat (Open p))) fs).2).
Proof.
  intros Hf. unfold try_except, bind. rewrite (open_rb_fails _ _ Hf). simpl.
  by destruct (h _ fs) as [[??]?].
Qed.

Lemma read_block_run path p rest b (fs : FS) :
  faulty plat (Read p b) = false →
  read_block plat path (File p rest b) fs
  = (Ret (Some (take IO_SIZE rest, File p (drop IO_SIZE rest) (S b))),
     fs, [EvSys (Read p b) true]).
Proof.
  intros Hf. unfold read_block, try_except, bind, file_read, sys_call, query.
  simpl. by rewrite Hf.
Qed.

Lemma read_block_fails path p rest b (fs : FS) :
  faulty plat (Read p b) = true →
  ∃ l, read_block plat path (File p rest b) fs = (Ret None, fs, l).
Proof.
  intros Hf. unfold read_block, try_except, bind, file_read, sys_call, query.
  simpl. rewrite Hf. simpl. eauto.
Qed.

Lemma take_IO_SIZE_empty (l : list byte) :
  is_empty (take IO_SIZE l) = is_empty l.
Proof. by destruct l. Qed.

Lemma drop_IO_SIZE_length (l : list byte) :
  is_empty l = false → (length (drop IO_SIZE l) < length l)%nat.
Proof.
  destruct l as [|x l]; [done|]. intros _. rewrite length_drop.
  unfold IO_SIZE. simpl length. lia.
Qed.

(** When the two files hold the same data and the sums agree, the loop
    is left with sums that agree. *)
Lemma checksum_loop_same fuel src_path dest rest b1 b2 sum ended (fs : FS) :
  (∀ k, faulty plat (Read src_path k) = false) →
  (∀ k, faulty plat (Read dest k) = false) →
  ∃ sum' l,
    checksum_loop plat fuel src_path dest (File src_path rest b1)
      (File dest rest b2) sum sum ended fs
    = (Ret (inr (sum', sum')), fs, l).
Proof.
  intros Hf1 Hf2. revert rest b1 b2 sum ended.
  induction fuel as [|fuel IH]; intros; simpl.
  - destruct (_ && _); by eexists _, _.
  - destruct (_ && _); [|by eexists _, _].
    rewrite (bind_ret_run _ _ _ _ _ _ (read_block_run _ _ _ _ _ (Hf1 _))).
    rewrite (bind_ret_run _ _ _ _ _ _ (read_block_run _ _ _ _ _ (Hf2 _))).
    simpl.
    edestruct IH as (sum' & l & ->). by eexists _, _.
Qed.

(** With fuel for every block, the loop is left either at the first
    block after which the sums differ, or with the sums of the whole
    files. *)
Lemma checksum_loop_full fuel src_path dest pre1 pre2 rest1 rest2 b1 b2 (fs : FS) :
  (∀ k, faulty plat (Read src_path k) = false) →
  (∀ k, faulty plat (Read dest k) = false) →
  length rest1 = length rest2 →
  (length rest1 < fuel)%nat →
  ∃ sum1 sum2 l,
    checksum_loop plat fuel src_path dest (File src_path rest1 b1)
      (File dest rest2 b2) (fed pre1) (fed pre2) false fs
    = (Ret (inr (sum1, sum2)), fs, l) ∧
    (digest sum1 ≠ digest sum2 ∨
     sum1 = fed (pre1 ++ rest1) ∧ sum2 = fed (pre2 ++ rest2)).
Proof.
  intros Hf1 Hf2. revert pre1 pre2 rest1 rest2 b1 b2.
  induction fuel as [|fuel IH]; intros pre1 pre2 rest1 rest2 b1 b2 Hlen Hfuel;
    [lia|].
  simpl. destruct (bool_decide (digest (fed pre1) = digest (fed pre2))) eqn:Hd.
  2:{ apply bool_decide_eq_false in Hd. eexists _, _, _. split; [done|]. by left. }
  simpl.
  rewrite (bind_ret_run _ _ _ _ _ _ (read_block_run _ _ _ _ _ (Hf1 _))).
  simpl.
  rewrite (bind_ret_run _ _ _ _ _ _ (read_block_run _ _ _ _ _ (Hf2 _))).
  simpl. rewrite !take_IO_SIZE_empty.
  destruct (is_empty rest1) eqn:E1.
  - (* both files are at their end *)
    destruct rest1; [|done]. destruct rest2; [|done]. simpl.
    destruct fuel; simpl; eexists _, _, _; (split; [done|]);
      right; by rewrite !app_nil_r.
  - assert (is_empty rest2 = false) as E2.
    { destruct rest1, rest2; simpl in *; done || lia. }
    rewrite E2.
    rewrite !fed_app by by rewrite take_IO_SIZE_empty.
    edestruct (IH (pre1 ++ take IO_SIZE rest1) (pre2 ++ take IO_SIZE rest2)
                  (drop IO_SIZE rest1) (drop IO_SIZE rest2) (S b1) (S b2))
      as (sum1 & sum2 & l & -> & Hsum).
    { by rewrite !length_drop, Hlen. }
    { pose proof (drop_IO_SIZE_length rest1 E1). lia. }
    eexists _, _, _. split; [done|].
    by rewrite <- !app_assoc, !take_drop in Hsum.
Qed.
End Checksums.

Section FileCompare.
Context `{Hashlib, DevNumbers, LibText}.
Context (cfg : Config) (plat : Platform).

#[local] Arguments checksum_loop : simpl never.

(** Two readable files of the same length: [_compare_checksums] says
    whether the digests of their contents are equal, provided the two
    contents are not a collision of the digest. *)
Lemma compare_checksums_digest v src_path (fs : FS) i1 i2 data1 data2 :
  fs !! src_path = Some i1 → i_node i1 = Reg data1 →
  fs !! name v = Some i2 → i_node i2 = Reg data2 →
  length data1 = length data2 →
  faulty plat (Open src_path) = false →
  faulty plat (Open (name v)) = false →
  (∀ k, faulty plat (Read src_path k) = false) →
  (∀ k, faulty plat (Read (name v) k) = false) →
  (digest (update md5 data1) = digest (update md5 data2) → data1 = data2) →
  result_of (_compare_checksums cfg plat v src_path fs)
  = Ret (bool_decide (digest (update md5 data1) = digest (update md5 data2))).
Proof.
  intros Hs Hn1 Hd Hn2 Hlen Ho1 Ho2 Hr1 Hr2 Hcol.
  unfold _compare_checksums.
  rewrite (bind_ret_run _ _ _ _ _ _ (try_open_run _ _ _ _ _ _ Ho1 Hs Hn1)).
  simpl.
  rewrite (bind_ret_run _ _ _ _ _ _ (try_open_run _ _ _ _ _ _ Ho2 Hd Hn2)).
  simpl.
  destruct (decide (data1 = data2)) as [->|Hne].
  - rewrite bool_decide_eq_true_2 by done.
    destruct (checksum_loop_same plat (S (length data2)) src_path (name v)
                data2 0%nat 0%nat md5 false fs Hr1 Hr2) as (sum' & l & E).
    rewrite (bind_ret_run _ _ _ _ _ _ E). simpl.
    by rewrite bool_decide_eq_false_2 by auto.
  - rewrite bool_decide_eq_false_2 by auto.
    destruct (checksum_loop_full plat (S (length data1)) src_path (name v)
                [] [] data1 data2 0%nat 0%nat fs Hr1 Hr2 Hlen ltac:(lia))
      as (sum1 & sum2 & l & E & Hsum).
    change (fed []) with md5 in E.
    rewrite (bind_ret_run _ _ _ _ _ _ E). simpl.
    assert (digest sum1 ≠ digest sum2) as Hdiff.
    { destruct Hsum as [|[-> ->]]; [done|]. simpl.
      destruct data1 as [|x1 data1], data2 as [|x2 data2]; try done.
      unfold fed. simpl. auto. }
    rewrite bool_decide_eq_true_2 by done.
    by destruct (DRY_RUN cfg).
Qed.

End FileCompare.

(** ** The three components of a sequence *)

Lemma result_of_bind {A B} (m : M A) (k : A → M B) fs :
  result_of (bind m k fs)
  = match result_of (m fs) with
    | Ret a => result_of (k a (fs_of (m fs)))
    | Raise e => Raise e
    end.
Proof.
  unfold bind, result_of, fs_of. destruct (m fs) as [[[a|e] fs1] l1]; simpl; [|done].
  by destruct (k a fs1) as [[??]?].
Qed.

Lemma fs_of_bind {A B} (m : M A) (k : A → M B) fs :
  fs_of (bind m k fs)
  = match result_of (m fs) with
    | Ret a => fs_of (k a (fs_of (m fs)))
    | Raise e => fs_of (m fs)
    end.
Proof.
  unfold bind, result_of, fs_of. destruct (m fs) as [[[a|e] fs1] l1]; simpl; [|done].
  by destruct (k a fs1) as [[??]?].
Qed.

Lemma events_of_bind {A B} (m : M A) (k : A → M B) fs :
  events_of (bind m k fs)
  = events_of (m fs) ++
    match result_of (m fs) with
    | Ret a => events_of (k a (fs_of (m fs)))
    | Raise e => []
    end.
Proof.
  unfold bind, result_of, fs_of, events_of.
  destruct (m fs) as [[[a|e] fs1] l1]; simpl; [|by rewrite app_nil_r].
  by destruct (k a fs1) as [[??]?].
Qed.

Lemma returns_result {A} (m : M A) fs : returns m → ∃ a, result_of (m fs) = Ret a.
Proof. intros Hm. destruct (Hm fs) as (a & fs' & l & ->). by exists a. Qed.

(** ** The calls of [set_owner] and [set_permissions] *)

Section Metadata.
Context `{Hashlib, DevNumbers, LibText}.
Context (cfg : Config) (plat : Platform).

Lemma set_owner_calls v fs :
  mutations (events_of (set_owner cfg plat v fs)) = owner_call cfg plat v.
Proof.
  unfold set_owner, owner_call, VNode_set_owner, VNodeLink_set_owner.
  unfold_os. unfold try_except, sys_call, bind, change.
  destruct (cls v), (DRY_RUN cfg); simpl; try done;
    try (destruct (has_lchown plat); simpl; try done);
    (destruct (faulty plat _); simpl; [done|]);
    by destruct (alter_step _ _ _ fs).
Qed.

Lemma set_permissions_calls v fs :
  mutations (events_of (set_permissions cfg plat v fs)) = mode_call cfg plat v.
Proof.
  unfold set_permissions, mode_call, VNode_set_permissions,
    VNodeLink_set_permissions.
  unfold_os. unfold try_except, sys_call, bind, change.
  destruct (cls v), (DRY_RUN cfg); simpl; try done;
    try (destruct (has_lchmod plat); simpl; try done);
    (destruct (faulty plat _); simpl; [done|]);
    by destruct (alter_step _ _ _ fs).
Qed.

Lemma vnode_obj_fields so fs v :
  result_of (vnode_obj plat so fs) = Ret (Some v) →
  name v = dest_path so ∧ stat v = src_stat so
  ∧ vexists v = stat_exists (dest_stat so).
Proof.
  unfold vnode_obj. unfold_os.
  unfold try_except, sys_call, bind, query, result_of.
  repeat (match goal with
          | |- context [if ?b then _ else _] => destruct b
          | |- context [mbind _ ?x] => destruct x; simpl
          | |- context [match i_node ?i with _ => _ end] => destruct (i_node i)
          end; simpl; try done);
    by intros [= <-].
Qed.

(** After a [compare] that has returned true, [check] sets the owner and
    the mode, each when it differs. *)
Lemma check_metadata_outcome (so : SyncObject) (fs : FS) (v : VNode) :
  stat_exists (dest_stat so) = true →
  filetype_of (src_stat so) = filetype_of (dest_stat so) →
  result_of (vnode_obj plat so fs) = Ret (Some v) →
  result_of (compare cfg plat v (src_path so) (dest_stat so) fs) = Ret true →
  let owner_differs :=
    bool_decide (uid (src_stat so) ≠ uid (dest_stat so))
    || bool_decide (gid (src_stat so) ≠ gid (dest_stat so)) in
  let mode_differs := bool_decide (mode (src_stat so) ≠ mode (dest_stat so)) in
  result_of (check cfg plat so fs) = Ret (false, owner_differs || mode_differs) ∧
  mutations (events_of (check cfg plat so fs))
  = (if owner_differs then owner_call cfg plat v else [])
    ++ (if mode_differs then mode_call cfg plat v else []) ∧
  (owner_differs = false → mode_differs = false →
   fs_of (check cfg plat so fs) = fs).
Proof.
  intros Hex Hty Hv Hcmp owner_differs mode_differs.
  destruct (vnode_obj_read_only plat so fs) as [Hfs0 Hm0].
  destruct (compare_read_only cfg plat v (src_path so) (dest_stat so) fs)
    as [Hfs1 Hm1].
  destruct (vnode_obj plat so fs) as [[r0 fs0] l0] eqn:E0.
  destruct (compare cfg plat v (src_path so) (dest_stat so) fs)
    as [[rc fsc] lc] eqn:Ec.
  simpl in *. subst r0 fs0 rc fsc.
  destruct (set_owner_returns cfg plat v fs) as ([] & fso & lo & Eo).
  pose proof (set_owner_calls v fs) as Hco. rewrite Eo in Hco. simpl in Hco.
  destruct (set_permissions_returns cfg plat v fs) as ([] & fsp & lp & Ep).
  pose proof (set_permissions_calls v fs) as Hcp. rewrite Ep in Hcp. simpl in Hcp.
  destruct (set_permissions_returns cfg plat v fso) as ([] & fsp' & lp' & Ep').
  pose proof (set_permissions_calls v fso) as Hcp'. rewrite Ep' in Hcp'. simpl in Hcp'.
  unfold check. rewrite Hex. cbn [negb].
  rewrite bool_decide_eq_false_2 by auto.
  fold owner_differs mode_differs.
  split_and!.
  - unfold bind at 1. rewrite E0. cbn [call].
    unfold bind at 1. rewrite Ec. cbn [negb].
    unfold_out. unfold bind.
    by destruct owner_differs, mode_differs; cbn [when]; unfold ret;
      do 3 (simpl; rewrite ?Eo, ?Ep, ?Ep').
  - unfold bind at 1. rewrite E0. cbn [call].
    unfold bind at 1. rewrite Ec. cbn [negb].
    unfold_out. unfold bind.
    destruct owner_differs, mode_differs; cbn [when]; unfold ret;
      do 3 (simpl; rewrite ?Eo, ?Ep, ?Ep');
      rewrite ?mutations_app, ?Hm0, ?Hm1; simpl;
      rewrite ?mutations_cons_out by done;
      rewrite ?mutations_app, ?Hco, ?Hcp, ?Hcp'; simpl;
      rewrite ?mutations_cons_out by done;
      rewrite ?mutations_app, ?Hco, ?Hcp, ?Hcp'; simpl;
      by rewrite ?app_nil_r.
  - intros -> ->. unfold bind at 1. rewrite E0. cbn [call].
    unfold bind at 1. rewrite Ec. by cbn.
Qed.

(** C4.  When the destination exists with the type of the source, the
    handler is built and [compare] finds the content equal, [check]
    tests the owner (uid and gid) and the mode against the snapshot of
    the source, each on its own: it calls [set_owner] exactly when the
    owner differs and [set_permissions] exactly when the mode differs,
    whatever becomes of the other call, and returns [(false, m)] where
    [m] says whether one of the two differed. *)
Theorem check_metadata_facets (so : SyncObject) (fs : FS) (v : VNode) :
  stat_exists (dest_stat so) = true →
  filetype_of (src_stat so) = filetype_of (dest_stat so) →
  result_of (vnode_obj plat so fs) = Ret (Some v) →
  result_of (compare cfg plat v (src_path so) (dest_stat so) fs) = Ret true →
  let owner_differs :=
    bool_decide (uid (src_stat so) ≠ uid (dest_stat so))
    || bool_decide (gid (src_stat so) ≠ gid (dest_stat so)) in
  let mode_differs := bool_decide (mode (src_stat so) ≠ mode (dest_stat so)) in
  result_of (check cfg plat so fs) = Ret (false, owner_differs || mode_differs) ∧
  mutations (events_of (check cfg plat so fs))
  = (if owner_differs then owner_call cfg plat v else [])
    ++ (if mode_differs then mode_call cfg plat v else []).
Proof.
  intros Hex Hty Hv Hcmp. cbv zeta.
  destruct (check_metadata_outcome so fs v Hex Hty Hv Hcmp) as (? & ? & _).
  done.
Qed.
End Metadata.

(** ** What a computation leaves alone *)

Lemma keeps_ret {A} k (a : A) : keeps k (ret a).
Proof. done. Qed.

Lemma keeps_read_only {A} k (m : M A) : read_only m → keeps k m.
Proof. intros Hm fs. destruct (Hm fs) as [-> _]. done. Qed.

Lemma keeps_reports k m : reports m → keeps k m.
Proof. intros Hm. by apply keeps_read_only, reports_read_only. Qed.

Lemma keeps_bind {A B} k (m : M A) (f : A → M B) :
  keeps k m → (∀ a, keeps k (f a)) → keeps k (bind m f).
Proof.
  intros Hm Hf fs. rewrite fs_of_bind. specialize (Hm fs).
  destruct (result_of (m fs)); [|done]. by rewrite Hf.
Qed.

Lemma keeps_try {A} k (m : M A) c (h : exn → M A) :
  keeps k m → (∀ e, keeps k (h e)) → keeps k (try_except m c h).
Proof.
  intros Hm Hh fs. specialize (Hm fs). unfold try_except.
  destruct (m fs) as [[[a|e] fs1] l1]; simpl in *; [done|].
  destruct (decide _); [|done]. specialize (Hh e fs1).
  destruct (h e fs1) as [[??]?]; simpl in *. congruence.
Qed.

Lemma keeps_try_else {A B} k (m : M A) c (h : exn → M B) (f : A → M B) :
  keeps k m → (∀ e, keeps k (h e)) → (∀ a, keeps k (f a)) →
  keeps k (try_except_else m c h f).
Proof.
  intros Hm Hh Hf fs. specialize (Hm fs). unfold try_except_else.
  destruct (m fs) as [[[a|e] fs1] l1]; simpl in *.
  - specialize (Hf a fs1). destruct (f a fs1) as [[??]?]; simpl in *. congruence.
  - destruct (decide _); [|done]. specialize (Hh e fs1).
    destruct (h e fs1) as [[??]?]; simpl in *. congruence.
Qed.

Lemma keeps_when k b m : keeps k m → keeps k (when b m).
Proof. by destruct b. Qed.

Lemma keeps_if {A} k (b : bool) (m1 m2 : M A) :
  keeps k m1 → keeps k m2 → keeps k (if b then m1 else m2).
Proof. by destruct b. Qed.

Lemma keeps_change plat c err (step : FS → option FS) k :
  (∀ fs fs', step fs = Some fs' → fs' !! k = fs !! k) →
  keeps k (sys_call plat c err (change step)).
Proof.
  intros Hstep fs. unfold sys_call, change.
  destruct (faulty plat c); [done|].
  destruct (step fs) as [fs'|] eqn:E; simpl; [by apply Hstep | done].
Qed.

#[export] Hint Resolve keeps_ret keeps_bind keeps_try keeps_try_else keeps_when
  keeps_if : py.
#[export] Hint Extern 5 (keeps _ _) => (apply keeps_reports) : py.
#[export] Hint Extern 4 (keeps _ (match ?x with _ => _ end)) => (destruct x) : py.

Lemma create_step_other p i (fs fs' : FS) k :
  k ≠ p → create_step p i fs = Some fs' → fs' !! k = fs !! k.
Proof.
  unfold create_step. intros Hne. destruct (fs !! p); [done|].
  intros [= <-]. by rewrite lookup_insert_ne.
Qed.

Lemma alter_step_other follow f p (fs fs' : FS) k :
  k ≠ p → alter_step follow f p fs = Some fs' → fs' !! k = fs !! k.
Proof.
  unfold alter_step. intros Hne. destruct (fs !! p); [|done].
  destruct (_ && _); [done|]. intros [= <-]. by rewrite lookup_insert_ne.
Qed.

Lemma unlink_step_other p (fs fs' : FS) k :
  k ≠ p → unlink_step p fs = Some fs' → fs' !! k = fs !! k.
Proof.
  unfold unlink_step. intros Hne. destruct (fs !! p) as [i|]; [|done].
  destruct (is_dir_node i); [done|]. intros [= <-]. by rewrite lookup_delete_ne.
Qed.

Lemma rmdir_step_other p (fs fs' : FS) k :
  k ≠ p → rmdir_step p fs = Some fs' → fs' !! k = fs !! k.
Proof.
  unfold rmdir_step. intros Hne. destruct (fs !! p) as [i|]; [|done].
  destruct (_ && _); [|done]. intros [= <-]. by rewrite lookup_delete_ne.
Qed.

Lemma copy_step_other new src dst (fs fs' : FS) k :
  k ≠ dst → k ≠ dst +:+ "/" +:+ basename src →
  copy_step new src dst fs = Some fs' → fs' !! k = fs !! k.
Proof.
  unfold copy_step. intros Hne1 Hne2.
  destruct (fs !! src) as [isrc|]; [|done].
  destruct (i_node isrc); try done.
  set (target := match fs !! dst with
                 | Some idst => if is_dir_node idst then _ else _
                 | None => _ end).
  assert (k ≠ target) as Hne.
  { unfold target. destruct (fs !! dst) as [idst|]; [|done].
    by destruct (is_dir_node idst). }
  destruct (bool_decide _); [done|].
  destruct (fs !! target) as [it|].
  - destruct (i_node it); try done. intros [= <-]. by rewrite lookup_insert_ne.
  - intros [= <-]. by rewrite lookup_insert_ne.
Qed.

Lemma ensure_dirs_other new (l : list string) (fs fs' : FS) k :
  k ∉ l → foldl (ensure_dir new) (Some fs) l = Some fs' → fs' !! k = fs !! k.
Proof.
  revert fs. induction l as [|d l IH]; intros fs Hk; simpl.
  - by intros [= <-].
  - apply not_elem_of_cons in Hk as [Hne Hk].
    destruct (fs !! d) as [i|] eqn:Ed.
    + destruct (is_dir_node i); [by apply IH|].
      intros Hnone. exfalso. clear -Hnone.
      induction l; simpl in *; [done | auto].
    + intros Hf. rewrite (IH _ Hk Hf). by rewrite lookup_insert_ne.
Qed.

Lemma string_of_list_length (l : list ascii) :
  String.length (String.string_of_list_ascii l) = length l.
Proof. induction l; simpl; [done | by f_equal]. Qed.

Lemma list_of_string_length (p : string) :
  length (String.list_ascii_of_string p) = String.length p.
Proof. induction p; simpl; [done | by f_equal]. Qed.

Lemma ancestors_go_length pre l k :
  k ∈ ancestors_go pre l → (String.length k < length pre + length l)%nat.
Proof.
  revert pre. induction l as [|c l IH]; intros pre; simpl.
  - by intros ?%elem_of_nil.
  - intros [Hk|Hk]%elem_of_app.
    + destruct (_ && _); [|by apply elem_of_nil in Hk].
      apply list_elem_of_singleton in Hk as ->.
      rewrite string_of_list_length, length_rev. lia.
    + apply IH in Hk. simpl in Hk. lia.
Qed.

Lemma ancestors_length p k :
  k ∈ ancestors p → (String.length k < String.length p)%nat.
Proof.
  intros Hk%ancestors_go_length. simpl in Hk. by rewrite list_of_string_length in Hk.
Qed.

Lemma mkdir_p_step_other new p (fs fs' : FS) k :
  (String.length p < String.length k)%nat →
  mkdir_p_step new p fs = Some fs' → fs' !! k = fs !! k.
Proof.
  unfold mkdir_p_step. intros Hlen. destruct (_ || _); [by intros [= <-]|].
  apply ensure_dirs_other. intros [Hk|Hk]%elem_of_app.
  - apply ancestors_length in Hk. lia.
  - apply list_elem_of_singleton in Hk as ->. lia.
Qed.

Lemma drop_to_slash_length l : (length (drop_to_slash l) ≤ length l)%nat.
Proof.
  induction l as [|c l IH]; simpl; [done|]. destruct (bool_decide _); simpl; lia.
Qed.

Lemma strip_slashes_length l : (length (strip_slashes l) ≤ length l)%nat.
Proof.
  induction l as [|c l IH]; simpl; [done|]. destruct (bool_decide _); simpl; lia.
Qed.

Lemma dirname_length p : (String.length (dirname p) ≤ String.length p)%nat.
Proof.
  unfold dirname, dirname_rev.
  rewrite string_of_list_length, length_rev.
  rewrite <- (list_of_string_length p), <- (length_rev (String.list_ascii_of_string p)).
  pose proof (drop_to_slash_length (rev (String.list_ascii_of_string p))).
  pose proof (strip_slashes_length
                (drop_to_slash (rev (String.list_ascii_of_string p)))).
  destruct (all_slashes _); lia.
Qed.

(** ** The sequence of [fix] and the sibling [name.saved] *)

Section Fix.
Context `{Hashlib, DevNumbers, LibText}.
Context (cfg : Config) (plat : Platform).

Lemma saved_ne_inside a b : a +:+ ".saved" ≠ a +:+ "/" +:+ b.
Proof. by intros ?%(inj (String.append a)). Qed.

Lemma keeps_saved_mkdir_basepath v :
  keeps (name v +:+ ".saved") (mkdir_basepath cfg plat v).
Proof.
  unfold mkdir_basepath, mkdir_p.
  destruct (DRY_RUN cfg); [apply keeps_ret|].
  apply keeps_bind; [eauto 10 with py|]. intros _.
  apply keeps_try; [|intros; apply keeps_ret].
  apply keeps_change. intros fs fs'. apply mkdir_p_step_other.
  pose proof (dirname_length (name v)). rewrite string_length_app. simpl. lia.
Qed.

Lemma keeps_saved_create v : keeps (name v +:+ ".saved") (create cfg plat v).
Proof.
  pose proof (saved_ne (name v)) as Hne.
  assert (∀ c err i, keeps (name v +:+ ".saved")
            (sys_call plat c err (change (create_step (name v) i)))) as Hcreate.
  { intros. apply keeps_change. intros fs fs'. by apply create_step_other. }
  unfold create, VNodeFile_create, VNodeDir_create, VNodeLink_create,
    VNodeFifo_create, VNodeDev_create. unfold_os.
  destruct (cls v).
  - apply keeps_bind; [eauto with py|]. intros _.
    apply keeps_bind; [eauto with py|]. intros _.
    apply keeps_bind; [eauto with py|]. intros _.
    apply keeps_when, keeps_try; [|eauto 10 with py].
    apply keeps_change. intros fs fs'.
    apply copy_step_other; [done | apply saved_ne_inside].
  - apply keeps_bind.
    { apply keeps_read_only, (os_path_exists_read_only plat). }
    intros []; eauto 20 with py.
  - eauto 20 with py.
  - eauto 20 with py.
  - apply keeps_bind; [eauto with py|]. intros _.
    apply keeps_bind; [eauto with py|]. intros _.
    apply keeps_bind; [eauto with py|]. intros _.
    apply keeps_when, keeps_try; [|eauto 10 with py].
    apply keeps_change. intros fs fs'.
    destruct (device_node _ _); simpl; [by apply create_step_other | done].
  - apply keeps_bind; [eauto with py|]. intros _.
    apply keeps_bind; [eauto with py|]. intros _.
    apply keeps_bind; [eauto with py|]. intros _.
    apply keeps_when, keeps_try; [|eauto 10 with py].
    apply keeps_change. intros fs fs'.
    destruct (device_node _ _); simpl; [by apply create_step_other | done].
Qed.

Lemma keeps_alter k follow f p c err :
  k ≠ p → keeps k (sys_call plat c err (change (alter_step follow f p))).
Proof. intros Hne. apply keeps_change. intros fs fs'. by apply alter_step_other. Qed.

Lemma keeps_other_set_owner k v : k ≠ name v → keeps k (set_owner cfg plat v).
Proof.
  intros Hne. pose proof (keeps_alter k) as Halter.
  unfold set_owner, VNode_set_owner, VNodeLink_set_owner. unfold_os.
  destruct (cls v); eauto 20 with py.
Qed.

Lemma keeps_other_set_permissions k v :
  k ≠ name v → keeps k (set_permissions cfg plat v).
Proof.
  intros Hne. pose proof (keeps_alter k) as Halter.
  unfold set_permissions, VNode_set_permissions, VNodeLink_set_permissions.
  unfold_os. destruct (cls v); eauto 20 with py.
Qed.

Lemma keeps_other_unlink k v :
  k ≠ name v → keeps k (VNode_quiet_delete cfg plat v).
Proof.
  intros Hne. unfold VNode_quiet_delete. unfold_os.
  apply keeps_when, keeps_bind; [eauto with py|]. intros _.
  apply keeps_try; [|eauto with py].
  apply keeps_change. intros fs fs'. by apply unlink_step_other.
Qed.

(** After the first step, nothing in [fix] touches [name.saved]. *)
Lemma keeps_saved_rest v :
  keeps (name v +:+ ".saved")
    (mkdir_basepath cfg plat v ;; create cfg plat v ;;
     set_owner cfg plat v ;; set_permissions cfg plat v).
Proof.
  pose proof (saved_ne (name v)).
  apply keeps_bind; [apply keeps_saved_mkdir_basepath|]. intros _.
  apply keeps_bind; [apply keeps_saved_create|]. intros _.
  apply keeps_bind; [by apply keeps_other_set_owner|]. intros _.
  by apply keeps_other_set_permissions.
Qed.

Lemma removal_returns v : returns (removal cfg plat v).
Proof.
  unfold removal. apply returns_when, returns_if;
    [apply move_saved_returns | apply quiet_delete_returns].
Qed.

Lemma move_saved_run v fs :
  DRY_RUN cfg = false →
  let saved := name v +:+ ".saved" in
  mutations (events_of (move_saved cfg plat v fs)) = [Rename (name v) saved] ∧
  fs_of (move_saved cfg plat v fs)
  = default fs (attempt plat (Rename (name v) saved)
                  (rename_step (name v) saved) fs).
Proof.
  intros Hdry saved. unfold move_saved, attempt. rewrite Hdry.
  unfold_os. unfold try_except, sys_call, bind, change. unfold_out. simpl.
  fold saved.
  destruct (faulty plat _); simpl; [done|].
  by destruct (rename_step _ _ fs).
Qed.

Lemma removal_calls_run v fs :
  DRY_RUN cfg = false →
  mutations (events_of (removal cfg plat v fs)) = removal_calls cfg plat v fs.
Proof.
  intros Hdry. unfold removal, removal_calls.
  destruct (vexists v); [|done]. simpl.
  destruct (BACKUP_COPIES cfg) eqn:Hbak.
  { by apply move_saved_run. }
  unfold quiet_delete, VNodeDir_quiet_delete, VNode_quiet_delete, attempt.
  rewrite Hdry, Hbak.
  destruct (cls v); simpl;
    try (unfold_os; unfold try_except, sys_call, bind, change; unfold_out;
         simpl; destruct (faulty plat _); simpl; [done|];
         by destruct (unlink_step _ fs)).
  destruct (move_saved_run v fs Hdry) as [Hm _].
  unfold os_rmdir, try_except, sys_call, bind, change. unfold_out. simpl.
  destruct (faulty plat _); simpl.
  - destruct (move_saved cfg plat v fs) as [[r1 fs1] l1]. simpl in *.
    rewrite !mutations_cons_out by done. rewrite mutations_cons_sys. simpl.
    rewrite mutations_cons_out by done. by rewrite Hm.
  - destruct (rmdir_step _ fs); simpl; [done|].
    destruct (move_saved cfg plat v fs) as [[r1 fs1] l1]. simpl in *.
    rewrite !mutations_cons_out by done. rewrite mutations_cons_sys. simpl.
    rewrite mutations_cons_out by done. by rewrite Hm.
Qed.

Lemma dir_quiet_delete_fallback v fs :
  DRY_RUN cfg = false → BACKUP_COPIES cfg = false →
  attempt plat (Rmdir (name v)) (rmdir_step (name v)) fs = None →
  fs_of (VNodeDir_quiet_delete cfg plat v fs) = fs_of (move_saved cfg plat v fs).
Proof.
  intros Hdry Hbak. unfold VNodeDir_quiet_delete, attempt. rewrite Hdry, Hbak.
  unfold os_rmdir, try_except, sys_call, bind, change. unfold_out. simpl.
  destruct (faulty plat _); simpl.
  - intros _. by destruct (move_saved cfg plat v fs) as [[??]?].
  - intros ->. simpl. by destruct (move_saved cfg plat v fs) as [[??]?].
Qed.

Lemma mkdir_basepath_calls v fs :
  DRY_RUN cfg = false →
  mutations (events_of (mkdir_basepath cfg plat v fs))
  = [MkdirP (dirname (name v))].
Proof.
  intros Hdry. unfold mkdir_basepath, mkdir_p. rewrite Hdry.
  unfold try_except, sys_call, bind, change. unfold_out.
  destruct (_ || _); simpl;
    (destruct (faulty plat _); simpl; [done|]);
    by destruct (mkdir_p_step _ _ fs).
Qed.

End Fix.

(** ** Deleting a directory that is not empty *)

Section HardDeleteNonEmpty.
Context `{Hashlib, DevNumbers, LibText}.
Context (cfg : Config) (plat : Platform).

Lemma dir_harddelete_fallback v fs :
  DRY_RUN cfg = false → BACKUP_COPIES cfg = false →
  attempt plat (Rmdir (name v)) (rmdir_step (name v)) fs = None →
  fs_of (VNodeDir_harddelete cfg plat v fs) = fs_of (move_saved cfg plat v fs) ∧
  mutations (events_of (VNodeDir_harddelete cfg plat v fs))
  = Rmdir (name v) :: mutations (events_of (move_saved cfg plat v fs)).
Proof.
  intros Hdry Hbak. unfold VNodeDir_harddelete, attempt. rewrite Hdry, Hbak.
  unfold os_rmdir, try_except, sys_call, bind, change. unfold_out. simpl.
  destruct (faulty plat _); simpl.
  - intros _. by destruct (move_saved cfg plat v fs) as [[??]?].
  - intros ->. simpl. by destruct (move_saved cfg plat v fs) as [[??]?].
Qed.

(** C7, as amended.  [harddelete] of the directory variant never raises.
    With dry-run off and backup copies disabled, on a directory that is
    not empty the [rmdir] fails, is caught, and the directory is renamed
    to [name.saved]: when that rename succeeds the directory is found at
    [name.saved], with what was below it, and no longer at [name]; when
    it fails nothing has changed. *)
Theorem dir_harddelete_nonempty (v : VNode) (fs : FS) (d : inode) :
  cls v = VNodeDir →
  fs !! name v = Some d → has_children (name v) fs = true →
  let saved := name v +:+ ".saved" in
  let o := harddelete cfg plat v fs in
  result_of o = Ret tt ∧
  (DRY_RUN cfg = false → BACKUP_COPIES cfg = false →
   mutations (events_of o) = [Rmdir (name v); Rename (name v) saved] ∧
   match attempt plat (Rename (name v) saved) (rename_step (name v) saved) fs with
   | Some fs' =>
       fs_of o = fs' ∧ fs' !! saved = Some d ∧ fs' !! name v = None ∧
       ∀ k i, fs !! k = Some i → under (name v) k = true →
              fs' !! rebase (name v) saved k = Some i
   | None => fs_of o = fs
   end).
Proof.
  intros Hcls Hd Hch saved o. split.
  { destruct (harddelete_returns cfg plat v fs) as ([] & fs' & l & E).
    subst o. by rewrite E. }
  intros Hdry Hbak. subst o.
  destruct (move_saved_run cfg plat v fs Hdry) as [Hcalls Hfs].
  fold saved in Hcalls, Hfs.
  unfold harddelete. rewrite Hcls.
  destruct (dir_harddelete_fallback v fs Hdry Hbak) as [-> ->].
  { unfold attempt. rewrite (rmdir_step_nonempty _ _ Hch). by destruct (faulty _ _). }
  rewrite Hcalls, Hfs. split; [done|].
  destruct (attempt _ _ _ fs) as [fs'|] eqn:Hren; simpl; [|done].
  unfold attempt in Hren. destruct (faulty plat (Rename _ _)); [done|].
  pose proof (rename_step_moved _ _ fs fs' d (saved_ne _) Hd Hren) as [??].
  split_and!; try done.
  intros k i Hk Hu. apply rename_step_Some in Hren as ->; [|apply saved_ne].
  apply move_tree_moved; [done | by apply under_in_tree].
Qed.
End HardDeleteNonEmpty.

(** ** Errors while two regular files are compared *)

Section CompareErrors.
Context `{Hashlib, DevNumbers, LibText}.
Context (cfg : Config) (plat : Platform).

#[local] Arguments checksum_loop : simpl never.

(** The source can not be opened: the files count as equal. *)
Lemma compare_source_open_error v src_path fs :
  faulty plat (Open src_path) = true →
  result_of (_compare_checksums cfg plat v src_path fs) = Ret true.
Proof.
  intros Hf. unfold _compare_checksums.
  rewrite result_of_bind, try_open_fails by done. unfold_out. by simpl.
Qed.

(** The destination can not be opened: the files count as different. *)
Lemma compare_dest_open_error v src_path fs i data :
  faulty plat (Open src_path) = false →
  fs !! src_path = Some i → i_node i = Reg data →
  faulty plat (Open (name v)) = true →
  result_of (_compare_checksums cfg plat v src_path fs) = Ret false.
Proof.
  intros Hf Hs Hn Hd. unfold _compare_checksums.
  rewrite result_of_bind, (try_open_run _ _ _ _ _ _ Hf Hs Hn). simpl.
  rewrite result_of_bind, try_open_fails by done. unfold_out. by simpl.
Qed.

(** A read of the source fails in the first round: the files count as
    different, where a source that can not be opened counts as equal. *)
Lemma compare_source_read_error v src_path fs i1 i2 data1 data2 :
  faulty plat (Open src_path) = false →
  fs !! src_path = Some i1 → i_node i1 = Reg data1 →
  faulty plat (Open (name v)) = false →
  fs !! name v = Some i2 → i_node i2 = Reg data2 →
  faulty plat (Read src_path 0) = true →
  result_of (_compare_checksums cfg plat v src_path fs) = Ret false.
Proof.
  intros Hf1 Hs Hn1 Hf2 Hd Hn2 Hr. unfold _compare_checksums.
  rewrite result_of_bind, (try_open_run _ _ _ _ _ _ Hf1 Hs Hn1). simpl.
  rewrite result_of_bind, (try_open_run _ _ _ _ _ _ Hf2 Hd Hn2). simpl.
  rewrite result_of_bind.
  unfold checksum_loop. rewrite bool_decide_eq_true_2 by done. simpl.
  destruct (read_block_fails plat src_path src_path data1 0 fs Hr) as (l & E).
  rewrite result_of_bind, E. by simpl.
Qed.

(** A read of the destination fails in the first round: the files count
    as different. *)
Lemma compare_dest_read_error v src_path fs i1 i2 data1 data2 :
  faulty plat (Open src_path) = false →
  fs !! src_path = Some i1 → i_node i1 = Reg data1 →
  faulty plat (Open (name v)) = false →
  fs !! name v = Some i2 → i_node i2 = Reg data2 →
  faulty plat (Read src_path 0) = false →
  faulty plat (Read (name v) 0) = true →
  result_of (_compare_checksums cfg plat v src_path fs) = Ret false.
Proof.
  intros Hf1 Hs Hn1 Hf2 Hd Hn2 Hr1 Hr2. unfold _compare_checksums.
  rewrite result_of_bind, (try_open_run _ _ _ _ _ _ Hf1 Hs Hn1). simpl.
  rewrite result_of_bind, (try_open_run _ _ _ _ _ _ Hf2 Hd Hn2). simpl.
  rewrite result_of_bind.
  unfold checksum_loop. rewrite bool_decide_eq_true_2 by done. simpl.
  rewrite result_of_bind, (read_block_run _ _ _ _ _ _ Hr1). simpl.
  destruct (read_block_fails plat (name v) (name v) data2 0 fs Hr2) as (l & E).
  rewrite result_of_bind, E. by simpl.
Qed.
End CompareErrors.

(** ** When [check] replaces the destination *)

Section Replace.
Context `{Hashlib, DevNumbers, LibText}.
Context (cfg : Config) (plat : Platform).

(** Once the handler is built, [check] returns [(true, false)] in three
    cases and no other: the destination does not exist, it has another
    type than the source, or [compare] finds it different; and then the
    filesystem is the one that [fix] leaves. *)
Lemma check_replaces so fs v :
  result_of (vnode_obj plat so fs) = Ret (Some v) →
  let replaced :=
    negb (stat_exists (dest_stat so))
    || bool_decide (filetype_of (src_stat so) ≠ filetype_of (dest_stat so))
    || found_different
         (result_of (compare cfg plat v (src_path so) (dest_stat so) fs)) in
  (∃ m, result_of (check cfg plat so fs) = Ret (replaced, m) ∧
        (replaced = true → m = false)) ∧
  (replaced = true →
   fs_of (check cfg plat so fs) = fs_of (fix_ cfg plat v fs)).
Proof.
  intros Hv replaced.
  destruct (vnode_obj_read_only plat so fs) as [Hfs0 _].
  destruct (compare_read_only cfg plat v (src_path so) (dest_stat so) fs)
    as [Hfs1 _].
  destruct (vnode_obj plat so fs) as [[r0 fs0] l0] eqn:E0.
  destruct (compare_returns cfg plat v (src_path so) (dest_stat so) fs)
    as (same & fsc & lc & Ec).
  rewrite Ec in Hfs1. simpl in *. subst r0 fs0 fsc.
  destruct (fix_returns cfg plat v fs) as ([] & fsf & lf & Ef).
  destruct (set_owner_returns cfg plat v fs) as ([] & fso & lo & Eo).
  destruct (set_permissions_returns cfg plat v fs) as ([] & fsp & lp & Ep).
  destruct (set_permissions_returns cfg plat v fso) as ([] & fsp' & lp' & Ep').
  subst replaced. rewrite Ec. unfold check.
  destruct (stat_exists (dest_stat so)); cbn [negb orb].
  2:{ unfold_out. unfold bind. rewrite E0. cbn [call]. rewrite Ef.
      simpl. eauto. }
  destruct (bool_decide (filetype_of _ ≠ _)); cbn [orb].
  { unfold_out. unfold bind. rewrite E0. cbn [call]. unfold ret. rewrite Ef.
    simpl. eauto. }
  unfold_out. unfold bind, ret. rewrite E0. cbn [call]. rewrite Ec.
  destruct same; cbn [negb found_different result_of fst].
  - split; [|done].
    destruct (_ || _), (bool_decide (mode _ ≠ _)); cbn [when];
      (eexists; split;
         [do 3 (simpl; rewrite ?Eo, ?Ep, ?Ep'); reflexivity | done]).
  - rewrite Ef. simpl. eauto.
Qed.
End Replace.

(** ** A second [check] finds nothing to do *)

Lemma effects_succeeded_app l1 l2 :
  effects_succeeded (l1 ++ l2) ↔ effects_succeeded l1 ∧ effects_succeeded l2.
Proof. unfold effects_succeeded. rewrite forallb_app. apply andb_true_iff. Qed.

Lemma mode_bits_perm t p :
  Z.land (Z.lor (ifmt_bits t) (Z.land p 4095)) 4095 = Z.land p 4095.
Proof.
  rewrite Z.land_lor_distr_l, <- Z.land_assoc.
  change (Z.land 4095 4095) with 4095.
  by destruct t.
Qed.

Lemma strip_ids_land p : Z.land (strip_ids p) 4095 = strip_ids (Z.land p 4095).
Proof.
  unfold strip_ids. rewrite Z.land_spec.
  change (Z.testbit 4095 3) with true. rewrite andb_true_r.
  apply Z.bits_inj'. intros n _.
  rewrite !Z.land_spec, !Z.ldiff_spec, Z.land_spec.
  by destruct (Z.testbit p n), (Z.testbit 4095 n), (Z.testbit _ n).
Qed.

(** What [chown] leaves of the permission bits depends on the type of the
    entry and on these bits only. *)
Lemma chown_perm_bits i j :
  entry_type_of_node (i_node i) = entry_type_of_node (i_node j) →
  Z.land (i_perm i) 4095 = Z.land (i_perm j) 4095 →
  Z.land (chown_perm i) 4095 = Z.land (chown_perm j) 4095.
Proof.
  unfold chown_perm. intros Hty Hp.
  destruct (i_node i), (i_node j); try done;
    by rewrite !strip_ids_land, Hp.
Qed.

Lemma device_mode_node (chr : bool) m dev :
  device_node (Z.lor (Z.land m 511) (ifmt_bits (if chr then S_IFCHR else S_IFBLK))) dev
  = Some (if chr then CharDev dev else BlockDev dev).
Proof.
  unfold device_node. rewrite Z.land_lor_distr_l, <- Z.land_assoc.
  change (Z.land 511 61440) with 0. rewrite Z.land_0_r.
  by destruct chr.
Qed.

Lemma drop_to_slash_head l :
  drop_to_slash l = [] ∨ ∃ t, drop_to_slash l = "/"%char :: t.
Proof.
  induction l as [|c l IH]; simpl; [by left|].
  destruct (bool_decide (c = "/"%char)) eqn:E; [|done].
  apply bool_decide_eq_true in E as ->. right. by exists l.
Qed.

Lemma all_slashes_app l1 l2 :
  all_slashes (l1 ++ l2) = all_slashes l1 && all_slashes l2.
Proof.
  induction l1 as [|c l1 IH]; simpl; [done|]. rewrite IH. by rewrite andb_assoc.
Qed.

Lemma all_slashes_rev l : all_slashes (rev l) = all_slashes l.
Proof.
  induction l as [|c l IH]; simpl; [done|].
  rewrite all_slashes_app, IH. simpl. rewrite andb_true_r. apply andb_comm.
Qed.

(** The directory of a path is the empty path, the root, or shorter than
    the path. *)
Lemma dirname_cases p :
  dirname p = "" ∨ is_root (dirname p) = true
  ∨ (String.length (dirname p) < String.length p)%nat.
Proof.
  unfold dirname, dirname_rev, is_root.
  rewrite <- (list_of_string_length p), <- (length_rev (String.list_ascii_of_string p)).
  set (r := rev (String.list_ascii_of_string p)).
  pose proof (drop_to_slash_length r) as Hlen.
  destruct (all_slashes (drop_to_slash r)) eqn:Hall.
  - destruct (drop_to_slash r) as [|c t] eqn:Hd; [by left|]. right. left.
    rewrite String.list_ascii_of_string_of_list_ascii.
    rewrite <- all_slashes_rev in Hall.
    destruct (rev (c :: t)) eqn:Hr; [|done].
    apply (f_equal length) in Hr. by rewrite length_rev in Hr.
  - right. right. rewrite string_of_list_length, length_rev.
    destruct (drop_to_slash_head r) as [Hd|[t Hd]]; rewrite Hd in *; [done|].
    simpl. pose proof (strip_slashes_length t). simpl in Hlen. lia.
Qed.

Lemma mkdir_p_dirname_keeps new p (fs fs' : FS) :
  mkdir_p_step new (dirname p) fs = Some fs' → fs' !! p = fs !! p.
Proof.
  destruct (dirname_cases p) as [Hd|[Hd|Hd]].
  - unfold mkdir_p_step. rewrite Hd. simpl. by intros [= <-].
  - unfold mkdir_p_step. rewrite Hd, orb_true_r. by intros [= <-].
  - by apply mkdir_p_step_other.
Qed.

Section Again.
Context `{Hashlib, DevNumbers, LibText}.
Context (plat : Platform).
Hypothesis no_faults : ∀ c, faulty plat c = false.

(** The handler for a source entry that is there. *)
Lemma vnode_obj_run so fs isrc :
  fs !! src_path so = Some isrc → src_stat so = snapshot isrc →
  result_of (vnode_obj plat so fs)
  = Ret (Build_VNode (dest_path so) (src_stat so) (stat_exists (dest_stat so))
           <$> handler_class (src_path so) isrc).
Proof.
  intros Hs Hst. unfold vnode_obj, handler_class.
  unfold is_file, is_dir, is_link, is_fifo, is_chardev, is_blockdev, is_type.
  rewrite Hst. unfold snapshot. simpl. unfold_os.
  unfold try_except, sys_call, bind, query, is_symlink, stat_of.
  destruct (i_node isrc) eqn:En; simpl; rewrite ?no_faults, ?Hs; simpl;
    rewrite ?En; done.
Qed.

(** No handler for a source that is not there. *)
Lemma vnode_obj_missing so fs :
  src_stat so = missing_stat → result_of (vnode_obj plat so fs) = Ret None.
Proof. intros Hst. unfold vnode_obj. by rewrite Hst. Qed.

Context (cfg : Config).
Hypothesis wet : DRY_RUN cfg = false.

Ltac run_call :=
  unfold try_except, sys_call, bind, change; unfold_out;
  rewrite ?no_faults; simpl.

Lemma move_saved_ok v fs :
  effects_succeeded (events_of (move_saved cfg plat v fs)) →
  ∃ fs', rename_step (name v) (name v +:+ ".saved") fs = Some fs'
         ∧ fs_of (move_saved cfg plat v fs) = fs'.
Proof.
  unfold move_saved. rewrite wet. unfold_os. run_call.
  destruct (rename_step _ _ fs) as [fs'|]; simpl; [eauto | done].
Qed.

(** After the first step of [fix] nothing is in the way. *)
Lemma removal_clears v fs :
  (vexists v = false → fs !! name v = None) →
  effects_succeeded (events_of (removal cfg plat v fs)) →
  fs_of (removal cfg plat v fs) !! name v = None.
Proof.
  intros Hnew. unfold removal. destruct (vexists v); [clear Hnew | by auto].
  simpl.
  assert (effects_succeeded (events_of (move_saved cfg plat v fs)) →
          fs_of (move_saved cfg plat v fs) !! name v = None) as Hmoved.
  { intros (fs' & Hren & ->)%move_saved_ok.
    destruct (fs !! name v) as [i|] eqn:Hi.
    - by apply (rename_step_moved _ _ fs fs' i (saved_ne _)).
    - unfold rename_step in Hren. by rewrite Hi in Hren. }
  destruct (BACKUP_COPIES cfg) eqn:Hbak; [done|].
  unfold quiet_delete, VNodeDir_quiet_delete, VNode_quiet_delete.
  rewrite wet, Hbak.
  destruct (cls v); simpl;
    try (unfold_os; run_call; unfold unlink_step;
         destruct (fs !! name v) as [i|]; simpl; [|done];
         destruct (is_dir_node i); simpl; [done|];
         intros _; apply lookup_delete_eq).
  unfold os_rmdir, try_except, sys_call, bind, change. unfold_out.
  rewrite no_faults. simpl.
  destruct (rmdir_step (name v) fs) as [fs'|] eqn:Hrm; simpl.
  - intros _. unfold rmdir_step in Hrm.
    destruct (fs !! name v) as [i|]; [|done].
    destruct (_ && _); [|done]. injection Hrm as <-. apply lookup_delete_eq.
  - destruct (move_saved cfg plat v fs) as [[r1 fs1] l1]. simpl in *.
    intros Hok. by apply Hmoved.
Qed.

Lemma mkdir_basepath_ok v fs :
  effects_succeeded (events_of (mkdir_basepath cfg plat v fs)) →
  fs_of (mkdir_basepath cfg plat v fs) !! name v = fs !! name v.
Proof.
  unfold mkdir_basepath, mkdir_p. rewrite wet.
  destruct (_ || _); run_call;
    (destruct (mkdir_p_step _ _ fs) as [fs'|] eqn:Hmk; simpl; [|done]);
    intros _; by apply mkdir_p_dirname_keeps in Hmk.
Qed.

Lemma create_ok v fs :
  fs !! name v = None →
  effects_succeeded (events_of (create cfg plat v fs)) →
  ∃ i0, created plat v fs = Some i0
        ∧ fs_of (create cfg plat v fs) = <[name v := i0]> fs
        ∧ ∀ src, cls v = VNodeFile src → src ≠ name v.
Proof.
  intros Hnone.
  unfold create, created, VNodeFile_create, VNodeDir_create, VNodeLink_create,
    VNodeFifo_create, VNodeDev_create, os_path_exists. rewrite wet.
  unfold_os.
  destruct (cls v) as [src| |oldpath| |st|st].
  - run_call. unfold copy_step.
    destruct (vexists v); simpl; rewrite !Hnone;
      (destruct (fs !! src) as [isrc|]; simpl; [|done]);
      (destruct (i_node isrc); simpl; try done);
      (destruct (bool_decide (name v = src)) eqn:E; simpl; [done|]);
      apply bool_decide_eq_false in E;
      intros _; eexists; split_and!; try done; congruence.
  - run_call. unfold query. rewrite Hnone. simpl.
    unfold create_step. rewrite Hnone. simpl. intros _. by eexists.
  - run_call. unfold create_step. rewrite Hnone. simpl. intros _. by eexists.
  - run_call. unfold create_step. rewrite Hnone. simpl. intros _. by eexists.
  - run_call. rewrite (device_mode_node true). simpl.
    unfold create_step. rewrite Hnone. simpl. intros _. by eexists.
  - run_call. rewrite (device_mode_node false). simpl.
    unfold create_step. rewrite Hnone. simpl. intros _. by eexists.
Qed.

Lemma set_owner_ok v fs i :
  fs !! name v = Some i →
  (∀ t, cls v = VNodeLink t → has_lchown plat = true) →
  effects_succeeded (events_of (set_owner cfg plat v fs)) →
  fs_of (set_owner cfg plat v fs)
  = <[name v := with_owner (uid (stat v)) (gid (stat v)) i]> fs.
Proof.
  intros Hi Hlink.
  unfold set_owner, VNode_set_owner, VNodeLink_set_owner. rewrite wet.
  unfold_os.
  destruct (cls v) as [src| |oldpath| |st|st];
    try (run_call; unfold alter_step; rewrite Hi; simpl;
         by destruct (is_symlink i)).
  rewrite (Hlink oldpath eq_refl). simpl.
  run_call. unfold alter_step. by rewrite Hi.
Qed.

Lemma set_permissions_ok v fs i :
  fs !! name v = Some i →
  effects_succeeded (events_of (set_permissions cfg plat v fs)) →
  fs_of (set_permissions cfg plat v fs)
  = match cls v with
    | VNodeLink _ =>
        if has_lchmod plat
        then <[name v := with_perm (mode (stat v)) i]> fs else fs
    | _ => <[name v := with_perm (mode (stat v)) i]> fs
    end.
Proof.
  intros Hi.
  assert (∀ m, with_perm (Z.land m 4095) i = with_perm m i) as Hperm.
  { intros m. unfold with_perm. f_equal. rewrite <- Z.land_assoc. done. }
  unfold set_permissions, VNode_set_permissions, VNodeLink_set_permissions.
  rewrite wet. unfold_os.
  destruct (cls v) as [src| |oldpath| |st|st];
    try (run_call; unfold alter_step; rewrite Hi; simpl;
         destruct (is_symlink i); simpl; [done|]; by rewrite Hperm).
  destruct (has_lchmod plat); simpl; [|done].
  run_call. unfold alter_step. rewrite Hi. simpl. by rewrite Hperm.
Qed.

Lemma fix_steps v fs :
  ∃ fs1 fs2 fs3 fs4 fs5 l1 l2 l3 l4 l5,
    removal cfg plat v fs = (Ret tt, fs1, l1) ∧
    mkdir_basepath cfg plat v fs1 = (Ret tt, fs2, l2) ∧
    create cfg plat v fs2 = (Ret tt, fs3, l3) ∧
    set_owner cfg plat v fs3 = (Ret tt, fs4, l4) ∧
    set_permissions cfg plat v fs4 = (Ret tt, fs5, l5) ∧
    fix_ cfg plat v fs = (Ret tt, fs5, l1 ++ l2 ++ l3 ++ l4 ++ l5).
Proof.
  destruct (removal_returns cfg plat v fs) as ([] & fs1 & l1 & E1).
  destruct (mkdir_basepath_returns cfg plat v fs1) as ([] & fs2 & l2 & E2).
  destruct (create_returns cfg plat v fs2) as ([] & fs3 & l3 & E3).
  destruct (set_owner_returns cfg plat v fs3) as ([] & fs4 & l4 & E4).
  destruct (set_permissions_returns cfg plat v fs4) as ([] & fs5 & l5 & E5).
  exists fs1, fs2, fs3, fs4, fs5, l1, l2, l3, l4, l5. split_and!; try done.
  change (fix_ cfg plat v)
    with (removal cfg plat v ;; mkdir_basepath cfg plat v ;;
          create cfg plat v ;; set_owner cfg plat v ;;
          set_permissions cfg plat v).
  rewrite (bind_ret_run _ _ _ _ _ _ E1).
  rewrite (bind_ret_run _ _ _ _ _ _ E2).
  rewrite (bind_ret_run _ _ _ _ _ _ E3).
  rewrite (bind_ret_run _ _ _ _ _ _ E4).
  by rewrite E5.
Qed.

(** When every change of [fix] has succeeded, the destination is the entry
    that [create] has made, with the owner and the mode of the source. *)
Lemma fix_ok v fs :
  (vexists v = false → fs !! name v = None) →
  (∀ t, cls v = VNodeLink t → has_lchown plat = true) →
  effects_succeeded (events_of (fix_ cfg plat v fs)) →
  ∃ i0 fs2,
    created plat v fs2 = Some i0 ∧
    (∀ src, cls v = VNodeFile src → src ≠ name v) ∧
    fs_of (fix_ cfg plat v fs) = <[name v := repaired plat v i0]> fs2.
Proof.
  intros Hnew Hlink.
  destruct (fix_steps v fs)
    as (fs1 & fs2 & fs3 & fs4 & fs5 & l1 & l2 & l3 & l4 & l5
        & E1 & E2 & E3 & E4 & E5 & ->).
  simpl. rewrite !effects_succeeded_app. intros (S1 & S2 & S3 & S4 & S5).
  pose proof (removal_clears v fs Hnew) as C1. rewrite E1 in C1.
  specialize (C1 S1). simpl in C1.
  pose proof (mkdir_basepath_ok v fs1) as C2. rewrite E2 in C2.
  specialize (C2 S2). simpl in C2. rewrite C1 in C2.
  destruct (create_ok v fs2 C2) as (i0 & Hmade & C3 & Hsrc).
  { by rewrite E3. }
  rewrite E3 in C3. simpl in C3. subst fs3.
  pose proof (set_owner_ok v (<[name v := i0]> fs2) i0
                (lookup_insert_eq _ _ _) Hlink) as C4.
  rewrite E4 in C4. specialize (C4 S4). simpl in C4. subst fs4.
  pose proof (set_permissions_ok v
                (<[name v := with_owner (uid (stat v)) (gid (stat v)) i0]>
                   (<[name v := i0]> fs2)) _ (lookup_insert_eq _ _ _)) as C5.
  rewrite E5 in C5. specialize (C5 S5). simpl in C5. subst fs5.
  exists i0, fs2. split_and!; try done.
  unfold repaired.
  destruct (cls v); try destruct (has_lchmod plat);
    by rewrite !insert_insert_eq.
Qed.

#[local] Arguments checksum_loop : simpl never.

Lemma compare_checksums_same cfg' v src fs i1 i2 data :
  fs !! src = Some i1 → i_node i1 = Reg data →
  fs !! name v = Some i2 → i_node i2 = Reg data →
  result_of (_compare_checksums cfg' plat v src fs) = Ret true.
Proof.
  intros Hs Hn1 Hd Hn2. unfold _compare_checksums.
  rewrite result_of_bind, (try_open_run _ _ _ _ _ _ (no_faults _) Hs Hn1). simpl.
  rewrite result_of_bind, (try_open_run _ _ _ _ _ _ (no_faults _) Hd Hn2). simpl.
  destruct (checksum_loop_same plat (S (length data)) src (name v) data
              0%nat 0%nat md5 false fs) as (sum' & l & E); [done..|].
  rewrite result_of_bind, E. simpl.
  by rewrite bool_decide_eq_false_2 by auto.
Qed.

(** On a destination that holds what the source holds, [compare] returns
    true. *)
Lemma compare_same_content cfg' fs src dest isrc idst c :
  fs !! src = Some isrc → fs !! dest = Some idst →
  handler_class src isrc = Some c →
  same_content (i_node isrc) (i_node idst) →
  result_of (compare cfg' plat (Build_VNode dest (snapshot isrc) true c) src
               (snapshot idst) fs)
  = Ret true.
Proof.
  intros Hs Hd Hc Hsame. unfold handler_class in Hc. unfold compare. simpl.
  destruct (i_node isrc) eqn:En1; try done; injection Hc as <-;
    destruct (i_node idst) eqn:En2; try done; simpl in Hsame.
  - subst. unfold VNodeFile_compare. simpl. rewrite En1, En2. simpl.
    rewrite bool_decide_eq_false_2 by auto.
    by eapply compare_checksums_same.
  - subst. unfold VNodeLink_compare. simpl. unfold_os.
    unfold try_except, sys_call, bind, query. rewrite no_faults, Hd. simpl.
    rewrite En2. simpl. by rewrite bool_decide_eq_false_2 by auto.
  - destruct Hsame as [Hmaj Hmin].
    unfold VNodeDev_compare. simpl. unfold_os.
    unfold try_except, sys_call, bind, query. rewrite no_faults, Hd. simpl.
    rewrite En1, En2. simpl.
    by rewrite !bool_decide_eq_false_2 by auto.
  - destruct Hsame as [Hmaj Hmin].
    unfold VNodeDev_compare. simpl. unfold_os.
    unfold try_except, sys_call, bind, query. rewrite no_faults, Hd. simpl.
    rewrite En1, En2. simpl.
    by rewrite !bool_decide_eq_false_2 by auto.
Qed.

(** The loop does not look at the filesystem once the files are open. *)
Lemma checksum_loop_indep fuel sp d f1 f2 s1 s2 e (fs fs' : FS) :
  result_of (checksum_loop plat fuel sp d f1 f2 s1 s2 e fs)
  = result_of (checksum_loop plat fuel sp d f1 f2 s1 s2 e fs').
Proof.
  revert f1 f2 s1 s2 e.
  induction fuel as [|fuel IH]; intros [p1 r1 b1] [p2 r2 b2] s1 s2 e;
    unfold checksum_loop; fold (checksum_loop plat).
  - by destruct (_ && _).
  - destruct (_ && _); [|done].
    rewrite !result_of_bind.
    rewrite !(read_block_run _ _ _ _ _ _ (no_faults _)). simpl.
    rewrite !result_of_bind.
    rewrite !(read_block_run _ _ _ _ _ _ (no_faults _)). simpl.
    apply IH.
Qed.

Lemma try_open_any p (msg : exn → string) (fs : FS) :
  ∃ l, try_except (f ← open_rb plat p; ret (Some f)) ClsIOError
         (λ err, stderr (msg err) ;; ret None) fs
       = (Ret (opened p (fs !! p)), fs, l).
Proof.
  unfold try_except, open_rb, sys_call, bind, query, opened. unfold_out.
  rewrite no_faults.
  destruct (fs !! p) as [i|]; simpl; [|by eexists].
  destruct (i_node i); simpl; by eexists.
Qed.

Lemma opened_node p (o1 o2 : option inode) :
  i_node <$> o1 = i_node <$> o2 → opened p o1 = opened p o2.
Proof.
  destruct o1 as [i1|], o2 as [i2|]; simpl; try done.
  by intros [= ->].
Qed.

(** What [compare] returns depends on the source, on the content of the
    destination and on its size in the snapshot, not on the rest. *)
Lemma compare_dep cfg1 cfg2 v src ds1 ds2 (fs1 fs2 : FS) :
  fs1 !! src = fs2 !! src →
  i_node <$> fs1 !! name v = i_node <$> fs2 !! name v →
  size ds1 = size ds2 →
  result_of (compare cfg1 plat v src ds1 fs1) = Ret true →
  result_of (compare cfg2 plat v src ds2 fs2) = Ret true.
Proof.
  intros Hs Hd Hsz. unfold compare.
  destruct (cls v) as [src'| |oldpath| |st|st]; try done.
  - unfold VNodeFile_compare. rewrite Hsz.
    destruct (bool_decide (size (stat v) ≠ size ds2)).
    { unfold_out. unfold bind. by destruct (DRY_RUN cfg1). }
    unfold _compare_checksums.
    destruct (try_open_any src
                (λ err, "error: failed to open " +:+ src +:+ " : "
                        +:+ strerror_of err) fs1) as (l1 & E1).
    destruct (try_open_any src
                (λ err, "error: failed to open " +:+ src +:+ " : "
                        +:+ strerror_of err) fs2) as (l2 & E2).
    rewrite !result_of_bind, E1, E2, Hs. simpl.
    destruct (opened src (fs2 !! src)) as [f1|]; [|done].
    destruct (try_open_any (name v)
                (λ err, "error: failed to open " +:+ name v +:+ " : "
                        +:+ strerror_of err) fs1) as (l3 & E3).
    destruct (try_open_any (name v)
                (λ err, "error: failed to open " +:+ name v +:+ " : "
                        +:+ strerror_of err) fs2) as (l4 & E4).
    rewrite !result_of_bind, E3, E4, (opened_node _ _ _ Hd). simpl.
    destruct (opened (name v) (fs2 !! name v)) as [f2|]; [|done].
    rewrite !result_of_bind.
    rewrite (checksum_loop_indep _ _ _ _ _ _ _ _ fs1 fs2).
    destruct (result_of (checksum_loop _ _ _ _ _ _ _ _ _ fs2))
      as [[b|[sum1 sum2]]|e]; try done.
    destruct (bool_decide (digest sum1 ≠ digest sum2)); [|done].
    unfold_out. unfold bind. by destruct (DRY_RUN cfg1).
  - unfold VNodeLink_compare. destruct (vexists v); [|done]. simpl.
    unfold_os. unfold try_except, sys_call, bind, query. unfold_out.
    rewrite !no_faults.
    destruct (fs1 !! name v) as [i1|], (fs2 !! name v) as [i2|]; try done.
    injection Hd as Hd. simpl. rewrite Hd.
    destruct (i_node i2); simpl; try done.
    by destruct (bool_decide _).
  - unfold VNodeDev_compare. destruct (vexists v); [|done]. simpl.
    unfold_os. unfold try_except, sys_call, bind, query. unfold_out.
    rewrite !no_faults.
    destruct (fs1 !! name v) as [i1|], (fs2 !! name v) as [i2|]; try done.
    injection Hd as Hd. simpl. rewrite Hd.
    by destruct (_ || _).
  - unfold VNodeDev_compare. destruct (vexists v); [|done]. simpl.
    unfold_os. unfold try_except, sys_call, bind, query. unfold_out.
    rewrite !no_faults.
    destruct (fs1 !! name v) as [i1|], (fs2 !! name v) as [i2|]; try done.
    injection Hd as Hd. simpl. rewrite Hd.
    by destruct (_ || _).
Qed.

Lemma entry_type_node_type n1 n2 :
  entry_type_of_node n1 = entry_type_of_node n2 → node_type n1 = node_type n2.
Proof. by destruct n1, n2. Qed.

(** A destination that holds what the source holds, with its owner and
    its mode: [check] finds nothing to do. *)
Lemma check_settled cfg' fs src dest isrc idst c :
  fs !! src = Some isrc → fs !! dest = Some idst →
  handler_class src isrc = Some c →
  entry_type_of_node (i_node isrc) = entry_type_of_node (i_node idst) →
  i_uid isrc = i_uid idst → i_gid isrc = i_gid idst →
  Z.land (i_perm isrc) 4095 = Z.land (i_perm idst) 4095 →
  result_of (compare cfg' plat (Build_VNode dest (snapshot isrc) true c) src
               (snapshot idst) fs) = Ret true →
  ∃ l, check cfg' plat (object_for fs src dest) fs = (Ret (false, false), fs, l)
       ∧ mutations l = [].
Proof.
  intros Hs Hd Hc Hty Hu Hg Hp Hcmp.
  set (so := object_for fs src dest).
  assert (src_stat so = snapshot isrc) as Hss.
  { unfold so, object_for, stat_in. simpl. by rewrite Hs. }
  assert (dest_stat so = snapshot idst) as Hds.
  { unfold so, object_for, stat_in. simpl. by rewrite Hd. }
  pose proof (vnode_obj_run so fs isrc Hs Hss) as Hv.
  change (src_path so) with src in Hv. change (dest_path so) with dest in Hv.
  rewrite Hc, Hss, Hds in Hv. simpl in Hv.
  destruct (check_metadata_outcome cfg' plat so fs
              (Build_VNode dest (snapshot isrc) true c))
    as (Hr & Hm & Hfs); [by rewrite Hds | by rewrite Hss, Hds | done | |].
  { by rewrite Hds. }
  assert (bool_decide (uid (src_stat so) ≠ uid (dest_stat so))
          || bool_decide (gid (src_stat so) ≠ gid (dest_stat so)) = false) as Ho.
  { rewrite Hss, Hds. simpl. by rewrite !bool_decide_eq_false_2 by auto. }
  assert (bool_decide (mode (src_stat so) ≠ mode (dest_stat so)) = false) as Hmd.
  { rewrite Hss, Hds. simpl.
    rewrite (entry_type_node_type _ _ Hty), Hp.
    by rewrite bool_decide_eq_false_2 by auto. }
  rewrite Ho, Hmd in Hr, Hm. specialize (Hfs Ho Hmd).
  destruct (check cfg' plat so fs) as [[r fs'] l]. simpl in *. subst.
  by exists l.
Qed.

(** Without a handler [check] raises. *)
Lemma check_no_handler so fs :
  result_of (vnode_obj plat so fs) = Ret None →
  ∃ e, result_of (check cfg plat so fs) = Raise e.
Proof.
  intros Hv. unfold check.
  destruct (stat_exists (dest_stat so)); cbn [negb].
  2:{ unfold_out. rewrite !result_of_bind. simpl. rewrite Hv. simpl. eauto. }
  destruct (bool_decide (filetype_of _ ≠ _)).
  - rewrite !result_of_bind, Hv. simpl. eauto.
  - rewrite !result_of_bind, Hv. simpl. eauto.
Qed.

(** The events of a [check] that replaces the destination end with those
    of [fix]. *)
Lemma check_replaces_events so fs v :
  result_of (vnode_obj plat so fs) = Ret (Some v) →
  negb (stat_exists (dest_stat so))
  || bool_decide (filetype_of (src_stat so) ≠ filetype_of (dest_stat so))
  || found_different
       (result_of (compare cfg plat v (src_path so) (dest_stat so) fs)) = true →
  ∃ pre, events_of (check cfg plat so fs)
         = pre ++ events_of (fix_ cfg plat v fs).
Proof.
  intros Hv.
  destruct (vnode_obj_read_only plat so fs) as [Hfs0 _].
  destruct (compare_read_only cfg plat v (src_path so) (dest_stat so) fs)
    as [Hfs1 _].
  destruct (vnode_obj plat so fs) as [[r0 fs0] l0] eqn:E0.
  destruct (compare_returns cfg plat v (src_path so) (dest_stat so) fs)
    as (same & fsc & lc & Ec).
  rewrite Ec in Hfs1. simpl in *. subst r0 fs0 fsc.
  destruct (fix_returns cfg plat v fs) as ([] & fsf & lf & Ef).
  rewrite Ec. unfold check.
  destruct (stat_exists (dest_stat so)); cbn [negb orb].
  2:{ intros _. unfold_out. unfold bind. rewrite E0. cbn [call]. rewrite Ef.
      simpl. rewrite app_nil_r. by eexists (_ :: _ :: _). }
  destruct (bool_decide (filetype_of _ ≠ _)); cbn [orb].
  { intros _. unfold_out. unfold bind. rewrite E0. cbn [call]. unfold ret.
    rewrite Ef. simpl. rewrite app_nil_r.
    exists (l0 ++ [EvStdout (dest_path so +:+ " should be a " +:+ typename v);
                   EvTerse TERSE_WARNING ("wrong type " +:+ dest_path so);
                   EvLog ("fix type " +:+ dest_path so)]).
    by rewrite <- !app_assoc. }
  unfold_out. unfold bind, ret. rewrite E0. cbn [call]. rewrite Ec.
  destruct same; cbn [negb found_different result_of fst]; [done|].
  intros _. rewrite Ef. simpl. rewrite app_nil_r.
  exists (l0 ++ lc ++ [EvLog ("updating " +:+ dest_path so)]).
  by rewrite <- !app_assoc.
Qed.

(** After a [compare] that has returned true, the filesystem is the one
    that [set_owner] and [set_permissions] leave, each when [check] calls
    it. *)
Lemma check_adjusts so fs v :
  stat_exists (dest_stat so) = true →
  filetype_of (src_stat so) = filetype_of (dest_stat so) →
  result_of (vnode_obj plat so fs) = Ret (Some v) →
  result_of (compare cfg plat v (src_path so) (dest_stat so) fs) = Ret true →
  let owner_differs :=
    bool_decide (uid (src_stat so) ≠ uid (dest_stat so))
    || bool_decide (gid (src_stat so) ≠ gid (dest_stat so)) in
  let mode_differs := bool_decide (mode (src_stat so) ≠ mode (dest_stat so)) in
  let fs_a := if owner_differs then fs_of (set_owner cfg plat v fs) else fs in
  fs_of (check cfg plat so fs)
  = (if mode_differs then fs_of (set_permissions cfg plat v fs_a) else fs_a) ∧
  (effects_succeeded (events_of (check cfg plat so fs)) →
   (owner_differs = true →
    effects_succeeded (events_of (set_owner cfg plat v fs))) ∧
   (mode_differs = true →
    effects_succeeded (events_of (set_permissions cfg plat v fs_a)))).
Proof.
  intros Hex Hty Hv Hcmp owner_differs mode_differs fs_a.
  destruct (vnode_obj_read_only plat so fs) as [Hfs0 _].
  destruct (compare_read_only cfg plat v (src_path so) (dest_stat so) fs)
    as [Hfs1 _].
  destruct (vnode_obj plat so fs) as [[r0 fs0] l0] eqn:E0.
  destruct (compare cfg plat v (src_path so) (dest_stat so) fs)
    as [[rc fsc] lc] eqn:Ec.
  simpl in *. subst r0 fs0 rc fsc.
  destruct (set_owner_returns cfg plat v fs) as ([] & fso & lo & Eo).
  destruct (set_permissions_returns cfg plat v fs) as ([] & fsp & lp & Ep).
  destruct (set_permissions_returns cfg plat v fso) as ([] & fsp' & lp' & Ep').
  cut (∃ r l, check cfg plat so fs
              = (r, (if mode_differs then fs_of (set_permissions cfg plat v fs_a)
                     else fs_a), l)
              ∧ (effects_succeeded l →
                 (owner_differs = true → effects_succeeded lo) ∧
                 (mode_differs = true →
                  effects_succeeded (events_of (set_permissions cfg plat v fs_a))))).
  { intros (r & l & -> & Hl). rewrite Eo. done. }
  subst fs_a.
  unfold check. rewrite Hex. cbn [negb].
  rewrite bool_decide_eq_false_2 by auto.
  fold owner_differs mode_differs.
  unfold bind at 1. rewrite E0. cbn [call].
  unfold bind at 1. rewrite Ec. cbn [negb].
  unfold_out. unfold bind.
  destruct owner_differs, mode_differs; cbn [when]; unfold ret;
    do 3 (simpl; rewrite ?Eo, ?Ep, ?Ep'); eexists _, _; (split; [done|]);
    rewrite ?app_nil_r, ?effects_succeeded_app.
  all: intros Hl; split; intros ?; try done.
  all: destruct Hl as (_ & _ & Hl); unfold effects_succeeded in *;
    simpl in Hl; rewrite ?forallb_app in Hl; simpl in Hl;
    try apply andb_true_iff in Hl; tauto.
Qed.

Lemma same_content_type n1 n2 :
  same_content n1 n2 → entry_type_of_node n1 = entry_type_of_node n2.
Proof. by destruct n1, n2. Qed.

(** What [create] makes holds what the source holds. *)
Lemma created_same_content v src isrc fs i0 :
  handler_class src isrc = Some (cls v) →
  (∀ s, cls v = VNodeFile s → fs !! s = Some isrc) →
  created plat v fs = Some i0 →
  same_content (i_node isrc) (i_node i0).
Proof.
  unfold handler_class, created. intros Hc Hfile Hmade.
  destruct (i_node isrc) eqn:En; try done; injection Hc as Hc;
    rewrite <- Hc in Hmade, Hfile.
  - rewrite (Hfile src eq_refl) in Hmade. simpl in Hmade. rewrite En in Hmade.
    by injection Hmade as <-.
  - by injection Hmade as <-.
  - by injection Hmade as <-.
  - by injection Hmade as <-.
  - injection Hmade as <-. simpl. rewrite En. simpl.
    by rewrite makedev_major_minor.
  - injection Hmade as <-. simpl. rewrite En. simpl.
    by rewrite makedev_major_minor.
Qed.

Lemma repaired_node v i0 : i_node (repaired plat v i0) = i_node i0.
Proof. unfold repaired. by destruct (cls v); try destruct (has_lchmod plat). Qed.

Lemma repaired_owner v i0 :
  i_uid (repaired plat v i0) = uid (stat v)
  ∧ i_gid (repaired plat v i0) = gid (stat v).
Proof. unfold repaired. by destruct (cls v); try destruct (has_lchmod plat). Qed.

(** The mode that [fix] leaves is that of the source, when the platform
    can give it to a link or every link has the mode 0777 anyway. *)
Lemma repaired_perm v src isrc fs i0 :
  handler_class src isrc = Some (cls v) →
  stat v = snapshot isrc →
  created plat v fs = Some i0 →
  (has_lchmod plat = true
   ∨ (is_symlink isrc = true → Z.land (i_perm isrc) 4095 = 511)) →
  Z.land (i_perm isrc) 4095 = Z.land (i_perm (repaired plat v i0)) 4095.
Proof.
  unfold handler_class, created, repaired. intros Hc Hst Hmade Hlink.
  rewrite Hst.
  assert (Z.land (i_perm isrc) 4095 = Z.land (Z.land (i_perm isrc) 4095) 4095)
    as Hp by by rewrite <- Z.land_assoc.
  destruct (i_node isrc) eqn:En; try done; injection Hc as Hc;
    rewrite <- Hc in *; simpl; rewrite ?mode_bits_perm; try done.
  destruct Hlink as [->|Hlink]; [by simpl; rewrite mode_bits_perm|].
  injection Hmade as <-.
  unfold is_symlink in Hlink. rewrite En in Hlink.
  destruct (has_lchmod plat); simpl; rewrite ?mode_bits_perm; [done|].
  by rewrite Hlink.
Qed.

(** X24.  A second [check] finds nothing to do, unless [chown] has taken
    bits off the mode.  Let a first [check], not a dry run, return on a
    platform where no call fails, with every change it has attempted done
    and the source left as it was; let the platform be able to give a
    symbolic link the owner and the mode of another; and when the first
    [check] has not replaced the destination, let the source be an entry
    whose permission bits a [chown] would leave as they are.  Then a
    second [check] of the same two paths, from the filesystem that the
    first has left and under any configuration, returns [(false, false)],
    leaves the filesystem as it is and makes no call that could change
    it. *)
Theorem check_idempotent cfg' src dest (fs : FS) r fs1 l1 :
  links_settable plat fs →
  check cfg plat (object_for fs src dest) fs = (Ret r, fs1, l1) →
  (r.1 = false → ∀ isrc, fs !! src = Some isrc → chown_keeps_mode isrc) →
  effects_succeeded l1 →
  fs1 !! src = fs !! src →
  ∃ l2, check cfg' plat (object_for fs1 src dest) fs1
        = (Ret (false, false), fs1, l2)
        ∧ mutations l2 = [].
Proof.
  intros [Hlchown Hlchmod] Hcheck Hkeep Hok Hsrc.
  set (so := object_for fs src dest) in *.
  destruct (fs !! src) as [isrc|] eqn:Hs.
  2:{ destruct (check_no_handler so fs) as [e He].
      { apply vnode_obj_missing. unfold so, object_for, stat_in. simpl.
        by rewrite Hs. }
      by rewrite Hcheck in He. }
  assert (src_stat so = snapshot isrc) as Hss.
  { unfold so, object_for, stat_in. simpl. by rewrite Hs. }
  pose proof (vnode_obj_run so fs isrc Hs Hss) as Hv.
  change (src_path so) with src in Hv. change (dest_path so) with dest in Hv.
  destruct (handler_class src isrc) as [c|] eqn:Hc.
  2:{ destruct (check_no_handler so fs Hv) as [e He].
      by rewrite Hcheck in He. }
  rewrite Hss in Hv. cbn [fmap option_fmap option_map] in Hv.
  set (v := Build_VNode dest (snapshot isrc) (stat_exists (dest_stat so)) c) in *.
  assert (has_lchmod plat = true
          ∨ (is_symlink isrc = true → Z.land (i_perm isrc) 4095 = 511))
    as Hmode.
  { destruct Hlchmod as [?|Hall]; [by left|]. right. by apply (Hall src). }
  destruct (check_replaces cfg plat so fs v Hv) as [(m & Hr & _) Hfix].
  rewrite Hcheck in Hr. injection Hr as Hr.
  pose proof (check_replaces_events so fs v Hv) as Hev.
  destruct (negb (stat_exists (dest_stat so))
            || bool_decide (filetype_of (src_stat so) ≠ filetype_of (dest_stat so))
            || found_different
                 (result_of (compare cfg plat v (src_path so) (dest_stat so) fs)))
    eqn:Hrep.
  - (* the first check has replaced the destination *)
    specialize (Hfix eq_refl). destruct (Hev eq_refl) as [pre Hpre].
    rewrite Hcheck in Hfix, Hpre. simpl in Hfix, Hpre. subst l1.
    apply effects_succeeded_app in Hok as [_ Hok].
    destruct (fix_ok v fs) as (i0 & fs2 & Hmade & Hne & Hfs); [| |done|].
    { unfold v, so, object_for, stat_in. simpl.
      by destruct (fs !! dest). }
    { done. }
    rewrite <- Hfix in Hfs. change (name v) with dest in Hfs.
    assert (same_content (i_node isrc) (i_node (repaired plat v i0))) as Hsame.
    { rewrite repaired_node.
      apply (created_same_content v src isrc fs2 i0); [done| |done].
      intros s Hcls. pose proof (Hne s Hcls) as Hne'.
      change (cls v) with c in Hcls. rewrite Hcls in Hc.
      unfold handler_class in Hc.
      assert (s = src) as -> by (destruct (i_node isrc); congruence).
      rewrite <- Hsrc, Hfs. by rewrite lookup_insert_ne. }
    destruct (repaired_owner v i0) as [Hu Hg].
    apply (check_settled cfg' fs1 src dest isrc (repaired plat v i0) c).
    + by rewrite Hsrc.
    + rewrite Hfs. apply lookup_insert_eq.
    + done.
    + by apply same_content_type.
    + by rewrite Hu.
    + by rewrite Hg.
    + by apply (repaired_perm v src isrc fs2 i0).
    + by apply compare_same_content;
        [rewrite Hsrc | rewrite Hfs; apply lookup_insert_eq | |].
  - (* the first check has kept it *)
    clear Hfix Hev.
    assert (r.1 = false) as Hr1 by (rewrite Hr; exact Hrep).
    specialize (Hkeep Hr1 isrc eq_refl).
    apply orb_false_iff in Hrep as [Hrep Hfd].
    apply orb_false_iff in Hrep as [Hex Hty].
    apply negb_false_iff in Hex.
    apply bool_decide_eq_false, dec_stable in Hty.
    destruct (compare_returns cfg plat v (src_path so) (dest_stat so) fs)
      as (same & fsc & lc & Ec).
    assert (result_of (compare cfg plat v (src_path so) (dest_stat so) fs)
            = Ret true) as Hcmp.
    { rewrite Ec in Hfd |- *. by destruct same. }
    clear Ec Hfd.
    destruct (fs !! dest) as [idst|] eqn:Hd.
    2:{ unfold so, object_for, stat_in in Hex. simpl in Hex.
        by rewrite Hd in Hex. }
    assert (dest_stat so = snapshot idst) as Hds.
    { unfold so, object_for, stat_in. simpl. by rewrite Hd. }
    pose proof (check_adjusts so fs v Hex Hty Hv Hcmp) as Hadj.
    cbv zeta in Hadj. rewrite Hcheck, Hss, Hds in Hadj.
    cbn [uid gid mode snapshot fs_of events_of fst snd] in Hadj.
    destruct Hadj as [Hfs Hev]. destruct (Hev Hok) as [Hoko Hokp]. clear Hev.
    rewrite Hss, Hds in Hty. cbn [snapshot filetype_of entry_type_of] in Hty.
    set (fs_a := if bool_decide (i_uid isrc ≠ i_uid idst)
                    || bool_decide (i_gid isrc ≠ i_gid idst)
                 then fs_of (set_owner cfg plat v fs) else fs) in *.
    assert (∃ ia, fs_a !! dest = Some ia ∧ i_node ia = i_node idst
                  ∧ (i_perm ia = i_perm idst ∨ i_perm ia = chown_perm idst)
                  ∧ i_uid isrc = i_uid ia ∧ i_gid isrc = i_gid ia)
      as (ia & Ha & Hna & Hpa & Hu & Hg).
    { subst fs_a.
      destruct (bool_decide (i_uid isrc ≠ i_uid idst)
                || bool_decide (i_gid isrc ≠ i_gid idst)) eqn:Hod.
      - rewrite (set_owner_ok v fs idst Hd (λ _ _, Hlchown) (Hoko eq_refl)).
        exists (with_owner (i_uid isrc) (i_gid isrc) idst).
        change (name v) with dest. rewrite lookup_insert_eq.
        split_and!; try done. by right.
      - apply orb_false_iff in Hod as [Hu Hg].
        apply bool_decide_eq_false, dec_stable in Hu.
        apply bool_decide_eq_false, dec_stable in Hg.
        exists idst. split_and!; try done. by left. }
    clearbody fs_a. clear Hoko.
    assert (∃ i1, fs1 !! dest = Some i1 ∧ i_node i1 = i_node idst
                  ∧ i_uid isrc = i_uid i1 ∧ i_gid isrc = i_gid i1
                  ∧ Z.land (i_perm isrc) 4095 = Z.land (i_perm i1) 4095)
      as (i1 & Hd1 & Hn1 & Hu1 & Hg1 & Hp1).
    { clear Hsrc Hcheck. subst fs1.
      destruct (bool_decide (st_mode (stat_of isrc) ≠ st_mode (stat_of idst)))
        eqn:Hmd.
      - rewrite (set_permissions_ok v fs_a ia Ha (Hokp eq_refl)).
        change (cls v) with c. change (name v) with dest.
        change (stat v) with (snapshot isrc).
        assert (∃ i1, <[dest := with_perm (mode (snapshot isrc)) ia]> fs_a !! dest
                      = Some i1 ∧ i_node i1 = i_node idst
                      ∧ i_uid isrc = i_uid i1 ∧ i_gid isrc = i_gid i1
                      ∧ Z.land (i_perm isrc) 4095 = Z.land (i_perm i1) 4095)
          as Hset.
        { eexists. rewrite lookup_insert_eq. split_and!; try done.
          simpl. by rewrite mode_bits_perm, <- Z.land_assoc. }
        destruct c as [s| |t| |st|st]; try done.
        destruct (has_lchmod plat) eqn:Hl; [done|].
        destruct Hlchmod as [?|Hall]; [done|].
        exists ia. split_and!; try done.
        unfold handler_class in Hc.
        destruct (i_node isrc) eqn:En; try done.
        destruct (i_node idst) eqn:En'; try done.
        assert (i_perm ia = i_perm idst) as ->.
        { destruct Hpa as [->| ->]; [done|]. unfold chown_perm. by rewrite En'. }
        rewrite (Hall src isrc Hs), (Hall dest idst Hd); [done|..];
          unfold is_symlink; by rewrite ?En, ?En'.
      - exists ia. split_and!; try done.
        apply bool_decide_eq_false, dec_stable in Hmd.
        unfold stat_of in Hmd. simpl in Hmd.
        apply (f_equal (λ x, Z.land x 4095)) in Hmd.
        rewrite !mode_bits_perm in Hmd.
        destruct Hpa as [->| ->]; [done|].
        rewrite <- Hkeep. by apply chown_perm_bits. }
    apply (check_settled cfg' fs1 src dest isrc i1 c); try done.
    + by rewrite Hn1.
    + apply (compare_dep cfg cfg' _ src (dest_stat so) _ fs fs1).
      * by rewrite Hs, Hsrc.
      * cbn [name]. rewrite Hd, Hd1. simpl. by rewrite Hn1.
      * rewrite Hds. simpl. by rewrite Hn1.
      * unfold v in Hcmp. by rewrite Hex in Hcmp.
Qed.
End Again.

(** * Further properties of the code *)

(** ** The handler of the destination *)

Section DestHandler.
Context `{LibText}.
Context (plat : Platform).

(** X1.  When the source and the destination both exist, or both do not,
    and have the same type, [vnode_dest_obj] is [vnode_obj]: the same
    calls, the same messages and the same handler. *)
Theorem vnode_dest_obj_same_type (so : SyncObject) :
  stat_exists (src_stat so) = stat_exists (dest_stat so) →
  filetype_of (src_stat so) = filetype_of (dest_stat so) →
  vnode_dest_obj plat so = vnode_obj plat so.
Proof.
  intros Hex Hty. unfold vnode_dest_obj, vnode_obj.
  unfold is_file, is_dir, is_link, is_fifo, is_chardev, is_blockdev, is_type.
  unfold stat_exists, filetype_of in Hex, Hty. by rewrite Hex, Hty.
Qed.

(** X2.  For a destination that is a symbolic link [vnode_dest_obj] reads
    the link of the source, not that of the destination: when the source
    is not a symbolic link, or is not there, the only call is the
    [readlink] of the source, it fails, the error is reported and there
    is no handler. *)
Theorem vnode_dest_obj_reads_source_link (so : SyncObject) (fs : FS) :
  is_link (dest_stat so) = true →
  (∀ i, fs !! src_path so = Some i → is_symlink i = false) →
  vnode_dest_obj plat so fs
  = (Ret None, fs,
     [EvSys (Readlink (src_path so)) false;
      EvStderr ("error reading symlink " +:+ print_src so +:+ " : "
                +:+ strerror plat (Readlink (src_path so)));
      EvTerse TERSE_FAIL (src_path so)]).
Proof.
  intros Hlink Hsrc. unfold vnode_dest_obj.
  unfold is_file, is_dir, is_link, is_type in *.
  apply andb_true_iff in Hlink as [Hex Hty].
  apply bool_decide_eq_true in Hty. rewrite Hex, Hty. simpl.
  unfold os_readlink, try_except, sys_call, bind, query. unfold_out.
  destruct (faulty plat (Readlink (src_path so))); [done|].
  destruct (fs !! src_path so) as [i|] eqn:Hi; [|done].
  specialize (Hsrc i eq_refl). unfold is_symlink in Hsrc. simpl.
  by destruct (i_node i).
Qed.

(** X3.  A handler that [vnode_obj] returns is of the class for the type
    of the source; one that [vnode_dest_obj] returns is of the class for
    the type of the destination, and only an existing destination has
    one.  Both are named after the destination and carry the snapshot of
    the source. *)
Theorem handler_follows_type (so : SyncObject) (fs : FS) (v : VNode) :
  (result_of (vnode_obj plat so fs) = Ret (Some v) →
   name v = dest_path so ∧ stat v = src_stat so ∧
   vexists v = stat_exists (dest_stat so) ∧
   stat_exists (src_stat so) = true ∧
   class_type (cls v) = filetype_of (src_stat so)) ∧
  (result_of (vnode_dest_obj plat so fs) = Ret (Some v) →
   name v = dest_path so ∧ stat v = src_stat so ∧
   vexists v = true ∧
   class_type (cls v) = filetype_of (dest_stat so)).
Proof.
  split.
  - unfold vnode_obj. unfold_os.
    unfold is_file, is_dir, is_link, is_fifo, is_chardev, is_blockdev, is_type.
    unfold try_except, sys_call, bind, query, result_of, stat_exists, filetype_of.
    destruct (entry_exists (src_stat so)); simpl; [|done].
    repeat (match goal with
            | |- context [bool_decide (?a = ?b)] =>
                destruct (bool_decide_reflect (a = b))
            | |- context [if ?b then _ else _] => destruct b
            | |- context [mbind _ ?x] => destruct x; simpl
            | |- context [match i_node ?i with _ => _ end] => destruct (i_node i)
            end; simpl; try done);
      by intros [= <-].
  - unfold vnode_dest_obj. unfold_os.
    unfold is_file, is_dir, is_link, is_fifo, is_chardev, is_blockdev, is_type.
    unfold try_except, sys_call, bind, query, result_of, stat_exists, filetype_of.
    destruct (entry_exists (dest_stat so)); simpl; [|done].
    repeat (match goal with
            | |- context [bool_decide (?a = ?b)] =>
                destruct (bool_decide_reflect (a = b))
            | |- context [if ?b then _ else _] => destruct b
            | |- context [mbind _ ?x] => destruct x; simpl
            | |- context [match i_node ?i with _ => _ end] => destruct (i_node i)
            end; simpl; try done);
      by intros [= <-].
Qed.
End DestHandler.

(** ** The timestamp check of purge *)

Section PurgeTimestamp.
Context `{Hashlib, DevNumbers, LibText, LibTime}.
Context (plat : Platform).

Lemma try_lstat_run (msg : exn → string) p (fs : FS) :
  try_except (s ← os_lstat plat p; ret (Some s)) ClsOSError
    (λ err, stderr (msg err) ;; ret None) fs
  = match lstat_view plat p fs with
    | Some i => (Ret (Some (stat_of i)), fs, [EvSys (Lstat p) true])
    | None =>
        (Ret None, fs,
         [EvSys (Lstat p) false;
          EvStderr (msg (OSError (strerror plat (Lstat p))))])
    end.
Proof.
  unfold lstat_view, os_lstat, try_except, sys_call, bind, query. unfold_out.
  destruct (faulty plat (Lstat p)); [done|].
  by destruct (fs !! p).
Qed.

(** The run of [check_purge_timestamp], by what [lstat] shows. *)
Lemma purge_timestamp_run cfg (so : SyncObject) (fs : FS) :
  check_purge_timestamp cfg plat so fs
  = match lstat_view plat (src_path so) fs with
    | None =>
        (Ret false, fs,
         [EvSys (Lstat (src_path so)) false;
          EvStderr ("error: stat(" +:+ src_path so +:+ ") failed: "
                    +:+ strerror plat (Lstat (src_path so)))])
    | Some isrc =>
        match lstat_view plat (dest_path so) fs with
        | None =>
            (Ret false, fs,
             [EvSys (Lstat (src_path so)) true;
              EvSys (Lstat (dest_path so)) false;
              EvStderr ("error: stat(" +:+ dest_path so +:+ ") failed: "
                        +:+ strerror plat (Lstat (dest_path so)))])
        | Some idst =>
            if bool_decide (i_mtime isrc > i_mtime idst) then
              (result_of (touch cfg plat so (stat_of isrc) fs),
               fs_of (touch cfg plat so (stat_of isrc) fs),
               [EvSys (Lstat (src_path so)) true;
                EvSys (Lstat (dest_path so)) true]
               ++ events_of (touch cfg plat so (stat_of isrc) fs))
            else
              (Ret true, fs,
               [EvSys (Lstat (src_path so)) true;
                EvSys (Lstat (dest_path so)) true])
        end
    end.
Proof.
  unfold check_purge_timestamp.
  unfold bind at 1. rewrite try_lstat_run.
  destruct (lstat_view plat (src_path so) fs) as [isrc|]; [|done].
  unfold bind at 1. rewrite try_lstat_run.
  destruct (lstat_view plat (dest_path so) fs) as [idst|]; [|done].
  simpl. destruct (bool_decide (i_mtime isrc > i_mtime idst)); [|done].
  change (bind (stdout _) _ fs) with (touch cfg plat so (stat_of isrc) fs).
  by destruct (touch cfg plat so (stat_of isrc) fs) as [[??]?].
Qed.

Lemma touch_not_true cfg so st fs :
  result_of (touch cfg plat so st fs) ≠ Ret true.
Proof.
  unfold touch. unfold_out. rewrite !result_of_bind. simpl.
  destruct (vnode_obj plat so fs) as [[[[v|]|e] fs2] l2]; simpl; try done.
  rewrite result_of_bind.
  by destruct (set_times_returns cfg plat v (st_atime st) (st_mtime st) fs2)
    as ([] & fs3 & l3 & ->).
Qed.

(** X4.  [check_purge_timestamp] returns true exactly when [lstat] shows
    both entries and the source is not newer than the destination; and
    then it has made the two [lstat] calls and nothing else: no message
    and no change. *)
Theorem purge_timestamp_same cfg (so : SyncObject) (fs : FS) :
  (result_of (check_purge_timestamp cfg plat so fs) = Ret true ↔
   ∃ isrc idst,
     lstat_view plat (src_path so) fs = Some isrc ∧
     lstat_view plat (dest_path so) fs = Some idst ∧
     i_mtime isrc ≤ i_mtime idst) ∧
  (result_of (check_purge_timestamp cfg plat so fs) = Ret true →
   check_purge_timestamp cfg plat so fs
   = (Ret true, fs,
      [EvSys (Lstat (src_path so)) true; EvSys (Lstat (dest_path so)) true])).
Proof.
  rewrite purge_timestamp_run.
  destruct (lstat_view plat (src_path so) fs) as [isrc|].
  2:{ split; [|done]. split; [done|]. by intros (? & ? & ? & _). }
  destruct (lstat_view plat (dest_path so) fs) as [idst|].
  2:{ split; [|done]. split; [done|]. by intros (? & ? & _ & ? & _). }
  destruct (bool_decide (i_mtime isrc > i_mtime idst)) eqn:Hnew.
  - apply bool_decide_eq_true in Hnew.
    pose proof (touch_not_true cfg so (stat_of isrc) fs) as Hno.
    split; [split|]; [done| |done].
    intros (? & ? & [= <-] & [= <-] & ?). lia.
  - apply bool_decide_eq_false in Hnew. split; [|done]. split; [|done].
    intros _. exists isrc, idst. split_and!; [done..|lia].
Qed.

Lemma touch_result cfg so st fs :
  result_of (touch cfg plat so st fs)
  = match result_of (vnode_obj plat so fs) with
    | Ret (Some _) => Ret false
    | Ret None =>
        Raise (AttributeError
                 "'NoneType' object has no attribute 'set_times'")
    | Raise e => Raise e
    end.
Proof.
  unfold touch. unfold_out. rewrite !result_of_bind. simpl.
  destruct (vnode_obj plat so fs) as [[[[v|]|e] fs2] l2]; simpl; try done.
  rewrite result_of_bind.
  by destruct (set_times_returns cfg plat v (st_atime st) (st_mtime st) fs2)
    as ([] & fs3 & l3 & ->).
Qed.

Lemma set_times_calls cfg v atime mtime fs :
  mutations (events_of (set_times cfg plat v atime mtime fs))
  = if DRY_RUN cfg then [] else [Utime (name v) atime mtime].
Proof.
  unfold set_times, os_utime, try_except, sys_call, bind, change.
  unfold_out. destruct (DRY_RUN cfg); simpl; [done|].
  destruct (faulty plat _); simpl; [done|].
  by destruct (alter_step _ _ _ fs).
Qed.

Lemma touch_calls cfg so st fs :
  mutations (events_of (touch cfg plat so st fs))
  = match result_of (vnode_obj plat so fs) with
    | Ret (Some _) =>
        if DRY_RUN cfg then []
        else [Utime (dest_path so) (st_atime st) (st_mtime st)]
    | _ => []
    end.
Proof.
  destruct (vnode_obj_read_only plat so fs) as [Hfs0 Hm0].
  pose proof (vnode_obj_fields plat so fs) as Hfields.
  unfold touch. unfold_out. unfold bind.
  destruct (vnode_obj plat so fs) as [[[[v|]|e] fs2] l2]; simpl in *;
    rewrite ?mutations_cons_out by done; rewrite ?app_nil_r; try done.
  destruct (Hfields v eq_refl) as (<- & _).
  pose proof (set_times_calls cfg v (st_atime st) (st_mtime st) fs2) as Hc.
  destruct (set_times_returns cfg plat v (st_atime st) (st_mtime st) fs2)
    as ([] & fs3 & l3 & E). rewrite E in Hc |- *. simpl in *.
  by rewrite !mutations_cons_out, app_nil_r, mutations_app, Hm0 by done.
Qed.

Lemma touch_dry cfg so st fs :
  DRY_RUN cfg = true → fs_of (touch cfg plat so st fs) = fs.
Proof.
  intros dry.
  pose proof (set_times_dry cfg plat dry).
  pose proof (vnode_obj_read_only plat).
  assert (read_only (touch cfg plat so st)) as Hro.
  { unfold touch. eauto 40 using @read_only_call with py. }
  apply Hro.
Qed.

(** X6.  In a dry run [check_purge_timestamp] leaves the filesystem as
    it is and makes no call that could change it; and what it returns (or
    raises) does not depend on the configuration. *)
Theorem purge_timestamp_dry_run (cfg cfg' : Config) (so : SyncObject) (fs : FS) :
  (DRY_RUN cfg = true →
   fs_of (check_purge_timestamp cfg plat so fs) = fs ∧
   mutations (events_of (check_purge_timestamp cfg plat so fs)) = []) ∧
  result_of (check_purge_timestamp cfg plat so fs)
  = result_of (check_purge_timestamp cfg' plat so fs).
Proof.
  rewrite !purge_timestamp_run.
  destruct (lstat_view plat (src_path so) fs) as [isrc|]; [|done].
  destruct (lstat_view plat (dest_path so) fs) as [idst|]; [|done].
  destruct (bool_decide (i_mtime isrc > i_mtime idst)); [|done].
  simpl. split; [|by rewrite !touch_result].
  intros dry. split; [by apply touch_dry|].
  rewrite !mutations_cons_sys, touch_calls, dry. simpl.
  by destruct (result_of (vnode_obj plat so fs)) as [[?|]|?].
Qed.

(** X7.  The only call of [check_purge_timestamp] that can change the
    filesystem is one [utime] of the destination, with the times of the
    source; it is made only when this is not a dry run and the source is
    strictly newer than the destination. *)
Theorem purge_timestamp_only_utime (cfg : Config) (so : SyncObject) (fs : FS)
    (c : syscall) :
  c ∈ mutations (events_of (check_purge_timestamp cfg plat so fs)) →
  DRY_RUN cfg = false ∧
  ∃ isrc idst,
    lstat_view plat (src_path so) fs = Some isrc ∧
    lstat_view plat (dest_path so) fs = Some idst ∧
    i_mtime isrc > i_mtime idst ∧
    mutations (events_of (check_purge_timestamp cfg plat so fs))
    = [Utime (dest_path so) (i_atime isrc) (i_mtime isrc)].
Proof.
  rewrite purge_timestamp_run.
  destruct (lstat_view plat (src_path so) fs) as [isrc|];
    [|by intros ?%elem_of_nil].
  destruct (lstat_view plat (dest_path so) fs) as [idst|];
    [|by intros ?%elem_of_nil].
  destruct (bool_decide (i_mtime isrc > i_mtime idst)) eqn:Hnew;
    [|by intros ?%elem_of_nil].
  apply bool_decide_eq_true in Hnew. simpl.
  rewrite !mutations_cons_sys, touch_calls. simpl.
  destruct (result_of (vnode_obj plat so fs)) as [[?|]|?];
    try by intros ?%elem_of_nil.
  destruct (DRY_RUN cfg); [by intros ?%elem_of_nil|].
  intros _. split; [done|]. by exists isrc, idst.
Qed.

(** X8.  When the source is newer and [vnode_obj] has no handler for it
    (a socket, or a symbolic link that can not be read),
    [check_purge_timestamp] does not return: after its messages the call
    of [set_times] on [None] raises [AttributeError].  The filesystem is
    as it was. *)
Theorem purge_timestamp_without_handler (cfg : Config) (so : SyncObject)
    (fs : FS) (isrc idst : inode) :
  lstat_view plat (src_path so) fs = Some isrc →
  lstat_view plat (dest_path so) fs = Some idst →
  i_mtime isrc > i_mtime idst →
  result_of (vnode_obj plat so fs) = Ret None →
  result_of (check_purge_timestamp cfg plat so fs)
  = Raise (AttributeError "'NoneType' object has no attribute 'set_times'") ∧
  fs_of (check_purge_timestamp cfg plat so fs) = fs ∧
  EvStdout (dest_path so +:+ " mismatch (only timestamp)")
  ∈ events_of (check_purge_timestamp cfg plat so fs).
Proof.
  intros Hs Hd Hnew Hv.
  rewrite purge_timestamp_run, Hs, Hd, bool_decide_eq_true_2 by done.
  simpl. rewrite touch_result, Hv. split; [done|].
  destruct (vnode_obj_read_only plat so fs) as [Hfs0 _].
  unfold touch. unfold_out. unfold bind.
  destruct (vnode_obj plat so fs) as [[[[v|]|e] fs2] l2]; simpl in *; try done.
  split; [done|]. set_solver.
Qed.

End PurgeTimestamp.

(** ** What the setters change *)

Section Setters.
Context `{LibText}.
Context (cfg : Config) (plat : Platform).

Lemma set_owner_fs v (fs : FS) :
  fs_of (set_owner cfg plat v fs) = fs ∨
  ∃ i, fs !! name v = Some i ∧
       fs_of (set_owner cfg plat v fs)
       = <[name v := with_owner (uid (stat v)) (gid (stat v)) i]> fs.
Proof.
  unfold set_owner, VNode_set_owner, VNodeLink_set_owner. unfold_os.
  unfold try_except, sys_call, bind, change, alter_step. unfold_out.
  destruct (DRY_RUN cfg), (cls v), (has_lchown plat); simpl; try (by left);
    (destruct (faulty plat _); simpl; [by left|]);
    (destruct (fs !! name v) as [i|]; simpl; [|by left]);
    try (destruct (is_symlink i); simpl; [by left|]);
    right; by exists i.
Qed.

Lemma set_permissions_fs v (fs : FS) :
  fs_of (set_permissions cfg plat v fs) = fs ∨
  ∃ i, fs !! name v = Some i ∧
       fs_of (set_permissions cfg plat v fs)
       = <[name v := with_perm (mode (stat v)) i]> fs.
Proof.
  assert (∀ m i, with_perm (Z.land m 4095) i = with_perm m i) as Hperm.
  { intros m i. unfold with_perm. f_equal. by rewrite <- Z.land_assoc. }
  unfold set_permissions, VNode_set_permissions, VNodeLink_set_permissions.
  unfold_os.
  unfold try_except, sys_call, bind, change, alter_step. unfold_out.
  destruct (DRY_RUN cfg), (cls v), (has_lchmod plat); simpl; try (by left);
    (destruct (faulty plat _); simpl; [by left|]);
    (destruct (fs !! name v) as [i|]; simpl; [|by left]);
    try (destruct (is_symlink i); simpl; [by left|]);
    right; exists i; by rewrite Hperm.
Qed.

Lemma set_times_fs v atime mtime (fs : FS) :
  fs_of (set_times cfg plat v atime mtime fs) = fs ∨
  ∃ i, fs !! name v = Some i ∧
       fs_of (set_times cfg plat v atime mtime fs)
       = <[name v := with_times atime mtime i]> fs.
Proof.
  unfold set_times. unfold_os.
  unfold try_except, sys_call, bind, change, alter_step. unfold_out.
  destruct (DRY_RUN cfg); simpl; try (by left);
    (destruct (faulty plat _); simpl; [by left|]);
    (destruct (fs !! name v) as [i|]; simpl; [|by left]);
    try (destruct (is_symlink i); simpl; [by left|]);
    right; by exists i.
Qed.

Lemma set_owner_run v (fs : FS) :
  fs_of (set_owner cfg plat v fs)
  = match fs !! name v with
    | Some i =>
        if owner_applies cfg plat v i
        then <[name v := with_owner (uid (stat v)) (gid (stat v)) i]> fs
        else fs
    | None => fs
    end.
Proof.
  unfold set_owner, VNode_set_owner, VNodeLink_set_owner, owner_applies.
  unfold_os.
  unfold try_except, sys_call, bind, change, alter_step. unfold_out.
  destruct (DRY_RUN cfg), (cls v), (has_lchown plat); simpl;
    try (by destruct (fs !! name v));
    (destruct (faulty plat _); simpl; [by destruct (fs !! name v)|]);
    (destruct (fs !! name v) as [i|]; simpl; [|done]);
    by try destruct (is_symlink i).
Qed.

Lemma set_permissions_run v (fs : FS) :
  fs_of (set_permissions cfg plat v fs)
  = match fs !! name v with
    | Some i =>
        if mode_applies cfg plat v i
        then <[name v := with_perm (mode (stat v)) i]> fs
        else fs
    | None => fs
    end.
Proof.
  assert (∀ m i, with_perm (Z.land m 4095) i = with_perm m i) as Hperm.
  { intros m i. unfold with_perm. f_equal. by rewrite <- Z.land_assoc. }
  unfold set_permissions, VNode_set_permissions, VNodeLink_set_permissions,
    mode_applies.
  unfold_os.
  unfold try_except, sys_call, bind, change, alter_step. unfold_out.
  destruct (DRY_RUN cfg), (cls v), (has_lchmod plat); simpl;
    try (by destruct (fs !! name v));
    (destruct (faulty plat _); simpl; [by destruct (fs !! name v)|]);
    (destruct (fs !! name v) as [i|]; simpl; [|done]);
    try destruct (is_symlink i); simpl; by rewrite ?Hperm.
Qed.

Lemma owner_applies_perm v m i :
  owner_applies cfg plat v (with_perm m i) = owner_applies cfg plat v i.
Proof. done. Qed.

Lemma mode_applies_owner v u g i :
  mode_applies cfg plat v (with_owner u g i) = mode_applies cfg plat v i.
Proof. done. Qed.


(** X11.  The owner goes first, as in [fix] and in [check].  When both
    calls go through, [set_owner] followed by [set_permissions] leaves the
    entry with the owner and with all the permission bits of the source.
    In the other order the entry ends with what [chown] leaves of these
    bits; the two orders give the same filesystem exactly when [chown]
    takes none of them away. *)
Theorem set_owner_before_permissions (v : VNode) (fs : FS) (i : inode) :
  fs !! name v = Some i →
  owner_applies cfg plat v i = true →
  mode_applies cfg plat v i = true →
  let m := Z.land (mode (stat v)) 4095 in
  let entry perm :=
    Inode (i_node i) perm (uid (stat v)) (gid (stat v)) (i_atime i) (i_mtime i) in
  let owner_first :=
    fs_of ((set_owner cfg plat v ;; set_permissions cfg plat v) fs) in
  let mode_first :=
    fs_of ((set_permissions cfg plat v ;; set_owner cfg plat v) fs) in
  owner_first = <[name v := entry m]> fs ∧
  mode_first = <[name v := entry (chown_perm (entry m))]> fs ∧
  (owner_first = mode_first ↔ chown_perm (entry m) = m).
Proof.
  intros Hi Ho Hm m entry owner_first mode_first.
  assert (owner_first = <[name v := entry m]> fs) as E1.
  { subst owner_first. rewrite fs_of_bind.
    destruct (returns_result _ fs (set_owner_returns cfg plat v)) as [[] ->].
    rewrite set_permissions_run, set_owner_run, Hi, Ho, lookup_insert_eq.
    rewrite mode_applies_owner, Hm, insert_insert_eq.
    done. }
  assert (mode_first = <[name v := entry (chown_perm (entry m))]> fs) as E2.
  { subst mode_first. rewrite fs_of_bind.
    destruct (returns_result _ fs (set_permissions_returns cfg plat v)) as [[] ->].
    rewrite set_owner_run, set_permissions_run, Hi, Hm, lookup_insert_eq.
    rewrite owner_applies_perm, Ho, insert_insert_eq.
    done. }
  split_and!; [done..|]. rewrite E1, E2. split.
  - intros E. apply (f_equal (.!! name v)) in E.
    rewrite !lookup_insert_eq in E. by injection E.
  - by intros ->.
Qed.
End Setters.

(** ** Further properties of [check] *)

Section CheckMore.
Context `{Hashlib, DevNumbers, LibText}.
Context (cfg : Config) (plat : Platform).

Lemma check_handler_raises so fs e :
  result_of (vnode_obj plat so fs) = Raise e →
  result_of (check cfg plat so fs) = Raise e.
Proof.
  intros Hv. unfold check.
  destruct (stat_exists (dest_stat so)); cbn [negb].
  2:{ unfold_out. rewrite !result_of_bind. simpl. by rewrite Hv. }
  destruct (bool_decide (filetype_of _ ≠ _)).
  - by rewrite !result_of_bind, Hv.
  - by rewrite !result_of_bind, Hv.
Qed.

(** The handler that a [check] that returns has used. *)
Lemma check_returns_handler so fs r :
  result_of (check cfg plat so fs) = Ret r →
  ∃ v, result_of (vnode_obj plat so fs) = Ret (Some v).
Proof.
  intros Hr. destruct (result_of (vnode_obj plat so fs)) as [[v|]|e] eqn:Hv.
  - by exists v.
  - destruct (check_no_handler plat cfg so fs Hv) as [e He]. congruence.
  - rewrite (check_handler_raises so fs e Hv) in Hr. done.
Qed.

(** X12.  [check] never reports both a replaced destination and changed
    metadata: when it returns [(true, m)], [m] is false. *)
Theorem check_never_both (so : SyncObject) (fs : FS) (m : bool) :
  result_of (check cfg plat so fs) = Ret (true, m) → m = false.
Proof.
  intros Hr. destruct (check_returns_handler so fs _ Hr) as [v Hv].
  destruct (check_replaces cfg plat so fs v Hv) as [(m' & Hr' & Hm) _].
  rewrite Hr in Hr'. injection Hr' as Hrep <-. by apply Hm.
Qed.

End CheckMore.

(** ** A destination that has been made *)

Section Made.
Context `{Hashlib, DevNumbers, LibText}.
Context (plat : Platform).
Hypothesis no_faults : ∀ c, faulty plat c = false.
Context (cfg : Config).
Hypothesis wet : DRY_RUN cfg = false.

(** X14.  A [check] that has replaced the destination, with every change
    done, leaves a copy of the source there: an entry with the content
    of the source (the data of a file, the target of a link, the numbers
    of a device), its owner and its permission bits. *)
Theorem check_replaces_with_copy (src dest : string) (fs fs1 : FS) m l1 :
  links_settable plat fs →
  check cfg plat (object_for fs src dest) fs = (Ret (true, m), fs1, l1) →
  effects_succeeded l1 →
  fs1 !! src = fs !! src →
  ∃ isrc idst,
    fs1 !! src = Some isrc ∧ fs1 !! dest = Some idst ∧
    same_content (i_node isrc) (i_node idst) ∧
    i_uid idst = i_uid isrc ∧ i_gid idst = i_gid isrc ∧
    Z.land (i_perm idst) 4095 = Z.land (i_perm isrc) 4095.
Proof.
  intros [Hlchown Hlchmod] Hcheck Hok Hsrc.
  set (so := object_for fs src dest) in *.
  assert (result_of (check cfg plat so fs) = Ret (true, m)) as Hr
    by by rewrite Hcheck.
  destruct (check_returns_handler cfg plat so fs _ Hr) as [v Hv].
  destruct (fs !! src) as [isrc|] eqn:Hs.
  2:{ rewrite (vnode_obj_missing plat) in Hv; [done|].
      unfold so, object_for, stat_in. simpl. by rewrite Hs. }
  assert (src_stat so = snapshot isrc) as Hss.
  { unfold so, object_for, stat_in. simpl. by rewrite Hs. }
  pose proof (vnode_obj_run plat no_faults so fs isrc Hs Hss) as Hv'.
  rewrite Hv' in Hv. clear Hv'.
  change (src_path so) with src in Hv. change (dest_path so) with dest in Hv.
  destruct (handler_class src isrc) as [c|] eqn:Hc; [|done].
  rewrite Hss in Hv. cbn [fmap option_fmap option_map] in Hv.
  injection Hv as <-.
  set (v := Build_VNode dest (snapshot isrc) (stat_exists (dest_stat so)) c).
  assert (result_of (vnode_obj plat so fs) = Ret (Some v)) as Hv.
  { rewrite (vnode_obj_run plat no_faults so fs isrc Hs Hss).
    change (src_path so) with src. change (dest_path so) with dest.
    by rewrite Hc, Hss. }
  destruct (check_replaces cfg plat so fs v Hv) as [(m' & Hr' & _) Hfix].
  rewrite Hr in Hr'. injection Hr' as Hrep _. symmetry in Hrep.
  destruct (check_replaces_events plat cfg so fs v Hv Hrep) as [pre Hpre].
  specialize (Hfix Hrep).
  rewrite Hcheck in Hfix, Hpre. simpl in Hfix, Hpre. subst l1.
  apply effects_succeeded_app in Hok as [_ Hok].
  destruct (fix_ok plat no_faults cfg wet v fs) as (i0 & fs2 & Hmade & Hne & Hfs);
    [| |done|].
  { unfold v, so, object_for, stat_in. simpl. by destruct (fs !! dest). }
  { done. }
  rewrite <- Hfix in Hfs. change (name v) with dest in Hfs.
  exists isrc, (repaired plat v i0).
  destruct (repaired_owner plat v i0) as [Hu Hg].
  split_and!; try done.
  - rewrite Hfs. apply lookup_insert_eq.
  - rewrite repaired_node.
    apply (created_same_content plat v src isrc fs2 i0); [done| |done].
    intros s Hcls. pose proof (Hne s Hcls) as Hne'.
    change (cls v) with c in Hcls. rewrite Hcls in Hc.
    unfold handler_class in Hc.
    assert (s = src) as -> by (destruct (i_node isrc); congruence).
    rewrite <- Hsrc, Hfs. by rewrite lookup_insert_ne.
  - symmetry. apply (repaired_perm plat v src isrc fs2 i0); try done.
    destruct Hlchmod as [?|Hall]; [by left|]. right. by apply (Hall src).
Qed.

(** X15.  What [create] makes, the next [compare] accepts.  When the
    destination is missing and no call fails, [create] makes one entry,
    at the destination and of the type of the source, and leaves every
    other path alone; the handler that [vnode_obj] then builds for the
    pair finds the new entry equal to the source. *)
Theorem create_then_compare (cfg' : Config) (src dest : string) (fs : FS)
    (isrc : inode) (c : vnode_class) :
  fs !! src = Some isrc →
  fs !! dest = None →
  handler_class src isrc = Some c →
  let fs' := fs_of (create cfg plat (Build_VNode dest (snapshot isrc) false c) fs) in
  ∃ idst,
    fs' !! dest = Some idst ∧
    (∀ k, k ≠ dest → fs' !! k = fs !! k) ∧
    entry_type_of_node (i_node idst) = entry_type_of_node (i_node isrc) ∧
    result_of (compare cfg' plat (Build_VNode dest (snapshot isrc) true c) src
                 (snapshot idst) fs') = Ret true.
Proof.
  intros Hs Hd Hc fs'.
  set (v := Build_VNode dest (snapshot isrc) false c) in *.
  assert (effects_succeeded (events_of (create cfg plat v fs))) as Hok.
  { unfold create, VNodeFile_create, VNodeDir_create, VNodeLink_create,
      VNodeFifo_create, VNodeDev_create, os_path_exists. rewrite wet.
    unfold_os. unfold handler_class in Hc.
    destruct (i_node isrc) eqn:En; try done; injection Hc as <-; simpl;
      unfold try_except, sys_call, bind, change, query; unfold_out;
      rewrite ?no_faults; simpl;
      rewrite ?(device_mode_node true), ?(device_mode_node false);
      unfold copy_step, create_step; rewrite ?Hd, ?Hs; simpl;
      rewrite ?En, ?Hd; simpl; try done.
    by rewrite bool_decide_eq_false_2 by congruence. }
  destruct (create_ok plat no_faults cfg wet v fs Hd Hok)
    as (i0 & Hmade & Hfs & Hne).
  change (name v) with dest in Hfs. subst fs'. rewrite Hfs.
  assert (same_content (i_node isrc) (i_node i0)) as Hsame.
  { apply (created_same_content plat v src isrc fs i0); [done| |done].
    intros s Hcls. change (cls v) with c in Hcls. rewrite Hcls in Hc.
    unfold handler_class in Hc.
    by assert (s = src) as -> by (destruct (i_node isrc); congruence). }
  exists i0. split_and!.
  - apply lookup_insert_eq.
  - intros k Hk. by rewrite lookup_insert_ne.
  - symmetry. by apply same_content_type.
  - apply (compare_same_content plat no_faults); try done.
    + rewrite lookup_insert_ne; [done|]. congruence.
    + apply lookup_insert_eq.
Qed.
End Made.

(** ** More on single methods *)

Section Methods.
Context `{Hashlib, DevNumbers, LibText}.
Context (cfg : Config) (plat : Platform).

(** X16.  [compare] never raises and never changes the filesystem,
    whatever call fails: it returns a boolean, and none of its calls is
    one that could change anything. *)
Theorem compare_only_looks (v : VNode) (src_path : string)
    (dest_stat : SyncStat) (fs : FS) :
  ∃ b l, compare cfg plat v src_path dest_stat fs = (Ret b, fs, l)
         ∧ mutations l = [].
Proof.
  destruct (compare_read_only cfg plat v src_path dest_stat fs) as [Hfs Hm].
  destruct (compare_returns cfg plat v src_path dest_stat fs)
    as (b & fs' & l & E).
  rewrite E in Hfs, Hm. simpl in *. subst fs'. by exists b, l.
Qed.

(** X17.  [compare] of a symbolic link returns true exactly when the
    destination existed when the handler was made, [readlink] of the
    destination works and gives the target of the source; for a handler
    made for a missing destination it returns false without any call. *)
Theorem link_compare_decides (v : VNode) (oldpath src_path : string)
    (dest_stat : SyncStat) (fs : FS) :
  cls v = VNodeLink oldpath →
  (result_of (compare cfg plat v src_path dest_stat fs) = Ret true ↔
   vexists v = true ∧ faulty plat (Readlink (name v)) = false ∧
   ∃ i, fs !! name v = Some i ∧ i_node i = Symlink oldpath) ∧
  (vexists v = false →
   compare cfg plat v src_path dest_stat fs = (Ret false, fs, [])).
Proof.
  intros Hcls. unfold compare, VNodeLink_compare. rewrite Hcls.
  destruct (vexists v); simpl.
  2:{ split; [|done]. split; [done|]. by intros [? _]. }
  split; [|done].
  unfold os_readlink, try_except, sys_call, bind, query. unfold_out.
  destruct (faulty plat (Readlink (name v))); simpl.
  { split; [done|]. by intros (_ & ? & _). }
  destruct (fs !! name v) as [i|]; simpl.
  2:{ split; [done|]. by intros (_ & _ & ? & ? & _). }
  destruct (i_node i) as [data| |t| |r|r|] eqn:En; simpl;
    try (split; [done|]; intros (_ & _ & ? & [= <-] & ?); congruence).
  destruct (bool_decide_reflect (oldpath ≠ t)) as [Hne|Heq]; simpl.
  - split; [done|]. intros (_ & _ & ? & [= <-] & E). congruence.
  - apply dec_stable in Heq as ->. split; [|done]. intros _.
    split_and!; try done. by exists i.
Qed.

(** X18.  [compare] of a device returns true exactly when the
    destination existed when the handler was made, [lstat] of the
    destination works, and the major and minor numbers it shows are those
    of the source.  It does not look at what kind of entry carries the
    numbers. *)
Theorem device_compare_decides (v : VNode) (st : stat_result)
    (src_path : string) (dest_stat : SyncStat) (fs : FS) :
  cls v = VNodeChrDev st ∨ cls v = VNodeBlkDev st →
  result_of (compare cfg plat v src_path dest_stat fs) = Ret true ↔
  vexists v = true ∧ faulty plat (Lstat (name v)) = false ∧
  ∃ i, fs !! name v = Some i ∧
       major (node_rdev (i_node i)) = major (st_rdev st) ∧
       minor (node_rdev (i_node i)) = minor (st_rdev st).
Proof.
  intros Hcls.
  assert (compare cfg plat v src_path dest_stat = VNodeDev_compare plat v st)
    as -> by (unfold compare; by destruct Hcls as [-> | ->]).
  unfold VNodeDev_compare.
  destruct (vexists v); simpl; [|split; [done|by intros [? _]]].
  unfold os_lstat, try_except, sys_call, bind, query. unfold_out.
  destruct (faulty plat (Lstat (name v))); simpl.
  { split; [done|]. by intros (_ & ? & _). }
  destruct (fs !! name v) as [i|]; simpl.
  2:{ split; [done|]. by intros (_ & _ & ? & ? & _). }
  destruct (bool_decide_reflect (major (st_rdev st) ≠ major (node_rdev (i_node i))))
    as [Hne|Heq]; simpl.
  { split; [done|]. intros (_ & _ & ? & [= <-] & E & _). congruence. }
  destruct (bool_decide_reflect (minor (st_rdev st) ≠ minor (node_rdev (i_node i))))
    as [Hne'|Heq']; simpl.
  { split; [done|]. intros (_ & _ & ? & [= <-] & _ & E). congruence. }
  apply dec_stable in Heq, Heq'. split; [|done]. intros _.
  split_and!; try done. by exists i.
Qed.

(** X19.  [create] of a directory never changes a path that holds an
    entry already, whatever the entry is.  When that entry is no symbolic
    link and the look at the path does not fail, [create] does nothing at
    all: it looks once and returns.  When nothing is there and this is
    not a dry run, its one changing call is [mkdir] with the permission
    bits of the source. *)
Theorem dir_create_existing (v : VNode) (fs : FS) :
  cls v = VNodeDir →
  (∀ i, fs !! name v = Some i →
     fs_of (create cfg plat v fs) = fs ∧
     (is_symlink i = false → faulty plat (Stat (name v)) = false →
      create cfg plat v fs = (Ret tt, fs, [EvSys (Stat (name v)) true]))) ∧
  (fs !! name v = None → DRY_RUN cfg = false →
   mutations (events_of (create cfg plat v fs))
   = [Mkdir (name v) (Z.land (mode (stat v)) 4095)]).
Proof.
  intros Hcls. unfold create, VNodeDir_create, os_path_exists.
  rewrite Hcls. unfold_os.
  unfold try_except, sys_call, bind, query, change, create_step. unfold_out.
  split.
  - intros i Hi. rewrite Hi. split.
    + destruct (faulty plat (Stat (name v))); simpl;
        [|destruct (is_symlink i); simpl; [|done]];
        (destruct (DRY_RUN cfg); simpl; [done|]);
        (destruct (faulty plat (Mkdir (name v) _)); simpl; [done|]);
        by rewrite Hi.
    + intros Hsym Hstat. by rewrite Hstat; simpl; rewrite Hsym.
  - intros Hnone wet. rewrite wet.
    destruct (faulty plat (Stat (name v))); simpl; rewrite ?Hnone; simpl;
      (destruct (faulty plat (Mkdir (name v) _)); simpl; [done|]);
      by rewrite ?Hnone.
Qed.

(** X20.  Without dry run, [harddelete] of anything but a directory
    writes the log line [deleted] exactly when [unlink] has removed the
    entry; then the entry is gone and nothing else has changed.
    Otherwise the filesystem is as it was and the failure is reported. *)
Theorem harddelete_logs_what_it_deleted (v : VNode) (fs : FS) :
  cls v ≠ VNodeDir →
  DRY_RUN cfg = false →
  let o := harddelete cfg plat v fs in
  (EvLog ("deleted " +:+ name v) ∈ events_of o ↔
   faulty plat (Unlink (name v)) = false ∧
   ∃ i, fs !! name v = Some i ∧ is_dir_node i = false) ∧
  (EvLog ("deleted " +:+ name v) ∈ events_of o →
   fs_of o = delete (name v) fs) ∧
  (EvLog ("deleted " +:+ name v) ∉ events_of o →
   fs_of o = fs ∧ EvTerse TERSE_FAIL ("delete " +:+ name v) ∈ events_of o).
Proof.
  intros Hcls wet o.
  assert (o = VNode_harddelete cfg plat v fs) as ->.
  { unfold o, harddelete. by destruct (cls v). }
  unfold VNode_harddelete, os_unlink, try_except_else, sys_call, bind, change,
    unlink_step. unfold_out. rewrite wet. simpl.
  set (deleted := EvLog ("deleted " +:+ name v)).
  assert (∀ e l, e ≠ deleted → deleted ∈ e :: l ↔ deleted ∈ l) as Hskip.
  { intros e l He. split; [|apply list_elem_of_further].
    intros [?|?]%elem_of_cons; [congruence|done]. }
  destruct (faulty plat (Unlink (name v))); simpl.
  { rewrite !Hskip, elem_of_nil by done.
    split_and!; [split; [done|by intros [? _]] | done |].
    intros _. split; [done|]. do 6 apply list_elem_of_further.
    apply list_elem_of_here. }
  destruct (fs !! name v) as [i|]; simpl.
  2:{ rewrite !Hskip, elem_of_nil by done.
      split_and!; [split; [done|by intros (_ & ? & ? & _)] | done |].
      intros _. split; [done|]. do 6 apply list_elem_of_further.
      apply list_elem_of_here. }
  destruct (is_dir_node i) eqn:Hdir; simpl.
  { rewrite !Hskip, elem_of_nil by done.
    split_and!;
      [split; [done|intros (_ & ? & [= <-] & ?); congruence] | done |].
    intros _. split; [done|]. do 6 apply list_elem_of_further.
    apply list_elem_of_here. }
  rewrite !Hskip by done.
  split_and!; [split; [by eauto|intros _; apply list_elem_of_here] | done |].
  intros []. apply list_elem_of_here.
Qed.
End Methods.

(** * synctool_aggr *)

(** ** Splitting a line *)

Lemma split_spec sep s :
  ∃ f fs, split sep s = (f :: fs) ∧ (sep ∉ String.list_ascii_of_string f) ∧
          ((fs = [] ∧ s = f) ∨
           (∃ rest, fs = split sep rest ∧ s = f +:+ String sep rest)).
Proof.
  induction s as [|c s (f & fs & E & Hf & IH)]; simpl.
  - exists "", []. split_and!; [done|apply not_elem_of_nil|by left].
  - destruct (decide (c = sep)) as [->|Hc].
    + exists "", (split sep s). split_and!; [done|apply not_elem_of_nil|].
      right. by exists s.
    + rewrite E. exists (String c f), fs. split_and!; [done| |].
      * simpl. rewrite not_elem_of_cons. split; [congruence|done].
      * destruct IH as [[-> ->]|(rest & -> & ->)]; [by left|].
        right. by exists rest.
Qed.

Lemma join_cons sep w w' ws :
  join sep (w :: w' :: ws) = w +:+ sep +:+ join sep (w' :: ws).
Proof. done. Qed.

Lemma join_split sep s : join (String sep "") (split sep s) = s.
Proof.
  induction s as [|c s IH]; simpl; [done|].
  destruct (split_spec sep s) as (f & fs & E & _).
  destruct (decide (c = sep)) as [->|Hc].
  - rewrite E in IH |- *. rewrite join_cons, IH. done.
  - rewrite E in IH |- *. destruct fs as [|f' fs].
    + simpl in *. by rewrite IH.
    + rewrite join_cons in IH |- *. rewrite string_app_cons. by rewrite IH.
Qed.

Lemma split_app sep node out :
  sep ∉ String.list_ascii_of_string node →
  split sep (node +:+ String sep out) = node :: split sep out.
Proof.
  induction node as [|c node IH]; intros Hn.
  - change ("" +:+ String sep out) with (String sep out). simpl.
    by rewrite decide_True.
  - simpl in Hn. apply not_elem_of_cons in Hn as [Hc Hn].
    rewrite string_app_cons. simpl.
    rewrite decide_False by congruence. by rewrite (IH Hn).
Qed.

Lemma list_of_string_app (a b : string) :
  String.list_ascii_of_string (a +:+ b)
  = String.list_ascii_of_string a ++ String.list_ascii_of_string b.
Proof.
  induction a as [|c a IH]; [done|]. rewrite string_app_cons. simpl.
  by rewrite IH.
Qed.

Lemma labelled_Some line node output :
  labelled line = Some (node, output) ↔
  line = node +:+ ":" +:+ output ∧ ":"%char ∉ String.list_ascii_of_string node.
Proof.
  unfold labelled. split.
  - destruct (split_spec ":" line) as (f & fs & E & Hf & Hs). rewrite E.
    destruct Hs as [[-> ->]|(rest & -> & ->)]; [done|].
    destruct (split_spec ":" rest) as (f' & fs' & E' & _).
    rewrite E'.
    change (Some (f, join ":" (f' :: fs')) = Some (node, output)
            → f +:+ String ":" rest = node +:+ ":" +:+ output
              ∧ ":"%char ∉ String.list_ascii_of_string node).
    rewrite <- E', join_split. by intros [= <- <-].
  - intros [-> Hn].
    change (":" +:+ output) with (String ":" output).
    rewrite (split_app _ _ _ Hn).
    destruct (split_spec ":" output) as (f' & fs' & E' & _).
    rewrite E'.
    change (Some (node, join ":" (f' :: fs')) = Some (node, output)).
    by rewrite <- E', join_split.
Qed.

Lemma labelled_None line :
  labelled line = None ↔ ":"%char ∉ String.list_ascii_of_string line.
Proof.
  unfold labelled.
  destruct (split_spec ":" line) as (f & fs & E & Hf & Hs). rewrite E.
  destruct Hs as [[-> ->]|(rest & -> & ->)]; [done|].
  destruct (split_spec ":" rest) as (f' & fs' & E' & _). rewrite E'.
  split; [done|]. intros Hn. exfalso. apply Hn.
  rewrite list_of_string_app. simpl. apply elem_of_app. right.
  apply list_elem_of_here.
Qed.

(** X21.  A line is taken apart at its first colon: its node is the text
    before the first colon and its output all the text after it, further
    colons included; a line without a colon has no node. *)
Theorem labelled_first_colon (line : string) :
  (∀ node output,
     labelled line = Some (node, output) ↔
     line = node +:+ ":" +:+ output
     ∧ ":"%char ∉ String.list_ascii_of_string node) ∧
  (labelled line = None ↔ ":"%char ∉ String.list_ascii_of_string line).
Proof. split; [apply labelled_Some | apply labelled_None]. Qed.

(** ** Lines without a node *)

Lemma lstrip_elem c l : c ∈ lstrip l → c ∈ l.
Proof.
  induction l as [|x l IH]; simpl; [done|].
  destruct (is_space x); [|done]. intros ?. apply list_elem_of_further. auto.
Qed.

Lemma strip_elem c s :
  c ∈ String.list_ascii_of_string (strip s) → c ∈ String.list_ascii_of_string s.
Proof.
  unfold strip. rewrite String.list_ascii_of_string_of_list_ascii.
  rewrite !list_elem_of_In, <- !in_rev, <- !list_elem_of_In.
  intros ?%lstrip_elem. rewrite list_elem_of_In, <- in_rev, <- list_elem_of_In in H.
  by apply lstrip_elem.
Qed.

Lemma collect_plain printed m lines :
  (∀ line, line ∈ lines → labelled line = None) →
  foldl collect (printed, m) lines = (printed ++ lines, m).
Proof.
  revert printed. induction lines as [|line lines IH]; intros printed Hl; simpl.
  - by rewrite app_nil_r.
  - rewrite (Hl line) by apply list_elem_of_here.
    rewrite IH, <- app_assoc; [done|].
    intros l ?. apply Hl. by apply list_elem_of_further.
Qed.

(** X22.  When no line has a colon, [aggregate] prints every line,
    stripped of the whitespace around it, in the order of the input, and
    nothing else; of an empty input it prints nothing. *)
Theorem aggregate_plain (lines : list string) :
  (∀ line, line ∈ lines → ":"%char ∉ String.list_ascii_of_string line) →
  aggregate lines = Some (strip <$> lines).
Proof.
  intros Hl. unfold aggregate. destruct lines as [|l0 lines]; [done|].
  rewrite collect_plain.
  - by rewrite map_to_list_empty.
  - intros line (l & -> & Hin)%list_elem_of_fmap. apply labelled_None.
    intros ?%strip_elem. by apply (Hl l).
Qed.

(** ** The two loops *)

Lemma outputs_of_cons node n o tagged :
  outputs_of node ((n, o) :: tagged)
  = if decide (n = node) then o :: outputs_of node tagged
    else outputs_of node tagged.
Proof.
  unfold outputs_of. rewrite filter_cons. simpl.
  by destruct (decide (n = node)).
Qed.

(** What a node has after the first loop: what it had, and then its
    outputs. *)
Lemma collect_spec printed (m : gmap string (list string)) lines :
  ∃ m',
    foldl collect (printed, m) lines
    = (printed ++ filter (λ l, labelled l = None) lines, m') ∧
    ∀ n, m' !! n
         = match m !! n, outputs_of n (omap labelled lines) with
           | None, [] => None
           | None, outs => Some outs
           | Some had, outs => Some (had ++ outs)
           end.
Proof.
  revert printed m. induction lines as [|line lines IH]; intros printed m.
  - exists m. split; [by rewrite app_nil_r|]. intros n. simpl.
    destruct (m !! n); by rewrite ?app_nil_r.
  - rewrite filter_cons. simpl.
    destruct (labelled line) as [[node output]|] eqn:El; simpl.
    + destruct (m !! node) as [had|] eqn:Em.
      * destruct (IH printed (<[node := had ++ [output]]> m)) as (m' & -> & Hm').
        exists m'. split; [done|]. intros n. rewrite Hm', outputs_of_cons.
        destruct (decide (node = n)) as [->|Hne].
        -- rewrite lookup_insert_eq, Em. by rewrite <- app_assoc.
        -- by rewrite lookup_insert_ne.
      * destruct (IH printed (<[node := [output]]> m)) as (m' & -> & Hm').
        exists m'. split; [done|]. intros n. rewrite Hm', outputs_of_cons.
        destruct (decide (node = n)) as [->|Hne].
        -- by rewrite lookup_insert_eq, Em.
        -- by rewrite lookup_insert_ne.
    + destruct (IH (printed ++ [line]) m) as (m' & -> & Hm').
      exists m'. by rewrite <- app_assoc.
Qed.

Lemma list_remove_first_middle x (kept rest : list string) :
  x ∉ kept → list_remove_first x (kept ++ x :: rest) = Some (kept ++ rest).
Proof.
  induction kept as [|y kept IH]; simpl; intros Hx.
  - by rewrite decide_True.
  - apply not_elem_of_cons in Hx as [Hne Hx].
    rewrite decide_False by done. by rewrite IH.
Qed.

Lemma filter_ext_in {A} (P Q : A → Prop) `{∀ x, Decision (P x)}
    `{∀ x, Decision (Q x)} (l : list A) :
  (∀ x, x ∈ l → P x ↔ Q x) → filter P l = filter Q l.
Proof.
  induction l as [|x l IH]; intros Hl; [done|].
  rewrite !filter_cons.
  assert (filter P l = filter Q l) as ->.
  { apply IH. intros y ?. apply Hl. by apply list_elem_of_further. }
  destruct (decide (P x)) as [HP|HP], (decide (Q x)) as [HQ|HQ]; try done;
    exfalso; apply (Hl x) in HP || apply (Hl x) in HQ;
    done || apply list_elem_of_here.
Qed.

(** The inner loop moves the nodes of the copy that have the output
    [out] from the list to the node list, and leaves the others. *)
Lemma merge_same_spec out copy nodelist (m : gmap string (list string)) kept :
  NoDup (kept ++ copy) →
  (∀ n, n ∈ copy → is_Some (m !! n)) →
  ∃ m',
    merge_same out copy (nodelist, m, kept ++ copy)
    = Some (nodelist ++ filter (λ n, m !! n = Some out) copy, m',
            kept ++ filter (λ n, m !! n ≠ Some out) copy) ∧
    ∀ n, m !! n ≠ Some out → m' !! n = m !! n.
Proof.
  revert nodelist m kept.
  induction copy as [|node2 copy IH]; intros nodelist m kept Hnd Hin.
  - exists m. by rewrite !app_nil_r.
  - assert ((node2 ∉ kept) ∧ (node2 ∉ copy) ∧ NoDup (kept ++ copy))
      as (Hk & Hc & Hnd').
    { apply NoDup_app in Hnd as (Hnk & Hdisj & Hnc).
      apply NoDup_cons in Hnc as [Hc Hnc]. split_and!; [|done|].
      - intros ?. apply (Hdisj node2); [done|apply list_elem_of_here].
      - apply NoDup_app. split_and!; [done| |done].
        intros x ? ?. apply (Hdisj x); [done|by apply list_elem_of_further]. }
    destruct (Hin node2) as [out2 E2]; [apply list_elem_of_here|].
    simpl. rewrite E2. simpl. rewrite !filter_cons.
    destruct (decide (out = out2)) as [<-|Hne].
    + rewrite decide_True by done. rewrite decide_False by auto.
      rewrite (list_remove_first_middle _ _ _ Hk). simpl.
      destruct (IH (nodelist ++ [node2]) (delete node2 m) kept Hnd')
        as (m' & -> & Hm').
      { intros n Hn. rewrite lookup_delete_ne by congruence.
        apply Hin. by apply list_elem_of_further. }
      exists m'. split.
      * rewrite <- app_assoc. simpl.
        rewrite (filter_ext_in (λ n, delete node2 m !! n = Some out)
                   (λ n, m !! n = Some out) copy).
        2:{ intros n Hn. by rewrite lookup_delete_ne by congruence. }
        rewrite (filter_ext_in (λ n, delete node2 m !! n ≠ Some out)
                   (λ n, m !! n ≠ Some out) copy).
        2:{ intros n Hn. by rewrite lookup_delete_ne by congruence. }
        done.
      * intros n Hn. destruct (decide (n = node2)) as [->|Hn2]; [done|].
        rewrite <- (lookup_delete_ne m node2 n) by done.
        apply Hm'. by rewrite lookup_delete_ne by done.
    + rewrite decide_False by congruence. rewrite decide_True by congruence.
      replace (kept ++ node2 :: copy) with ((kept ++ [node2]) ++ copy)
        by by rewrite <- app_assoc.
      destruct (IH nodelist m (kept ++ [node2])) as (m' & -> & Hm').
      { by rewrite <- app_assoc. }
      { intros n Hn. apply Hin. by apply list_elem_of_further. }
      exists m'. split; [|done]. by rewrite <- !app_assoc.
Qed.

Lemma elem_of_concat {A} (x : A) (ls : list (list A)) :
  x ∈ concat ls ↔ ∃ l, l ∈ ls ∧ x ∈ l.
Proof.
  rewrite list_elem_of_In, in_concat.
  split; intros (l & ? & ?); exists l; by rewrite ?list_elem_of_In in *.
Qed.

(** The groups that the second loop prints. *)
Lemma group_loop_spec fuel nodes (m : gmap string (list string)) :
  (length nodes ≤ fuel)%nat →
  NoDup nodes →
  (∀ n, n ∈ nodes → is_Some (m !! n)) →
  ∃ groups : list (list string * list string),
    group_loop fuel nodes m = Some (groups ≫= render) ∧
    concat groups.*1 ≡ₚ nodes ∧
    (∀ nl out, (nl, out) ∈ groups →
               nl ≠ [] ∧ ∀ n, n ∈ nl → m !! n = Some out) ∧
    NoDup groups.*2 ∧
    (∀ nl out, (nl, out) ∈ groups → nl `sublist_of` nodes) ∧
    omap (λ g, head g.1) groups `sublist_of` nodes.
Proof.
  revert nodes m. induction fuel as [|fuel IH]; intros nodes m Hlen Hnd Hin.
  { destruct nodes; [|simpl in Hlen; lia].
    exists []. split_and!; try done; try (by intros ?? ?%elem_of_nil);
      constructor. }
  destruct nodes as [|node nodes1].
  { exists []. split_and!; try done; try (by intros ?? ?%elem_of_nil);
      constructor. }
  apply NoDup_cons in Hnd as [Hnode Hnd1].
  destruct (Hin node) as [out Eout]; [apply list_elem_of_here|].
  destruct (merge_same_spec out nodes1 [node] m [] Hnd1) as (m' & Em & Hm').
  { intros n Hn. apply Hin. by apply list_elem_of_further. }
  set (same := filter (λ n, m !! n = Some out) nodes1) in *.
  set (others := filter (λ n, m !! n ≠ Some out) nodes1) in *.
  assert (∀ n, n ∈ others → m' !! n = m !! n) as Hkeep.
  { intros n [Hn _]%list_elem_of_filter. by apply Hm'. }
  destruct (IH others m') as (groups & Eg & Hperm & Hmem & Hout & Hsub & Hheads).
  { pose proof (length_filter (λ n, m !! n ≠ Some out) nodes1).
    simpl in Hlen. unfold others. lia. }
  { by apply NoDup_filter. }
  { intros n Hn. rewrite (Hkeep n Hn). apply Hin.
    apply list_elem_of_further. by apply list_elem_of_filter in Hn as [_ ?]. }
  assert (∀ nl o n, (nl, o) ∈ groups → n ∈ nl → n ∈ others) as Hothers.
  { intros nl o n Hg Hn. rewrite <- Hperm. apply elem_of_concat.
    exists nl. split; [|done]. apply list_elem_of_fmap. by exists (nl, o). }
  exists ((node :: same, out) :: groups). split_and!.
  - cbn [group_loop]. rewrite Eout. cbn [mbind option_bind].
    simpl in Em. rewrite Em. cbn [mbind option_bind]. rewrite Eg. done.
  - simpl. constructor. rewrite Hperm. apply filter_app_complement.
  - intros nl o [[= -> ->]|Hg]%elem_of_cons.
    + split; [done|]. intros n [->|Hn]%elem_of_cons; [done|].
      by apply list_elem_of_filter in Hn as [? _].
    + destruct (Hmem nl o Hg) as [Hne Hall]. split; [done|].
      intros n Hn. rewrite <- (Hkeep n); [by apply Hall|]. by eapply Hothers.
  - simpl. apply NoDup_cons. split; [|done].
    intros ((nl & o) & -> & Hg)%list_elem_of_fmap. simpl in *.
    destruct (Hmem nl o Hg) as [Hne Hall].
    destruct nl as [|n0 nl]; [done|].
    assert (n0 ∈ others) as Ho by (eapply Hothers; [done|apply list_elem_of_here]).
    pose proof (Hall n0 (list_elem_of_here _ _)) as E.
    rewrite (Hkeep n0 Ho) in E.
    by apply list_elem_of_filter in Ho as [? _].
  - intros nl o [[= -> ->]|Hg]%elem_of_cons.
    + apply sublist_skip, sublist_filter.
    + apply sublist_cons. etrans; [by eapply Hsub|]. apply sublist_filter.
  - simpl. apply sublist_skip. etrans; [done|]. apply sublist_filter.
Qed.

(** ** The order of the nodes *)

Lemma string_compare_lt_trans (a b c : string) :
  String.compare a b = Lt → String.compare b c = Lt → String.compare a c = Lt.
Proof.
  revert b c. induction a as [|x a IH]; intros [|y b] [|z c]; simpl; try done.
  unfold Ascii.compare.
  destruct (N.compare_spec (N_of_ascii x) (N_of_ascii y)) as [Exy|Hxy|Hxy];
    try done;
    destruct (N.compare_spec (N_of_ascii y) (N_of_ascii z)) as [Eyz|Hyz|Hyz];
    try done; intros H1 H2.
  - rewrite Exy, Eyz, N.compare_refl. by apply (IH b).
  - rewrite Exy. by apply N.compare_lt_iff in Hyz as ->.
  - rewrite <- Eyz. by apply N.compare_lt_iff in Hxy as ->.
  - assert (N_of_ascii x < N_of_ascii z)%N as Hxz by lia.
    by apply N.compare_lt_iff in Hxz as ->.
Qed.

Lemma string_le_cases a b :
  string_le a b ↔ a = b ∨ String.compare a b = Lt.
Proof.
  unfold string_le, String.leb.
  destruct (String.compare a b) eqn:E.
  - apply String.compare_eq_iff in E as ->. split; auto.
  - split; auto.
  - split; [done|]. intros [->|?]; [|done].
    assert (String.compare b b = Eq) as Hb; [|congruence].
    clear E. induction b as [|x b IH]; [done|]. simpl.
    unfold Ascii.compare. by rewrite N.compare_refl.
Qed.

#[global] Instance string_le_trans : Transitive string_le.
Proof.
  intros a b c [->|Hab]%string_le_cases [->|Hbc]%string_le_cases;
    apply string_le_cases; auto.
  right. by apply (string_compare_lt_trans a b c).
Qed.

#[global] Instance string_le_total : Total string_le.
Proof. intros a b. apply String.leb_total. Qed.

Lemma sublist_elem {A} (l k : list A) x :
  l `sublist_of` k → x ∈ l → x ∈ k.
Proof.
  induction 1 as [|y l k Hs IH|y l k Hs IH]; [done|..].
  - intros [->|?]%elem_of_cons; [apply list_elem_of_here|].
    apply list_elem_of_further. auto.
  - intros ?. apply list_elem_of_further. auto.
Qed.

Lemma StronglySorted_sublist {A} (R : relation A) (l k : list A) :
  l `sublist_of` k → StronglySorted R k → StronglySorted R l.
Proof.
  induction 1 as [|x l k Hs IH|x l k Hs IH]; intros Hk; [done|..].
  - apply StronglySorted_inv in Hk as [Hk Hx]. constructor; [auto|].
    rewrite Forall_forall in Hx |- *. intros y Hy. apply Hx.
    by eapply sublist_elem.
  - apply StronglySorted_inv in Hk as [Hk _]. auto.
Qed.

(** ** The groups *)

Lemma outputs_of_nil n (tagged : list (string * string)) :
  outputs_of n tagged = [] ↔ n ∉ tagged.*1.
Proof.
  induction tagged as [|[n' o] tagged IH]; simpl.
  - split; [intros _; apply not_elem_of_nil | done].
  - rewrite outputs_of_cons, not_elem_of_cons.
    destruct (decide (n' = n)) as [->|Hne].
    + split; [done|]. by intros [? _].
    + rewrite IH. split; [by split | by intros [_ ?]].
Qed.

(** X23.  [aggregate] never raises.  It prints the lines without a node
    first, in their order, and then one group for each distinct output: a
    line with the nodes of the group, separated by commas and followed by
    a colon, and then the output lines.  Every node of the input is in the
    node list of exactly one group; the output of a group is what each of
    its nodes has sent, in the order of the input; no two groups have the
    same output; and the nodes of a group, and the groups by their first
    node, are in the order of the strings. *)
Theorem aggregate_groups (lines : list string) :
  let stripped := strip <$> lines in
  let tagged := omap labelled stripped in
  ∃ groups : list (list string * list string),
    aggregate lines
    = Some (filter (λ l, labelled l = None) stripped ++ (groups ≫= render)) ∧
    NoDup (concat groups.*1) ∧
    (∀ n, n ∈ concat groups.*1 ↔ n ∈ tagged.*1) ∧
    (∀ nl out n, (nl, out) ∈ groups → n ∈ nl → out = outputs_of n tagged) ∧
    NoDup groups.*2 ∧
    (∀ nl out, (nl, out) ∈ groups → nl ≠ [] ∧ StronglySorted string_le nl) ∧
    StronglySorted string_le (omap (λ g, head g.1) groups).
Proof.
  intros stripped tagged.
  destruct lines as [|l0 lines].
  { exists []. subst tagged stripped. split_and!; simpl; try done;
      first [by apply NoDup_nil | by apply SSorted_nil
            | by intros ?? ?%elem_of_nil
            | by intros ??? ?%elem_of_nil]. }
  destruct (collect_spec [] ∅ stripped) as (m & Ec & Hm).
  fold tagged in Hm.
  assert (∀ n, is_Some (m !! n) ↔ n ∈ tagged.*1) as Hsome.
  { intros n. rewrite Hm, lookup_empty.
    pose proof (outputs_of_nil n tagged) as Hnil.
    destruct (outputs_of n tagged) as [|o outs].
    - split; [by intros [? ?]|]. intros ?. by apply Hnil in H.
    - split; [|by eauto]. intros _.
      destruct (decide (n ∈ tagged.*1)) as [|Hn]; [done|].
      by apply Hnil in Hn. }
  assert (∀ n out, m !! n = Some out → out = outputs_of n tagged) as Hout.
  { intros n out. rewrite Hm, lookup_empty.
    destruct (outputs_of n tagged); by intros [= <-]. }
  unfold aggregate. fold stripped. rewrite Ec. simpl.
  pose proof (NoDup_fst_map_to_list m) as Hnd0.
  assert (∀ n, n ∈ (map_to_list m).*1 ↔ is_Some (m !! n)) as Hkeys.
  { intros n. rewrite list_elem_of_fmap. split.
    - intros ([n' o] & -> & Hin). apply elem_of_map_to_list in Hin. by eexists.
    - intros [o Ho]. exists (n, o). split; [done|].
      by apply elem_of_map_to_list. }
  destruct ((map_to_list m).*1) as [|n0 ns] eqn:E0.
  { exists []. rewrite app_nil_r. split_and!; simpl; try done;
      first [by apply NoDup_nil | by apply SSorted_nil
            | by intros ?? ?%elem_of_nil
            | by intros ??? ?%elem_of_nil | idtac].
    intros n. by rewrite <- Hsome, <- Hkeys. }
  set (nodes := merge_sort string_le (n0 :: ns)).
  assert (nodes ≡ₚ n0 :: ns) as Hperm by apply merge_sort_Permutation.
  assert (StronglySorted string_le nodes) as Hsorted
    by apply (StronglySorted_merge_sort _).
  destruct (group_loop_spec (length nodes) nodes m)
    as (groups & Eg & Hp & Hmem & Hdiff & Hsub & Hheads).
  { done. }
  { by rewrite Hperm. }
  { intros n Hn. apply Hkeys. by rewrite <- Hperm. }
  exists groups. rewrite Eg. simpl. split_and!; try done.
  - by rewrite Hp, Hperm.
  - intros n. by rewrite Hp, Hperm, Hkeys, Hsome.
  - intros nl out n Hg Hn. apply Hout. by apply (Hmem nl out Hg).
  - intros nl out Hg. split; [by apply (Hmem nl out Hg)|].
    by apply (StronglySorted_sublist _ nl nodes); [eapply Hsub|].
  - by apply (StronglySorted_sublist _ _ nodes).
Qed.

(** * The properties on the small host *)

Section Examples.
#[local] Existing Instances plain_hashlib plain_devnumbers plain_libtext.


(** C2: the failing input.  The two files are equal and can be opened;
    the first read of the source fails.  [compare] returns false, and
    [check] goes on to replace the destination: it deletes it and copies
    the source over it. *)
Theorem unreadable_source_replaces_destination :
  let plat := linux [Read "/src/etc/motd" 0] in
  let so := object_for host_with_motd "/src/etc/motd" "/etc/motd" in
  size (src_stat so) = size (dest_stat so) ∧
  result_of (compare (run_cfg false false) plat etc_motd "/src/etc/motd"
               (dest_stat so) host_with_motd) = Ret false ∧
  result_of (check (run_cfg false false) plat so host_with_motd)
  = Ret (true, false) ∧
  mutations (events_of (check (run_cfg false false) plat so host_with_motd))
  = [Unlink "/etc/motd"; MkdirP "/etc"; Copy "/src/etc/motd" "/etc/motd";
     Chown "/etc/motd" 0 0; Chmod "/etc/motd" 420].
Proof. intros. split_and!; vm_compute; reflexivity. Qed.

(** C3: the failing input.  The source is a socket, for which
    [vnode_obj] has no handler, and the destination does not exist:
    [check] does not return [(true, false)], it raises. *)
Theorem socket_source_raises :
  let so := object_for host "/src/etc/sock" "/etc/sock" in
  stat_exists (dest_stat so) = false ∧
  check (run_cfg false false) (linux []) so host
  = (Raise (AttributeError "'NoneType' object has no attribute 'fix'"),
     host,
     [EvStdout "/etc/sock does not exist"; EvLog "creating /etc/sock"]).
Proof. intros. split_and!; vm_compute; reflexivity. Qed.

(** C8: the failing input.  The source is a symbolic link whose target
    can not be read: the error is caught and reported, [vnode_obj]
    returns [None], and [check] raises. *)
Theorem unreadable_link_raises :
  let plat := linux [Readlink "/src/etc/sh"] in
  let so := object_for host "/src/etc/sh" "/etc/sh" in
  is_link (src_stat so) = true ∧
  check (run_cfg false false) plat so host
  = (Raise (AttributeError "'NoneType' object has no attribute 'fix'"),
     host,
     [EvStdout "/etc/sh does not exist"; EvLog "creating /etc/sh";
      EvSys (Readlink "/src/etc/sh") false;
      EvStderr "error reading symlink /src/etc/sh : Input/output error";
      EvTerse TERSE_FAIL "/src/etc/sh"]).
Proof. intros. split_and!; vm_compute; reflexivity. Qed.

(** C9: the failing input.  [/etc/su] holds what the source holds and has
    its mode, 04755, but belongs to the user 500.  The first [check]
    gives it to root with one [chown], which succeeds, and reports
    changed metadata: the mode was compared before the [chown], which has
    taken the set-user-ID bit off.  The second [check] therefore finds
    the mode 0755, sets it with a [chmod] and reports changed metadata
    again; only then the destination is as the source has it. *)
Theorem setuid_file_needs_second_check :
  let cfg := run_cfg false false in
  let first :=
    check cfg (linux []) (object_for host_with_foreign_su "/src/etc/su" "/etc/su")
      host_with_foreign_su in
  let second :=
    check cfg (linux []) (object_for (fs_of first) "/src/etc/su" "/etc/su")
      (fs_of first) in
  result_of first = Ret (false, true) ∧
  effects_succeeded (events_of first) ∧
  mutations (events_of first) = [Chown "/etc/su" 0 0] ∧
  fs_of first !! "/src/etc/su" = host_with_foreign_su !! "/src/etc/su" ∧
  fs_of first !! "/etc/su" = Some (Inode (Reg hello) 493 0 0 0 0) ∧
  result_of second = Ret (false, true) ∧
  mutations (events_of second) = [Chmod "/etc/su" 2541] ∧
  fs_of second !! "/etc/su" = Some (su_file 0).
Proof. intros. split_and!; vm_compute; reflexivity. Qed.

(** The owner of [/etc/motd] differs, its mode does not: one [chown]. *)
Lemma check_metadata_facets_witness :
  let so := object_for host_with_foreign_motd "/src/etc/motd" "/etc/motd" in
  result_of (check (run_cfg false false) (linux []) so host_with_foreign_motd)
  = Ret (false, true) ∧
  mutations (events_of (check (run_cfg false false) (linux []) so
                          host_with_foreign_motd))
  = [Chown "/etc/motd" 0 0].
Proof.
  intros so.
  exact (check_metadata_facets (run_cfg false false) (linux []) so
           host_with_foreign_motd etc_motd
           ltac:(vm_compute; reflexivity) ltac:(vm_compute; reflexivity)
           ltac:(vm_compute; reflexivity) ltac:(vm_compute; reflexivity)).
Defined.




(** C7: the counterexample.  Backup copies are enabled and dry-run is
    off; [/etc/app] is a directory that is not empty.  [harddelete]
    returns, and the directory is where it was: it has not been renamed
    to [/etc/app.saved]. *)
Lemma dir_harddelete_with_backups_moves_nothing :
  let o := harddelete (run_cfg false true) (linux []) etc_app host in
  has_children "/etc/app" host = true ∧
  result_of o = Ret tt ∧
  fs_of o = host ∧
  fs_of o !! "/etc/app" = Some root_dir ∧
  fs_of o !! "/etc/app.saved" = None.
Proof. intros. split_and!; vm_compute; reflexivity. Qed.

(** Without backup copies the directory that is not empty is renamed. *)
Lemma dir_harddelete_nonempty_witness :
  let o := harddelete (run_cfg false false) (linux []) etc_app host in
  result_of o = Ret tt ∧
  mutations (events_of o)
  = [Rmdir "/etc/app"; Rename "/etc/app" "/etc/app.saved"].
Proof.
  intros o.
  destruct (dir_harddelete_nonempty (run_cfg false false) (linux []) etc_app
              host root_dir eq_refl ltac:(vm_compute; reflexivity)
              ltac:(vm_compute; reflexivity)) as [Hret Hmoved].
  destruct (Hmoved eq_refl eq_refl) as [Hcalls _].
  split; [exact Hret | exact Hcalls].
Defined.

(** With backup copies [harddelete] of [/etc/app] only talks. *)
Lemma dir_harddelete_with_backups_witness :
  harddelete (run_cfg false true) (linux []) etc_app host
  = (Ret tt, host,
     [EvStdout "removing /etc/app/"; EvUnixOut "rmdir /etc/app";
      EvTerse TERSE_DELETE "/etc/app/"]).
Proof.
  exact (proj1 (dir_harddelete_with_backups (run_cfg false true) (linux [])
                  etc_app host eq_refl eq_refl) eq_refl).
Defined.

(** The first [check] gives [/etc/motd], which belongs to the user 500,
    to root; a second one, here a dry run with backup copies, finds
    nothing to do. *)
Lemma check_idempotent_witness :
  let first :=
    check (run_cfg false false) (linux [])
      (object_for host_with_foreign_motd "/src/etc/motd" "/etc/motd")
      host_with_foreign_motd in
  result_of first = Ret (false, true) ∧
  effects_succeeded (events_of first) ∧
  fs_of first !! "/src/etc/motd" = host_with_foreign_motd !! "/src/etc/motd" ∧
  ∃ l2, check (run_cfg true true) (linux [])
          (object_for (fs_of first) "/src/etc/motd" "/etc/motd") (fs_of first)
        = (Ret (false, false), fs_of first, l2)
        ∧ mutations l2 = [].
Proof.
  intros first.
  assert (first = (Ret (false, true), fs_of first, events_of first)) as Hfirst
    by (vm_compute; reflexivity).
  assert (effects_succeeded (events_of first)) as Hok
    by (vm_compute; reflexivity).
  assert (fs_of first !! "/src/etc/motd"
          = host_with_foreign_motd !! "/src/etc/motd") as Hsrc
    by (vm_compute; reflexivity).
  split_and!; [vm_compute; reflexivity | exact Hok | exact Hsrc |].
  apply (check_idempotent (linux []) (λ _, eq_refl) (run_cfg false false)
           eq_refl (run_cfg true true) "/src/etc/motd" "/etc/motd"
           host_with_foreign_motd (false, true) (fs_of first) (events_of first)).
  - split; [reflexivity|]. right.
    apply (bool_decide_unpack
             (map_Forall (λ _ i, is_symlink i = true
                                 → Z.land (i_perm i) 4095 = 511)
                host_with_foreign_motd)).
    vm_compute. exact I.
  - exact Hfirst.
  - intros _ isrc Hi. vm_compute in Hi. injection Hi as <-. reflexivity.
  - exact Hok.
  - exact Hsrc.
Defined.
End Examples.

(** * The further properties on the small host *)

Section MoreExamples.
#[local] Existing Instances plain_hashlib plain_devnumbers plain_libtext
  plain_libtime.

(** Source and destination of [/etc/motd] are both regular files. *)
Lemma vnode_dest_obj_same_type_witness :
  vnode_dest_obj (linux [])
    (object_for host_with_motd "/src/etc/motd" "/etc/motd")
  = vnode_obj (linux []) (object_for host_with_motd "/src/etc/motd" "/etc/motd").
Proof.
  exact (vnode_dest_obj_same_type (linux [])
           (object_for host_with_motd "/src/etc/motd" "/etc/motd")
           eq_refl eq_refl).
Defined.

(** The destination [/etc/sh] is a link, the source given is the regular
    file [motd]: no handler. *)
Lemma vnode_dest_obj_reads_source_link_witness :
  result_of (vnode_dest_obj (linux [])
               (object_for host_with_link "/src/etc/motd" "/etc/sh")
               host_with_link)
  = Ret None.
Proof.
  rewrite (vnode_dest_obj_reads_source_link (linux [])
             (object_for host_with_link "/src/etc/motd" "/etc/sh")
             host_with_link eq_refl).
  - reflexivity.
  - intros i Hi. vm_compute in Hi. injection Hi as <-. reflexivity.
Defined.


(** The same run: its one changing call. *)
Lemma purge_timestamp_only_utime_witness :
  let so := object_for host_with_newer_motd "/src/etc/motd" "/etc/motd" in
  DRY_RUN (run_cfg false false) = false ∧
  ∃ isrc idst,
    lstat_view (linux []) "/src/etc/motd" host_with_newer_motd = Some isrc ∧
    lstat_view (linux []) "/etc/motd" host_with_newer_motd = Some idst ∧
    i_mtime isrc > i_mtime idst ∧
    mutations (events_of (check_purge_timestamp (run_cfg false false) (linux [])
                            so host_with_newer_motd))
    = [Utime "/etc/motd" (i_atime isrc) (i_mtime isrc)].
Proof.
  intros so.
  apply (purge_timestamp_only_utime (linux []) (run_cfg false false) so
           host_with_newer_motd (Utime "/etc/motd" 200 100)).
  vm_compute. apply list_elem_of_here.
Defined.

(** A socket that is newer than the socket at the destination. *)
Lemma purge_timestamp_without_handler_witness :
  result_of (check_purge_timestamp (run_cfg false false) (linux [])
               (object_for host_with_sockets "/src/etc/sock" "/etc/sock")
               host_with_sockets)
  = Raise (AttributeError "'NoneType' object has no attribute 'set_times'").
Proof.
  exact (proj1 (purge_timestamp_without_handler (linux []) (run_cfg false false)
                  (object_for host_with_sockets "/src/etc/sock" "/etc/sock")
                  host_with_sockets (Inode Socket 420 0 0 5 5)
                  (Inode Socket 420 0 0 0 0)
                  eq_refl eq_refl eq_refl ltac:(vm_compute; reflexivity))).
Defined.

(** [/etc/motd] is missing: [(true, false)]. *)
Lemma check_never_both_witness :
  result_of (check (run_cfg false false) (linux [])
               (object_for host "/src/etc/motd" "/etc/motd") host)
  = Ret (true, false) ∧ false = false.
Proof.
  assert (result_of (check (run_cfg false false) (linux [])
                       (object_for host "/src/etc/motd" "/etc/motd") host)
          = Ret (true, false)) as Hr by (vm_compute; reflexivity).
  split; [exact Hr|].
  exact (check_never_both (run_cfg false false) (linux [])
           (object_for host "/src/etc/motd" "/etc/motd") host false Hr).
Defined.


(** The first [check] of [/etc/motd] leaves a copy of the source. *)
Lemma check_replaces_with_copy_witness :
  let first :=
    check (run_cfg false false) (linux [])
      (object_for host "/src/etc/motd" "/etc/motd") host in
  ∃ isrc idst,
    fs_of first !! "/src/etc/motd" = Some isrc ∧
    fs_of first !! "/etc/motd" = Some idst ∧
    same_content (i_node isrc) (i_node idst) ∧
    i_uid idst = i_uid isrc ∧ i_gid idst = i_gid isrc ∧
    Z.land (i_perm idst) 4095 = Z.land (i_perm isrc) 4095.
Proof.
  intros first.
  apply (check_replaces_with_copy (linux []) (λ _, eq_refl)
           (run_cfg false false) eq_refl "/src/etc/motd" "/etc/motd" host
           (fs_of first) false (events_of first)).
  - split; [reflexivity|]. right.
    apply (bool_decide_unpack
             (map_Forall (λ _ i, is_symlink i = true
                                 → Z.land (i_perm i) 4095 = 511) host)).
    vm_compute. exact I.
  - vm_compute. reflexivity.
  - vm_compute. reflexivity.
  - vm_compute. reflexivity.
Defined.

(** [create] of [/etc/motd], and the comparison after it. *)
Lemma create_then_compare_witness :
  let fs' := fs_of (create (run_cfg false false) (linux [])
                      (Build_VNode "/etc/motd" (snapshot (root_file hello))
                         false (VNodeFile "/src/etc/motd")) host) in
  ∃ idst,
    fs' !! "/etc/motd" = Some idst ∧
    (∀ k, k ≠ "/etc/motd" → fs' !! k = host !! k) ∧
    entry_type_of_node (i_node idst) = entry_type_of_node (i_node (root_file hello)) ∧
    result_of (compare (run_cfg true true) (linux [])
                 (Build_VNode "/etc/motd" (snapshot (root_file hello)) true
                    (VNodeFile "/src/etc/motd"))
                 "/src/etc/motd" (snapshot idst) fs') = Ret true.
Proof.
  exact (create_then_compare (linux []) (λ _, eq_refl) (run_cfg false false)
           eq_refl (run_cfg true true) "/src/etc/motd" "/etc/motd" host
           (root_file hello) (VNodeFile "/src/etc/motd")
           eq_refl eq_refl eq_refl).
Defined.

(** The link [/etc/sh] points where the source points. *)
Lemma link_compare_decides_witness :
  result_of (compare (run_cfg false false) (linux []) etc_sh "/src/etc/sh"
               (stat_in host_with_link "/etc/sh") host_with_link)
  = Ret true.
Proof.
  apply (proj1 (link_compare_decides (run_cfg false false) (linux []) etc_sh
                  "/bin/bash" "/src/etc/sh" (stat_in host_with_link "/etc/sh")
                  host_with_link eq_refl)).
  split_and!; [reflexivity | reflexivity |].
  exists (Inode (Symlink "/bin/bash") 511 0 0 0 0).
  split; reflexivity.
Defined.

(** [/dev/null] has the numbers of the source. *)
Lemma device_compare_decides_witness :
  result_of (compare (run_cfg false false) (linux []) dev_null "/src/dev/null"
               (stat_in host_with_null "/dev/null") host_with_null)
  = Ret true.
Proof.
  apply (device_compare_decides (run_cfg false false) (linux []) dev_null
           (stat_of (Inode (CharDev 259) 438 0 0 0 0)) "/src/dev/null"
           (stat_in host_with_null "/dev/null") host_with_null
           (or_introl eq_refl)).
  split_and!; [reflexivity | reflexivity |].
  exists (Inode (CharDev 259) 438 0 0 0 0).
  split_and!; reflexivity.
Defined.

(** On the set-user-ID program [/etc/su]: owner first leaves the mode
    04755, mode first leaves 0755. *)
Lemma set_owner_before_permissions_witness :
  let cfg := run_cfg false false in
  let fs := host_with_foreign_su in
  fs_of ((set_owner cfg (linux []) etc_su ;;
          set_permissions cfg (linux []) etc_su) fs) !! "/etc/su"
  = Some (su_file 0) ∧
  fs_of ((set_permissions cfg (linux []) etc_su ;;
          set_owner cfg (linux []) etc_su) fs) !! "/etc/su"
  = Some (Inode (Reg hello) 493 0 0 0 0).
Proof.
  intros cfg fs.
  destruct (set_owner_before_permissions cfg (linux []) etc_su fs (su_file 500)
              eq_refl eq_refl eq_refl) as (E1 & E2 & _).
  rewrite E1, E2. split; vm_compute; reflexivity.
Defined.

(** [/etc/app] is there: [create] of the directory only looks. *)
Lemma dir_create_existing_witness :
  create (run_cfg false false) (linux []) etc_app host
  = (Ret tt, host, [EvSys (Stat "/etc/app") true]).
Proof.
  exact (proj2 (proj1 (dir_create_existing (run_cfg false false) (linux [])
                         etc_app host eq_refl) root_dir eq_refl)
           eq_refl eq_refl).
Defined.

(** [/etc/motd] is deleted and logged. *)
Lemma harddelete_logs_what_it_deleted_witness :
  let o := harddelete (run_cfg false false) (linux []) etc_motd host_with_motd in
  EvLog "deleted /etc/motd" ∈ events_of o ∧
  fs_of o = delete "/etc/motd" host_with_motd.
Proof.
  intros o.
  destruct (harddelete_logs_what_it_deleted (run_cfg false false) (linux [])
              etc_motd host_with_motd ltac:(discriminate) eq_refl)
    as (Hlog & Hgone & _).
  assert (EvLog "deleted /etc/motd" ∈ events_of o) as Hin.
  { apply Hlog. split; [reflexivity|]. exists (root_file hello).
    split; reflexivity. }
  split; [exact Hin | exact (Hgone Hin)].
Defined.

(** Two lines without a colon. *)
Lemma aggregate_plain_witness :
  aggregate ["uptime"; "  no news  "] = Some ["uptime"; "no news"].
Proof.
  apply (aggregate_plain ["uptime"; "  no news  "]).
  apply (proj1 (Forall_forall _ _)).
  apply (bool_decide_unpack
           (Forall (λ line : string, ":"%char ∉ String.list_ascii_of_string line)
              ["uptime"; "  no news  "])).
  vm_compute. exact I.
Defined.
End MoreExamples.
